(** * performance-helper: the collector, the render monitor and the reporter

    A shallow embedding of the three core classes of the SDK
    ([PerformanceCollector], [RenderMonitor], [Reporter]) and the
    properties their specification states about them.

    Numbers.  A JavaScript [number] is modelled as a rational ([Q]): the
    arithmetic of the code ([+], [-], [*], [/], comparisons) is exact on
    the values involved here, and [Math.round] is the usual rounding to
    the nearest integer, ties going up.  [NaN] and the infinities are not
    modelled; equality of numbers is [Qeq] ([==]).

    Host.  What the code reads from the browser (the performance timeline,
    [Date.now], the computed style, ...) is passed explicitly as a record;
    the callbacks the browser fires are the events of a step function.

    Exceptions.  A call that can throw returns an [option], [None]
    standing for the exception.  [getElementPath] is such a call: it
    throws on an element without id whose [className] is not a string
    (see [Dom.selector]).  Where the code does not catch the exception,
    the callback it is raised in ends there: what the callback wrote
    before stays, the rest of its loop is not run. *)

From Stdlib Require Import ZArith QArith Qround Qabs List String Ascii Bool Lia Lqa.
From Stdlib Require Import Sorted Permutation DecimalString.
Import ListNotations.

Local Open Scope string_scope.
Local Open Scope list_scope.
Local Open Scope Q_scope.

(* ================================================================== *)
(** ** JavaScript primitives used by the code *)

Module JS.

Abbreviation number := Q.

(** [Math.round]: nearest integer, halves rounded towards +infinity. *)
Definition Math_round (x : number) : number :=
  inject_Z (Qfloor (x + (1 # 2))).

(** [Math.floor] *)
Definition Math_floor (x : number) : number := inject_Z (Qfloor x).

(** [x < y] and [x > y] on numbers. *)
Definition lt (x y : number) : bool := negb (Qle_bool y x).
Definition gt (x y : number) : bool := lt y x.
Definition ge (x y : number) : bool := Qle_bool y x.

(** Truthiness of a number: anything but zero. *)
Definition truthy (x : number) : bool := negb (Qeq_bool x 0).

(** [a || b] on numbers. *)
Definition or_num (a b : number) : number := if truthy a then a else b.

(** An optional string property: [None] is [undefined]/[null];
    the empty string is falsy too. *)
Definition truthy_str (s : option string) : bool :=
  match s with
  | Some x => negb (String.eqb x "")
  | None => false
  end.

(** [a || b] where [b] is a string literal. *)
Definition or_str (a : option string) (b : string) : string :=
  match a with
  | Some x => if String.eqb x "" then b else x
  | None => b
  end.

(** [if (x) o.f = x]: the property is copied only when truthy. *)
Definition copy_if_truthy (s : option string) : option string :=
  if truthy_str s then s else None.

(** [hay.includes(needle)] *)
Fixpoint includes (hay needle : string) : bool :=
  if String.prefix needle hay then true
  else match hay with
       | EmptyString => false
       | String _ rest => includes rest needle
       end.

Definition is_space (c : ascii) : bool :=
  let n := nat_of_ascii c in
  (Nat.eqb n 32 || Nat.eqb n 9 || Nat.eqb n 10 || Nat.eqb n 11
   || Nat.eqb n 12 || Nat.eqb n 13)%bool.

Fixpoint trimStart (s : string) : string :=
  match s with
  | EmptyString => EmptyString
  | String c rest => if is_space c then trimStart rest else s
  end.

Fixpoint trimEnd (s : string) : string :=
  match s with
  | EmptyString => EmptyString
  | String c rest =>
      let rest' := trimEnd rest in
      if (is_space c && String.eqb rest' "")%bool then EmptyString
      else String c rest'
  end.

(** [s.trim()] *)
Definition trim (s : string) : string := trimEnd (trimStart s).

Definition lower_ascii (c : ascii) : ascii :=
  let n := nat_of_ascii c in
  if (Nat.leb 65 n && Nat.leb n 90)%bool then ascii_of_nat (n + 32) else c.

(** [s.toLowerCase()] (ASCII letters) *)
Fixpoint toLowerCase (s : string) : string :=
  match s with
  | EmptyString => EmptyString
  | String c rest => String (lower_ascii c) (toLowerCase rest)
  end.

(** [xs[xs.length - 1]] *)
Definition last_entry {A} (xs : list A) : option A :=
  match rev xs with
  | [] => None
  | x :: _ => Some x
  end.

(** A stable sort by decreasing key, as [Array.prototype.sort] with the
    comparator [(a, b) => b[1] - a[1]]. *)
Fixpoint insert_desc {A} (x : A * number) (l : list (A * number))
  : list (A * number) :=
  match l with
  | [] => [x]
  | y :: rest =>
      if Qle_bool (snd y) (snd x) then x :: l else y :: insert_desc x rest
  end.

Definition sort_desc {A} (l : list (A * number)) : list (A * number) :=
  fold_right insert_desc [] l.

End JS.

(* ================================================================== *)
(** ** DOM elements *)

(** An element is known by its identity; the properties the code reads
    ([tagName], [id], [className]) come with it.  [className] is [None]
    when it is not a string (SVG elements). *)
Record Element := mkElement {
  eid : nat;
  tagName : string;
  elId : string;
  className : option string
}.

Definition same_element (a b : Element) : bool := Nat.eqb (eid a) (eid b).

(* ================================================================== *)
(** ** PerformanceCollector *)

Module Collector.

Import JS.

(** *** Raw observations delivered by the browser *)

Record PaintEntry := {
  p_name : string;
  p_startTime : number
}.

(** A largest-contentful-paint candidate.  [renderTime] and [loadTime]
    are [None] when [undefined] or [null]; [lcp_element] is [None] when
    the entry carries no element. *)
Record LcpEntry := {
  renderTime : option number;
  loadTime : option number;
  lcp_startTime : number;
  lcp_element : option Element
}.

Record FirstInputEntry := {
  processingStart : number;
  fi_startTime : number
}.

Record LayoutShift := {
  ls_startTime : number;
  ls_value : number;
  hadRecentInput : bool
}.

Record RawAttribution := {
  a_entryType : option string;
  a_name : option string;
  a_containerType : option string;
  a_containerName : option string;
  a_containerId : option string;
  a_containerSrc : option string;
  a_scriptURL : option string;
  a_element : option Element
}.

(** A long-task entry; [lt_attribution] is [None] when the property is
    missing or is not an array. *)
Record LongTaskEntry := {
  lt_name : string;
  lt_startTime : number;
  lt_duration : number;
  lt_attribution : option (list RawAttribution);
  lt_scriptURL : option string
}.

Record NavigationTiming := {
  nav_startTime : number;
  fetchStart : number;
  domainLookupStart : number;
  domainLookupEnd : number;
  connectStart : number;
  connectEnd : number;
  requestStart : number;
  responseStart : number;
  responseEnd : number;
  domInteractive : number;
  domContentLoadedEventEnd : number;
  loadEventEnd : number
}.

(** The deprecated [performance.timing]: integer epoch milliseconds. *)
Record LegacyTiming := {
  t_navigationStart : Z;
  t_domainLookupStart : Z;
  t_domainLookupEnd : Z;
  t_connectStart : Z;
  t_connectEnd : Z;
  t_responseStart : Z;
  t_responseEnd : Z;
  t_domInteractive : Z;
  t_domContentLoadedEventEnd : Z;
  t_loadEventEnd : Z
}.

Inductive EntryType := Paint | LargestContentfulPaint | FirstInput
                     | LayoutShiftType | LongTaskType.

(** [window.performance]; a timeline query is [None] when it throws. *)
Record Performance := {
  has_getEntriesByType : bool;
  paintEntries : list PaintEntry;
  lcpEntries : option (list LcpEntry);
  navigationEntries : option (list NavigationTiming);
  timing : option LegacyTiming
}.

Record Host := {
  hasPerformanceObserver : bool;      (* 'PerformanceObserver' in window *)
  supports : EntryType -> bool;       (* observe({type}) does not throw *)
  performance : option Performance
}.

(** *** The metric object *)

Record LongTaskAttribution := {
  taskType : string;
  containerType : option string;
  containerName : option string;
  containerId : option string;
  containerSrc : option string;
  at_name : option string;
  scriptURL : option string;
  element : option Element;
  elementPath : option string;
  elementTag : option string;
  elementId : option string;
  elementClass : option string
}.

Record LongTaskInfo := {
  startTime : number;
  duration : number;
  attribution : list LongTaskAttribution
}.

Inductive MetricName :=
  fcp | lcp | fid | cls | tbt | ttfb | dns | tcp | request | parse
| domContentLoaded | load.

Definition MetricName_eqb (a b : MetricName) : bool :=
  match a, b with
  | fcp, fcp | lcp, lcp | fid, fid | cls, cls | tbt, tbt | ttfb, ttfb
  | dns, dns | tcp, tcp | request, request | parse, parse
  | domContentLoaded, domContentLoaded | load, load => true
  | _, _ => false
  end.

(** [Partial<PerformanceMetrics>]: every property may be absent. *)
Record Metrics := {
  num : MetricName -> option number;
  lcpElement : option string;
  longTasks : option (list LongTaskInfo)
}.

Definition empty_metrics : Metrics :=
  {| num := fun _ => None; lcpElement := None; longTasks := None |}.

Definition set_num (k : MetricName) (v : number) (m : Metrics) : Metrics :=
  {| num := fun k' => if MetricName_eqb k k' then Some v else num m k';
     lcpElement := lcpElement m;
     longTasks := longTasks m |}.

Definition set_lcpElement (p : string) (m : Metrics) : Metrics :=
  {| num := num m; lcpElement := Some p; longTasks := longTasks m |}.

Definition set_longTasks (l : list LongTaskInfo) (m : Metrics) : Metrics :=
  {| num := num m; lcpElement := lcpElement m; longTasks := Some l |}.

(** *** The collector object *)

(** An observer field: [None] is [undefined]; [Some b] is an observer
    object, [b] telling whether it is still observing. *)
Definition observer := option bool.

Definition observing (o : observer) : bool :=
  match o with Some true => true | _ => false end.

(** [if (o) o.disconnect()] *)
Definition disconnect (o : observer) : observer :=
  match o with Some _ => Some false | None => None end.

(** [clsValue] and [clsEntries] are the variables the layout-shift
    callback closes over. *)
Record t := {
  metrics : Metrics;
  lcpObserver : observer;
  fidObserver : observer;
  clsObserver : observer;
  fcpObserver : observer;
  longTaskObserver : observer;
  initialized : bool;
  clsValue : number;
  clsEntries : list LayoutShift
}.

Definition create : t :=
  {| metrics := empty_metrics;
     lcpObserver := None; fidObserver := None; clsObserver := None;
     fcpObserver := None; longTaskObserver := None;
     initialized := false;
     clsValue := 0; clsEntries := [] |}.

Definition with_metrics (m : Metrics) (c : t) : t :=
  {| metrics := m;
     lcpObserver := lcpObserver c; fidObserver := fidObserver c;
     clsObserver := clsObserver c; fcpObserver := fcpObserver c;
     longTaskObserver := longTaskObserver c;
     initialized := initialized c;
     clsValue := clsValue c; clsEntries := clsEntries c |}.

Definition with_lcpObserver (o : observer) (c : t) : t :=
  {| metrics := metrics c;
     lcpObserver := o; fidObserver := fidObserver c;
     clsObserver := clsObserver c; fcpObserver := fcpObserver c;
     longTaskObserver := longTaskObserver c;
     initialized := initialized c;
     clsValue := clsValue c; clsEntries := clsEntries c |}.

Definition with_fidObserver (o : observer) (c : t) : t :=
  {| metrics := metrics c;
     lcpObserver := lcpObserver c; fidObserver := o;
     clsObserver := clsObserver c; fcpObserver := fcpObserver c;
     longTaskObserver := longTaskObserver c;
     initialized := initialized c;
     clsValue := clsValue c; clsEntries := clsEntries c |}.

Definition with_clsObserver (o : observer) (c : t) : t :=
  {| metrics := metrics c;
     lcpObserver := lcpObserver c; fidObserver := fidObserver c;
     clsObserver := o; fcpObserver := fcpObserver c;
     longTaskObserver := longTaskObserver c;
     initialized := initialized c;
     clsValue := clsValue c; clsEntries := clsEntries c |}.

Definition with_fcpObserver (o : observer) (c : t) : t :=
  {| metrics := metrics c;
     lcpObserver := lcpObserver c; fidObserver := fidObserver c;
     clsObserver := clsObserver c; fcpObserver := o;
     longTaskObserver := longTaskObserver c;
     initialized := initialized c;
     clsValue := clsValue c; clsEntries := clsEntries c |}.

Definition with_longTaskObserver (o : observer) (c : t) : t :=
  {| metrics := metrics c;
     lcpObserver := lcpObserver c; fidObserver := fidObserver c;
     clsObserver := clsObserver c; fcpObserver := fcpObserver c;
     longTaskObserver := o;
     initialized := initialized c;
     clsValue := clsValue c; clsEntries := clsEntries c |}.

Definition with_initialized (b : bool) (c : t) : t :=
  {| metrics := metrics c;
     lcpObserver := lcpObserver c; fidObserver := fidObserver c;
     clsObserver := clsObserver c; fcpObserver := fcpObserver c;
     longTaskObserver := longTaskObserver c;
     initialized := b;
     clsValue := clsValue c; clsEntries := clsEntries c |}.

Definition with_session (v : number) (es : list LayoutShift) (c : t) : t :=
  {| metrics := metrics c;
     lcpObserver := lcpObserver c; fidObserver := fidObserver c;
     clsObserver := clsObserver c; fcpObserver := fcpObserver c;
     longTaskObserver := longTaskObserver c;
     initialized := initialized c;
     clsValue := v; clsEntries := es |}.

(** [this.metrics.k = v] *)
Definition store (k : MetricName) (v : number) (c : t) : t :=
  with_metrics (set_num k v (metrics c)) c.

Section Operations.

(** [getElementPath] of the utilities serialises an element into a
    selector-like path by walking the document upwards; [None] when it
    throws (see [Dom.selector]: an element on the way has no id and a
    [className] that is not a string). *)
Variable getElementPath : Element -> option string.

(** **** Navigation timing *)

Definition collectNavigationTimingLegacy (h : Host) (c : t) : t :=
  match performance h with
  | None => c
  | Some perf =>
      match timing perf with
      | None => c
      | Some timing =>
          let c := store dns (inject_Z (t_domainLookupEnd timing - t_domainLookupStart timing)) c in
          let c := store tcp (inject_Z (t_connectEnd timing - t_connectStart timing)) c in
          let c := store ttfb (inject_Z (t_responseStart timing - t_navigationStart timing)) c in
          let c := store request (inject_Z (t_responseEnd timing - t_responseStart timing)) c in
          let c := store parse (inject_Z (t_domInteractive timing - t_responseEnd timing)) c in
          let c := store domContentLoaded
                     (inject_Z (t_domContentLoadedEventEnd timing - t_navigationStart timing)) c in
          store load (inject_Z (t_loadEventEnd timing - t_navigationStart timing)) c
      end
  end.

Definition collectNavigationTiming (h : Host) (c : t) : t :=
  match performance h with
  | None => c
  | Some perf =>
      if negb (has_getEntriesByType perf) then c
      else
        match navigationEntries perf with
        | None => collectNavigationTimingLegacy h c     (* catch (e) *)
        | Some navigationEntries =>
            match navigationEntries with
            | [] => c
            | navigation :: _ =>
                let c := store dns (Math_round (domainLookupEnd navigation - domainLookupStart navigation)) c in
                let c := store tcp (Math_round (connectEnd navigation - connectStart navigation)) c in
                let c := store ttfb
                           (Math_round (responseStart navigation
                                        - or_num (requestStart navigation) (fetchStart navigation))) c in
                let c := store request (Math_round (responseEnd navigation - responseStart navigation)) c in
                let c := store parse (Math_round (domInteractive navigation - responseEnd navigation)) c in
                let c := store domContentLoaded
                           (Math_round (domContentLoadedEventEnd navigation - nav_startTime navigation)) c in
                store load (Math_round (loadEventEnd navigation - nav_startTime navigation)) c
            end
        end
  end.

(** **** FCP *)

Definition is_fcp (entry : PaintEntry) : bool :=
  String.eqb (p_name entry) "first-contentful-paint".

Definition fcp_callback (entries : list PaintEntry) (c : t) : t :=
  fold_left
    (fun c entry =>
       if is_fcp entry then
         let c := store fcp (Math_round (p_startTime entry)) c in
         with_fcpObserver (disconnect (fcpObserver c)) c
       else c)
    entries c.

Definition observeFCP (h : Host) (c : t) : t :=
  let c :=
    match performance h with
    | Some perf =>
        if has_getEntriesByType perf then
          fold_left
            (fun c entry =>
               if is_fcp entry then store fcp (Math_round (p_startTime entry)) c else c)
            (paintEntries perf) c
        else c
    | None => c
    end in
  match num (metrics c) fcp with
  | None =>
      if hasPerformanceObserver h
      then with_fcpObserver (Some (supports h Paint)) c
      else c
  | Some _ => c
  end.

(** **** LCP *)

(** [x !== undefined && x !== null && x > 0] *)
Definition positive (x : option number) : bool :=
  match x with
  | Some v => gt v 0
  | None => false
  end.

Definition observeLCP (h : Host) (c : t) : t :=
  if negb (hasPerformanceObserver h) then c
  else with_lcpObserver (Some (supports h LargestContentfulPaint)) c.

(** The callback of the largest-contentful-paint observer. *)
Definition lcp_callback (entries : list LcpEntry) (c : t) : t :=
  match last_entry entries with
  | None => c
  | Some lastEntry =>
      let lcpValue :=
        if positive (renderTime lastEntry)
        then match renderTime lastEntry with
             | Some r => r
             | None => lcp_startTime lastEntry
             end
        else if positive (loadTime lastEntry)
        then match loadTime lastEntry with
             | Some l => l
             | None => lcp_startTime lastEntry
             end
        else lcp_startTime lastEntry in
      if gt lcpValue 0 then
        let c := store lcp (Math_round lcpValue) c in
        match lcp_element lastEntry with
        | Some el =>
            match getElementPath el with
            | Some elementPath =>
                if negb (String.eqb elementPath "")
                then with_metrics (set_lcpElement elementPath (metrics c)) c
                else c
            | None => c                               (* the callback ends here *)
            end
        | None => c
        end
      else c
  end.

Definition collectFinalLCP (h : Host) (c : t) : t :=
  match performance h with
  | None => c
  | Some perf =>
      if negb (has_getEntriesByType perf) then c
      else
        match lcpEntries perf with
        | None => c                                   (* catch (e) *)
        | Some lcpEntries =>
            if (0 <? List.length lcpEntries)%nat then
              match last_entry lcpEntries with
              | None => c
              | Some lastEntry =>
                  let lcpValue :=
                    if positive (renderTime lastEntry)
                    then match renderTime lastEntry with
                         | Some r => r
                         | None => lcp_startTime lastEntry
                         end
                    else if positive (loadTime lastEntry)
                    then match loadTime lastEntry with
                         | Some l => l
                         | None => lcp_startTime lastEntry
                         end
                    else lcp_startTime lastEntry in
                  if gt lcpValue 0 then
                    let c := store lcp (Math_round lcpValue) c in
                    match lcp_element lastEntry with
                    | Some el =>
                        match getElementPath el with
                        | Some elementPath =>
                            if negb (String.eqb elementPath "")
                            then with_metrics (set_lcpElement elementPath (metrics c)) c
                            else c
                        | None => c                   (* catch (e) *)
                        end
                    | None => c
                    end
                  else c
              end
            else c
        end
  end.

(** **** FID *)

Definition observeFID (h : Host) (c : t) : t :=
  if negb (hasPerformanceObserver h) then c
  else with_fidObserver (Some (supports h FirstInput)) c.

Definition fid_callback (entries : list FirstInputEntry) (c : t) : t :=
  fold_left
    (fun c eventEntry =>
       if (truthy (processingStart eventEntry) && truthy (fi_startTime eventEntry))%bool then
         let c := store fid (Math_round (processingStart eventEntry - fi_startTime eventEntry)) c in
         with_fidObserver (disconnect (fidObserver c)) c
       else c)
    entries c.

(** **** CLS *)

Definition observeCLS (h : Host) (c : t) : t :=
  if negb (hasPerformanceObserver h) then c
  else with_clsObserver (Some (supports h LayoutShiftType)) (with_session 0 [] c).

(** The test that decides between merging and replacing. *)
Definition merges (clsValue : number) (clsEntries : list LayoutShift)
           (layoutShift : LayoutShift) : bool :=
  (truthy clsValue
   && (0 <? List.length clsEntries)%nat
   && match last_entry clsEntries with
      | Some lastSessionEntry =>
          lt (ls_startTime layoutShift - ls_startTime lastSessionEntry) 1000
      | None => false
      end
   && match hd_error clsEntries with
      | Some firstSessionEntry =>
          lt (ls_startTime layoutShift - ls_startTime firstSessionEntry) 5000
      | None => false
      end)%bool.

(** The body of the loop of the layout-shift callback, on the two
    variables of the closure. *)
Definition cls_entry (s : number * list LayoutShift) (layoutShift : LayoutShift)
  : number * list LayoutShift :=
  let '(clsValue, clsEntries) := s in
  if negb (hadRecentInput layoutShift) then
    if merges clsValue clsEntries layoutShift
    then (clsValue + ls_value layoutShift, clsEntries ++ [layoutShift])
    else (ls_value layoutShift, [layoutShift])
  else s.

Definition cls_callback (entries : list LayoutShift) (c : t) : t :=
  let '(clsValue, clsEntries) :=
    fold_left cls_entry entries (clsValue c, clsEntries c) in
  store cls (Math_round (clsValue * 1000) / 1000)
        (with_session clsValue clsEntries c).

(** **** Long tasks and TBT *)

(** The record built for one attribution, given the path of its
    element, if it has one. *)
Definition attribution_info (attr : RawAttribution) (elementPath : option string)
  : LongTaskAttribution :=
  {| taskType :=
       match copy_if_truthy (a_entryType attr) with
       | Some ty => ty
       | None => or_str (a_name attr) "unknown"
       end;
     at_name := a_name attr;
     containerType := copy_if_truthy (a_containerType attr);
     containerName := copy_if_truthy (a_containerName attr);
     containerId := copy_if_truthy (a_containerId attr);
     containerSrc := copy_if_truthy (a_containerSrc attr);
     scriptURL := copy_if_truthy (a_scriptURL attr);
     element := a_element attr;
     elementPath := elementPath;
     elementTag := option_map (fun el => toLowerCase (tagName el)) (a_element attr);
     elementId :=
       match a_element attr with
       | Some el => copy_if_truthy (Some (elId el))
       | None => None
       end;
     elementClass :=
       match a_element attr with
       | Some el =>
           if truthy_str (className el) then option_map trim (className el) else None
       | None => None
       end |}.

(** One turn of [attribution.forEach]; [None] when [getElementPath]
    throws. *)
Definition extract_attribution (attr : RawAttribution) : option LongTaskAttribution :=
  match a_element attr with
  | Some el =>
      match getElementPath el with
      | Some path => Some (attribution_info attr (Some path))
      | None => None
      end
  | None => Some (attribution_info attr None)
  end.

(** The whole [forEach]: it stops at the first attribution that
    throws. *)
Fixpoint extract_attributions (attrs : list RawAttribution)
  : option (list LongTaskAttribution) :=
  match attrs with
  | [] => Some []
  | attr :: rest =>
      match extract_attribution attr with
      | None => None
      | Some info =>
          match extract_attributions rest with
          | None => None
          | Some infos => Some (info :: infos)
          end
      end
  end.

Definition fallback_attribution (entry : LongTaskEntry) : LongTaskAttribution :=
  {| taskType := "unknown";
     at_name := Some (or_str (Some (lt_name entry)) "long-task");
     containerType := None; containerName := None;
     containerId := None; containerSrc := None;
     scriptURL := copy_if_truthy (lt_scriptURL entry);
     element := None; elementPath := None; elementTag := None;
     elementId := None; elementClass := None |}.

(** The [LongTaskInfo] of an entry; [None] when building its
    attribution throws. *)
Definition normalize (entry : LongTaskEntry) : option LongTaskInfo :=
  match match lt_attribution entry with
        | Some attrs => extract_attributions attrs
        | None => Some [fallback_attribution entry]
        end with
  | Some attribution =>
      Some {| startTime := Math_round (lt_startTime entry);
              duration := Math_round (lt_duration entry);
              attribution := attribution |}
  | None => None
  end.

(** [this.metrics.tbt || 0] *)
Definition tbt_or_0 (m : Metrics) : number :=
  match num m tbt with
  | Some v => or_num v 0
  | None => 0
  end.

(** One turn of the loop of the long-task callback.  [None]: the
    turn throws, in [getElementPath] or in the push on an undefined
    [longTasks]; nothing was stored in that turn. *)
Definition longtask_entry (entry : LongTaskEntry) (c : t) : option t :=
  if gt (lt_duration entry) 50 then
    match normalize entry with
    | None => None
    | Some longTaskInfo =>
        match longTasks (metrics c) with
        | None => None
        | Some tasks =>
            let c := with_metrics (set_longTasks (tasks ++ [longTaskInfo]) (metrics c)) c in
            let blockingTime := Math_round (lt_duration entry - 50) in
            Some (store tbt (tbt_or_0 (metrics c) + blockingTime) c)
        end
    end
  else Some c.

(** The callback: an exception ends it, and the entries that follow in
    the batch are not looked at. *)

Fixpoint longtask_callback (entries : list LongTaskEntry) (c : t) : t :=
  match entries with
  | [] => c
  | entry :: rest =>
      match longtask_entry entry c with
      | Some c' => longtask_callback rest c'
      | None => c
      end
  end.

(** The sum [updateTBT] forms over the stored tasks. *)
Definition resum (tasks : list LongTaskInfo) : number :=
  fold_left
    (fun tbt task =>
       if gt (duration task) 50 then tbt + (duration task - 50) else tbt)
    tasks 0.

Definition updateTBT (c : t) : t :=
  match longTasks (metrics c) with
  | None => store tbt 0 c
  | Some [] => store tbt 0 c
  | Some tasks => store tbt (Math_round (resum tasks)) c
  end.

Definition observeTBT (h : Host) (c : t) : t :=
  if negb (hasPerformanceObserver h) then c
  else
    let c :=
      match longTasks (metrics c) with
      | None => with_metrics (set_longTasks [] (metrics c)) c
      | Some _ => c
      end in
    let c := store tbt 0 c in
    let c := with_longTaskObserver (Some (supports h LongTaskType)) c in
    if supports h LongTaskType then updateTBT c
    else c.                                            (* catch (e) *)

(** **** The public methods *)

Definition collectWebVitals (h : Host) (c : t) : t :=
  observeTBT h (observeCLS h (observeFID h (observeLCP h (observeFCP h c)))).

Definition init (h : Host) (c : t) : t :=
  if initialized c then c
  else with_initialized true (collectWebVitals h c).

(** [collect()] returns a copy of the metric object; the collector is
    returned as well, since the call updates it. *)
Definition collect (h : Host) (c : t) : t * Metrics :=
  let c := collectNavigationTiming h c in
  let c := collectFinalLCP h c in
  (c, metrics c).

Definition destroy (c : t) : t :=
  let c := with_lcpObserver (disconnect (lcpObserver c)) c in
  let c := with_fidObserver (disconnect (fidObserver c)) c in
  let c := with_clsObserver (disconnect (clsObserver c)) c in
  let c := with_fcpObserver (disconnect (fcpObserver c)) c in
  let c := with_longTaskObserver (disconnect (longTaskObserver c)) c in
  with_initialized false c.

(** **** What can happen to a collector *)

Inductive event :=
| Init (h : Host)
| Collect (h : Host)
| Destroy
| PaintObserved (entries : list PaintEntry)
| LcpObserved (entries : list LcpEntry)
| FirstInputObserved (entries : list FirstInputEntry)
| LayoutShiftObserved (entries : list LayoutShift)
| LongTaskObserved (entries : list LongTaskEntry).

(** An observer's callback runs only while the observer observes. *)
Definition step (c : t) (ev : event) : t :=
  match ev with
  | Init h => init h c
  | Collect h => fst (collect h c)
  | Destroy => destroy c
  | PaintObserved entries =>
      if observing (fcpObserver c) then fcp_callback entries c else c
  | LcpObserved entries =>
      if observing (lcpObserver c) then lcp_callback entries c else c
  | FirstInputObserved entries =>
      if observing (fidObserver c) then fid_callback entries c else c
  | LayoutShiftObserved entries =>
      if observing (clsObserver c) then cls_callback entries c else c
  | LongTaskObserved entries =>
      if observing (longTaskObserver c) then longtask_callback entries c else c
  end.

Definition run (evs : list event) (c : t) : t := fold_left step evs c.

End Operations.

(** A host with every interface the collector uses. *)
Definition full_host (perf : Performance) : Host :=
  {| hasPerformanceObserver := true;
     supports := fun _ => true;
     performance := Some perf |}.

Definition empty_timeline : Performance :=
  {| has_getEntriesByType := true;
     paintEntries := [];
     lcpEntries := Some [];
     navigationEntries := Some [];
     timing := None |}.

End Collector.

(* ================================================================== *)
(** ** RenderMonitor *)

Module Render.

Import JS.

Record ReflowInfo := {
  timestamp : number;
  duration : number;
  element : option Element;
  elementPath : option string;
  reason : string;
  droppedFrames : option number;
  stackTrace : string
}.

Record RepaintInfo := {
  rp_timestamp : number;
  rp_duration : number;
  rp_element : option Element;
  rp_elementPath : option string;
  rp_reason : string;
  rp_stackTrace : string
}.

(** The computed style, as far as the monitor reads it.  A property
    the browser does not know reads as the empty string (falsy, like
    [undefined]). *)
Record CSSStyleDeclaration := {
  willChange : string;
  transform : string;
  transitionProperty : string;
  transitionDuration : string;
  opacity : string;
  filter : string;
  backdropFilter : string
}.

Record GPUAccelerationInfo := {
  g_element : Element;
  g_elementPath : string;
  isAccelerated : bool;
  accelerationMethods : list string;
  g_willChange : bool;
  g_transform : bool;
  g_opacity : bool;
  g_filter : bool;
  g_backdropFilter : bool
}.

(** A [PerformanceEntry] of type [measure]. *)
Record Measure := {
  m_name : string;
  m_startTime : number;
  m_duration : number
}.

Inductive MutationType := childList | attributes | characterData.

Record MutationRecord := {
  mu_type : MutationType;
  target : Element;
  attributeName : option string
}.

(** What a callback reads from the browser when it runs:
    [performance.now()] and the stack of a freshly thrown [Error]. *)
Record Env := {
  now : number;
  stack : string
}.

(** A frame loop: the variables [lastTime] and [droppedFrames] that
    one call of [monitorFrameRate] declares.  Its callback [checkFrame]
    closes over them and is waiting for the next animation frame; it asks
    for the frame after that itself, in its last statement. *)
Record FrameLoop := {
  lastTime : number;
  frameDrops : number
}.

(** The monitor.  [suspiciousElements] is the [Map] of the reflow
    detector, in insertion order; [frameLoops] are the frame loops whose
    callback is waiting, in the order they asked for the frame. *)
Record t := {
  reflows : list ReflowInfo;
  repaints : list RepaintInfo;
  gpuAcceleratedElements : list GPUAccelerationInfo;
  isMonitoring : bool;
  suspiciousElements : list (Element * number);
  frameLoops : list FrameLoop
}.

Definition create : t :=
  {| reflows := []; repaints := []; gpuAcceleratedElements := [];
     isMonitoring := false; suspiciousElements := [];
     frameLoops := [] |}.

Definition with_reflows (l : list ReflowInfo) (m : t) : t :=
  {| reflows := l; repaints := repaints m;
     gpuAcceleratedElements := gpuAcceleratedElements m;
     isMonitoring := isMonitoring m;
     suspiciousElements := suspiciousElements m;
     frameLoops := frameLoops m |}.

Definition with_repaints (l : list RepaintInfo) (m : t) : t :=
  {| reflows := reflows m; repaints := l;
     gpuAcceleratedElements := gpuAcceleratedElements m;
     isMonitoring := isMonitoring m;
     suspiciousElements := suspiciousElements m;
     frameLoops := frameLoops m |}.

Definition with_gpu (l : list GPUAccelerationInfo) (m : t) : t :=
  {| reflows := reflows m; repaints := repaints m;
     gpuAcceleratedElements := l;
     isMonitoring := isMonitoring m;
     suspiciousElements := suspiciousElements m;
     frameLoops := frameLoops m |}.

Definition with_monitoring (b : bool) (m : t) : t :=
  {| reflows := reflows m; repaints := repaints m;
     gpuAcceleratedElements := gpuAcceleratedElements m;
     isMonitoring := b;
     suspiciousElements := suspiciousElements m;
     frameLoops := frameLoops m |}.

Definition with_suspicious (l : list (Element * number)) (m : t) : t :=
  {| reflows := reflows m; repaints := repaints m;
     gpuAcceleratedElements := gpuAcceleratedElements m;
     isMonitoring := isMonitoring m;
     suspiciousElements := l;
     frameLoops := frameLoops m |}.

Definition with_frameLoops (l : list FrameLoop) (m : t) : t :=
  {| reflows := reflows m; repaints := repaints m;
     gpuAcceleratedElements := gpuAcceleratedElements m;
     isMonitoring := isMonitoring m;
     suspiciousElements := suspiciousElements m;
     frameLoops := l |}.

(** [Map.get], [Map.set] and [Map.delete] on elements. *)
Fixpoint map_get (k : Element) (m : list (Element * number)) : option number :=
  match m with
  | [] => None
  | (k', v) :: rest => if same_element k k' then Some v else map_get k rest
  end.

Fixpoint map_set (k : Element) (v : number) (m : list (Element * number))
  : list (Element * number) :=
  match m with
  | [] => [(k, v)]
  | (k', v') :: rest =>
      if same_element k k' then (k', v) :: rest else (k', v') :: map_set k v rest
  end.

Definition map_delete (k : Element) (m : list (Element * number))
  : list (Element * number) :=
  List.filter (fun kv => negb (same_element k (fst kv))) m.

Definition MAX_REFLOW_RECORDS : nat := 1000.

Section Operations.

(** [getElementPath]; [None] when it throws. *)
Variable getElementPath : Element -> option string.

(** [parseFloat], [None] standing for [NaN]. *)
Variable parseFloat : string -> option number.

Definition getStackTrace (env : Env) (m : t) : string :=
  if ((1000 <? List.length (reflows m))%nat
      || (1000 <? List.length (repaints m))%nat)%bool
  then ""
  else stack env.

(** **** Reflow: the frame heuristic *)

(** The [forEach] of [recordPotentialReflow]: one record per element.
    The flag is [false] when [getElementPath] threw; the records pushed
    before stay. *)
Fixpoint frame_drop_records (env : Env) (deltaTime droppedFrames : number)
         (suspiciousElements : list (Element * number)) (m : t) : t * bool :=
  match suspiciousElements with
  | [] => (m, true)
  | (element, count) :: rest =>
      match getElementPath element with
      | None => (m, false)
      | Some path =>
          let reflowInfo :=
            {| timestamp := now env;
               duration := deltaTime;
               element := Some element;
               elementPath := Some path;
               reason := "frame_drop";
               droppedFrames := Some droppedFrames;
               stackTrace := getStackTrace env m |} in
          frame_drop_records env deltaTime droppedFrames rest
            (with_reflows (reflows m ++ [reflowInfo]) m)
      end
  end.

(** [false]: the call threw. *)
Definition recordPotentialReflow (env : Env) (deltaTime droppedFrames : number)
           (m : t) : t * bool :=
  if (MAX_REFLOW_RECORDS <=? List.length (reflows m))%nat then (m, true)
  else
    let suspiciousElements := firstn 5 (sort_desc (suspiciousElements m)) in
    frame_drop_records env deltaTime droppedFrames suspiciousElements m.

(** The callback [monitorFrameRate] hands to [requestAnimationFrame],
    run for one loop.  It asks for the next frame in its last statement:
    when monitoring has stopped, or when [recordPotentialReflow] throws,
    it does not get there and the loop ends ([None]); otherwise the loop
    goes on with its variables as the callback left them. *)
Definition checkFrame (env : Env) (currentTime : number) (loop : FrameLoop) (m : t)
  : t * option FrameLoop :=
  if negb (isMonitoring m) then (m, None)
  else
    let deltaTime := currentTime - lastTime loop in
    if gt deltaTime 20 then
      let droppedFrames :=
        frameDrops loop + Math_floor ((deltaTime - (1667 # 100)) / (1667 # 100)) in
      if gt droppedFrames 2 then
        let '(m, returned) := recordPotentialReflow env deltaTime droppedFrames m in
        if returned
        then (m, Some {| lastTime := currentTime; frameDrops := droppedFrames |})
        else (m, None)
      else (m, Some {| lastTime := currentTime; frameDrops := droppedFrames |})
    else (m, Some {| lastTime := currentTime; frameDrops := 0 |}).

(** An animation frame: the browser runs the callbacks that wait for
    it, in the order they were registered, with the same time stamp; the
    loops that asked again wait for the next frame. *)
Definition animation_frame (env : Env) (currentTime : number) (m : t) : t :=
  let '(m, waiting) :=
    fold_left
      (fun '(m, waiting) loop =>
         let '(m, next) := checkFrame env currentTime loop m in
         (m, match next with
             | Some loop => waiting ++ [loop]
             | None => waiting
             end))
      (frameLoops m) (m, []) in
  with_frameLoops waiting m.

(** **** Reflow: attribute mutations *)

Definition reflowAttributes : list string :=
  ["width"; "height"; "padding"; "margin"; "border";
   "display"; "position"; "top"; "left"; "right"; "bottom";
   "font-size"; "font-weight"; "line-height";
   "overflow"; "float"; "clear"].

Definition isReflowTriggeringAttribute (attrName : option string) : bool :=
  match attrName with
  | None => false
  | Some attrName =>
      if String.eqb attrName "" then false
      else existsb (fun attr => includes attrName attr) reflowAttributes
  end.

(** [None]: [getElementPath] threw, before the push. *)
Definition recordReflowFromMutation (env : Env) (element : Element)
           (attrName : string) (m : t) : option t :=
  match getElementPath element with
  | None => None
  | Some path =>
      let reflowInfo :=
        {| timestamp := now env;
           duration := 0;
           element := Some element;
           elementPath := Some path;
           reason := ("attribute_change:" ++ attrName)%string;
           droppedFrames := None;
           stackTrace := getStackTrace env m |} in
      Some (with_reflows (reflows m ++ [reflowInfo]) m)
  end.

(** The callback of the mutation observer, one record at a time.  The
    flag is [false] when the turn threw: the element was counted as
    suspicious by then, and nothing was recorded. *)
Definition mutation_entry (env : Env) (m : t) (mutation : MutationRecord) : t * bool :=
  match mu_type mutation with
  | characterData => (m, true)
  | ty =>
      let target := target mutation in
      let count :=
        match map_get target (suspiciousElements m) with
        | Some n => or_num n 0
        | None => 0
        end in
      let m := with_suspicious (map_set target (count + 1) (suspiciousElements m)) m in
      match ty, attributeName mutation with
      | attributes, Some attrName =>
          if (truthy_str (Some attrName)
              && isReflowTriggeringAttribute (Some attrName))%bool
          then match recordReflowFromMutation env target attrName m with
               | Some m' => (m', true)
               | None => (m, false)
               end
          else (m, true)
      | _, _ => (m, true)
      end
  end.

(** [mutations.forEach]: an exception ends the callback, and the
    records that follow in the batch are not looked at. *)
Fixpoint mutation_callback (env : Env) (mutations : list MutationRecord) (m : t) : t :=
  match mutations with
  | [] => m
  | mutation :: rest =>
      let '(m', returned) := mutation_entry env m mutation in
      if returned then mutation_callback env rest m' else m'
  end.

(** **** Reflow and repaint: measured and marked *)

Definition recordReflow (env : Env) (entry : Measure) (m : t) : t :=
  let reflowInfo :=
    {| timestamp := m_startTime entry;
       duration := m_duration entry;
       element := None; elementPath := None;
       reason := "measured";
       droppedFrames := None;
       stackTrace := getStackTrace env m |} in
  with_reflows (reflows m ++ [reflowInfo]) m.

Definition recordRepaint (env : Env) (entry : Measure) (m : t) : t :=
  let repaintInfo :=
    {| rp_timestamp := m_startTime entry;
       rp_duration := m_duration entry;
       rp_element := None; rp_elementPath := None;
       rp_reason := "measured";
       rp_stackTrace := getStackTrace env m |} in
  with_repaints (repaints m ++ [repaintInfo]) m.

(** The callback of the frame observer. *)
Definition measure_callback (env : Env) (entries : list Measure) (m : t) : t :=
  fold_left
    (fun m entry =>
       if includes (m_name entry) "reflow" then recordReflow env entry m
       else if includes (m_name entry) "repaint" then recordRepaint env entry m
       else m)
    entries m.

(** [element ? getElementPath(element) : undefined]; the outer [None]
    when [getElementPath] throws. *)
Definition path_if_given (element : option Element) : option (option string) :=
  match element with
  | None => Some None
  | Some el =>
      match getElementPath el with
      | Some path => Some (Some path)
      | None => None
      end
  end.

(** The deferred part of [markReflow]: [measure] is the first measure
    named [reflow] the timeline holds, if any.  When [getElementPath]
    throws, the timer callback ends before the push. *)
Definition markReflow (env : Env) (element : option Element)
           (reason : option string) (measure : option Measure) (m : t) : t :=
  match measure with
  | None => m
  | Some measure =>
      match path_if_given element with
      | None => m
      | Some elementPath =>
          let reflowInfo :=
            {| timestamp := m_startTime measure;
               duration := m_duration measure;
               element := element;
               elementPath := elementPath;
               reason := or_str reason "manual";
               droppedFrames := None;
               stackTrace := getStackTrace env m |} in
          with_reflows (reflows m ++ [reflowInfo]) m
      end
  end.

Definition markRepaint (env : Env) (element : option Element)
           (reason : option string) (measure : option Measure) (m : t) : t :=
  match measure with
  | None => m
  | Some measure =>
      match path_if_given element with
      | None => m
      | Some elementPath =>
          let repaintInfo :=
            {| rp_timestamp := m_startTime measure;
               rp_duration := m_duration measure;
               rp_element := element;
               rp_elementPath := elementPath;
               rp_reason := or_str reason "manual";
               rp_stackTrace := getStackTrace env m |} in
          with_repaints (repaints m ++ [repaintInfo]) m
      end
  end.

Definition clear (m : t) : t :=
  with_suspicious [] (with_gpu [] (with_repaints [] (with_reflows [] m))).

(** **** GPU acceleration *)

Definition identity_matrix : string := "matrix(1, 0, 0, 1, 0, 0)".

(** A string is falsy when empty. *)
Definition nonempty (s : string) : bool := negb (String.eqb s "").

Definition hasTransformTransition (computedStyle : CSSStyleDeclaration) : bool :=
  let transitionProperty := transitionProperty computedStyle in
  let transitionDuration := transitionDuration computedStyle in
  (nonempty transitionProperty
   && negb (String.eqb transitionProperty "none")
   && match parseFloat transitionDuration with
      | Some d => gt d 0
      | None => false
      end
   && (includes transitionProperty "transform"
       || String.eqb transitionProperty "all"))%bool.

Definition set_methods (l : list string) (i : GPUAccelerationInfo) : GPUAccelerationInfo :=
  {| g_element := g_element i; g_elementPath := g_elementPath i;
     isAccelerated := isAccelerated i; accelerationMethods := l;
     g_willChange := g_willChange i; g_transform := g_transform i;
     g_opacity := g_opacity i; g_filter := g_filter i;
     g_backdropFilter := g_backdropFilter i |}.

(** [info.accelerationMethods.push(tag)] *)
Definition push_method (tag : string) (i : GPUAccelerationInfo) : GPUAccelerationInfo :=
  set_methods (accelerationMethods i ++ [tag]) i.

Definition accelerated (i : GPUAccelerationInfo) : GPUAccelerationInfo :=
  {| g_element := g_element i; g_elementPath := g_elementPath i;
     isAccelerated := true; accelerationMethods := accelerationMethods i;
     g_willChange := g_willChange i; g_transform := g_transform i;
     g_opacity := g_opacity i; g_filter := g_filter i;
     g_backdropFilter := g_backdropFilter i |}.

Definition flag_willChange (i : GPUAccelerationInfo) : GPUAccelerationInfo :=
  {| g_element := g_element i; g_elementPath := g_elementPath i;
     isAccelerated := isAccelerated i; accelerationMethods := accelerationMethods i;
     g_willChange := true; g_transform := g_transform i;
     g_opacity := g_opacity i; g_filter := g_filter i;
     g_backdropFilter := g_backdropFilter i |}.

Definition flag_transform (i : GPUAccelerationInfo) : GPUAccelerationInfo :=
  {| g_element := g_element i; g_elementPath := g_elementPath i;
     isAccelerated := isAccelerated i; accelerationMethods := accelerationMethods i;
     g_willChange := g_willChange i; g_transform := true;
     g_opacity := g_opacity i; g_filter := g_filter i;
     g_backdropFilter := g_backdropFilter i |}.

Definition flag_opacity (i : GPUAccelerationInfo) : GPUAccelerationInfo :=
  {| g_element := g_element i; g_elementPath := g_elementPath i;
     isAccelerated := isAccelerated i; accelerationMethods := accelerationMethods i;
     g_willChange := g_willChange i; g_transform := g_transform i;
     g_opacity := true; g_filter := g_filter i;
     g_backdropFilter := g_backdropFilter i |}.

Definition flag_filter (i : GPUAccelerationInfo) : GPUAccelerationInfo :=
  {| g_element := g_element i; g_elementPath := g_elementPath i;
     isAccelerated := isAccelerated i; accelerationMethods := accelerationMethods i;
     g_willChange := g_willChange i; g_transform := g_transform i;
     g_opacity := g_opacity i; g_filter := true;
     g_backdropFilter := g_backdropFilter i |}.

Definition flag_backdropFilter (i : GPUAccelerationInfo) : GPUAccelerationInfo :=
  {| g_element := g_element i; g_elementPath := g_elementPath i;
     isAccelerated := isAccelerated i; accelerationMethods := accelerationMethods i;
     g_willChange := g_willChange i; g_transform := g_transform i;
     g_opacity := g_opacity i; g_filter := g_filter i;
     g_backdropFilter := true |}.

(** The five checks of [checkGPUAcceleration], in the order of the
    code; each takes the record built so far. *)

Definition check_willChange (computedStyle : CSSStyleDeclaration)
           (info : GPUAccelerationInfo) : GPUAccelerationInfo :=
  let willChange := willChange computedStyle in
  if (nonempty willChange
      && negb (String.eqb willChange "auto")
      && negb (String.eqb (trim willChange) ""))%bool
  then push_method "will-change" (accelerated (flag_willChange info))
  else info.

Definition has3d (transform : string) : bool :=
  (includes transform "translate3d"
   || includes transform "translateZ"
   || includes transform "perspective"
   || includes transform "matrix3d")%bool.

Definition transform_active (transform : string) : bool :=
  (nonempty transform
   && negb (String.eqb transform "none")
   && negb (String.eqb transform identity_matrix))%bool.

Definition check_transform (computedStyle : CSSStyleDeclaration)
           (info : GPUAccelerationInfo) : GPUAccelerationInfo :=
  let transform := transform computedStyle in
  if transform_active transform then
    let info := push_method "transform" (accelerated (flag_transform info)) in
    if has3d transform then
      if negb (existsb (String.eqb "transform-3d") (accelerationMethods info))
      then push_method "transform-3d" info
      else info
    else info
  else if hasTransformTransition computedStyle then
    push_method "transform-transition" (accelerated (flag_transform info))
  else info.

Definition check_opacity (computedStyle : CSSStyleDeclaration)
           (info : GPUAccelerationInfo) : GPUAccelerationInfo :=
  match parseFloat (opacity computedStyle) with
  | Some opacityValue =>
      if (lt opacityValue 1 && ge opacityValue 0)%bool
      then push_method "opacity" (accelerated (flag_opacity info))
      else info
  | None => info
  end.

Definition check_filter (computedStyle : CSSStyleDeclaration)
           (info : GPUAccelerationInfo) : GPUAccelerationInfo :=
  let filter := filter computedStyle in
  if (nonempty filter
      && negb (String.eqb filter "none")
      && negb (String.eqb (trim filter) ""))%bool
  then push_method "filter" (accelerated (flag_filter info))
  else info.

Definition check_backdropFilter (computedStyle : CSSStyleDeclaration)
           (info : GPUAccelerationInfo) : GPUAccelerationInfo :=
  let backdropFilter := backdropFilter computedStyle in
  if (nonempty backdropFilter
      && negb (String.eqb backdropFilter "none")
      && negb (String.eqb (trim backdropFilter) ""))%bool
  then push_method "backdrop-filter" (accelerated (flag_backdropFilter info))
  else info.

(** [None]: [getElementPath] threw, in the first statement. *)
Definition checkGPUAcceleration (element : Element)
           (computedStyle : CSSStyleDeclaration) : option GPUAccelerationInfo :=
  match getElementPath element with
  | None => None
  | Some elementPath =>
      let info :=
        {| g_element := element;
           g_elementPath := elementPath;
           isAccelerated := false;
           accelerationMethods := [];
           g_willChange := false; g_transform := false; g_opacity := false;
           g_filter := false; g_backdropFilter := false |} in
      let info := check_willChange computedStyle info in
      let info := check_transform computedStyle info in
      let info := check_opacity computedStyle info in
      let info := check_filter computedStyle info in
      Some (check_backdropFilter computedStyle info)
  end.

Definition excludeTags : list string :=
  ["META"; "LINK"; "SCRIPT"; "STYLE"; "TITLE"; "HEAD"; "HTML"; "BODY";
   "NOSCRIPT"; "TEMPLATE"; "SVG"; "MATH"].

(** One batch of the scan.  [getComputedStyle] is whatever
    [window.getComputedStyle] holds when the batch runs: a call may
    change a state of its own, [W] (the monitor replaces the function by
    one that counts the reads), and yields [None] when it throws.  An
    element whose style or path cannot be read is skipped.  Returns the
    index the next batch starts at, if any. *)
Definition processGPUAccelerationBatch {W : Type}
           (getComputedStyle : Element -> W -> W * option CSSStyleDeclaration)
           (candidates : list Element) (index : nat) (m : t) (w : W)
  : t * W * option nat :=
  let batchSize := 50%nat in
  let endIndex := Nat.min (index + batchSize) (List.length candidates) in
  let '(m, w) :=
    fold_left
      (fun '(m, w) element =>
         let '(w, computedStyle) := getComputedStyle element w in
         match computedStyle with
         | Some computedStyle =>
             match checkGPUAcceleration element computedStyle with
             | Some gpuInfo =>
                 if isAccelerated gpuInfo
                 then (with_gpu (gpuAcceleratedElements m ++ [gpuInfo]) m, w)
                 else (m, w)
             | None => (m, w)
             end
         | None => (m, w)
         end)
      (firstn (endIndex - index) (skipn index candidates)) (m, w) in
  (m, w, if (endIndex <? List.length candidates)%nat then Some endIndex else None).

(** **** What can happen to a monitor *)

(** [start()], in a browser that has [PerformanceObserver] and
    [MutationObserver]: the observers are set up, and [monitorFrameRate]
    starts a frame loop with fresh variables.  A loop that an earlier
    [start()] began goes on beside it if no frame has come since
    [stop()]. *)
Definition start (env : Env) (m : t) : t :=
  if isMonitoring m then m
  else
    with_frameLoops (frameLoops m ++ [{| lastTime := now env; frameDrops := 0 |}])
      (with_monitoring true m).

Definition stop (m : t) : t := with_monitoring false m.

Inductive event :=
| Start (env : Env)
| Stop
| Clear
| Frame (env : Env) (currentTime : number)
| Mutated (env : Env) (mutations : list MutationRecord)
| SuspicionExpired (target : Element)
| Measured (env : Env) (entries : list Measure)
| MarkReflow (env : Env) (element : option Element) (reason : option string)
             (measure : option Measure)
| MarkRepaint (env : Env) (element : option Element) (reason : option string)
              (measure : option Measure).

(** The observers are connected between [start] and [stop]; an
    animation frame runs the frame callbacks that wait for it. *)
Definition step (m : t) (ev : event) : t :=
  match ev with
  | Start env => start env m
  | Stop => stop m
  | Clear => clear m
  | Frame env currentTime => animation_frame env currentTime m
  | Mutated env mutations =>
      if isMonitoring m then mutation_callback env mutations m else m
  | SuspicionExpired target =>
      with_suspicious (map_delete target (suspiciousElements m)) m
  | Measured env entries =>
      if isMonitoring m then measure_callback env entries m else m
  | MarkReflow env element reason measure => markReflow env element reason measure m
  | MarkRepaint env element reason measure => markRepaint env element reason measure m
  end.

Definition run (evs : list event) (m : t) : t := fold_left step evs m.

End Operations.

(** [parseFloat] on the decimal literals computed styles hold: an
    optional sign, digits, an optional fraction; what follows (a unit)
    is ignored. *)
Definition digit (c : ascii) : option Z :=
  let n := nat_of_ascii c in
  if (Nat.leb 48 n && Nat.leb n 57)%bool then Some (Z.of_nat (n - 48)) else None.

Fixpoint read_fraction (s : string) (acc : Q) (scale : positive) : Q :=
  match s with
  | String c rest =>
      match digit c with
      | Some d => read_fraction rest (acc + (d # (scale * 10))) (scale * 10)
      | None => acc
      end
  | EmptyString => acc
  end.

Fixpoint read_number (s : string) (acc : option Z) : option Q :=
  match s with
  | String c rest =>
      match digit c with
      | Some d =>
          read_number rest
            (Some (match acc with Some a => a * 10 + d | None => d end)%Z)
      | None =>
          if Ascii.eqb c "."
          then match acc, rest with
               | None, String c' _ =>
                   match digit c' with
                   | Some _ => Some (read_fraction rest 0 1)
                   | None => None
                   end
               | None, EmptyString => None
               | Some a, _ => Some (read_fraction rest (inject_Z a) 1)
               end
          else option_map inject_Z acc
      end
  | EmptyString => option_map inject_Z acc
  end.

Definition parseFloat_decimal (s : string) : option Q :=
  match JS.trimStart s with
  | String "-" rest => option_map Qopp (read_number rest None)
  | String "+" rest => read_number rest None
  | s' => read_number s' None
  end.

Record RenderMetrics := {
  reflowCount : nat;
  repaintCount : nat;
  rm_reflows : list ReflowInfo;
  rm_repaints : list RepaintInfo;
  gpuAcceleratedCount : nat;
  rm_gpuAcceleratedElements : list GPUAccelerationInfo;
  totalReflowTime : number;
  totalRepaintTime : number
}.

Definition getMetrics (m : t) : RenderMetrics :=
  {| reflowCount := List.length (reflows m);
     repaintCount := List.length (repaints m);
     rm_reflows := reflows m;
     rm_repaints := repaints m;
     gpuAcceleratedCount := List.length (gpuAcceleratedElements m);
     rm_gpuAcceleratedElements := gpuAcceleratedElements m;
     totalReflowTime := fold_left (fun sum r => sum + duration r) (reflows m) 0;
     totalRepaintTime := fold_left (fun sum r => sum + rp_duration r) (repaints m) 0 |}.

End Render.

(* ================================================================== *)
(** ** Reporter *)

Module Reporter.

Import JS.

Record ResourceInfo := {
  res_name : string;
  res_type : string;
  res_duration : number;
  res_size : number;
  res_startTime : number;
  res_url : string
}.

Record ErrorInfo := {
  err_message : string;
  err_source : option string;
  err_lineno : option number;
  err_colno : option number;
  err_stack : option string;
  err_timestamp : Z;
  err_url : string;
  err_userAgent : string
}.

Inductive ReportType := performance | resource | error | render.

Inductive Payload :=
| PerformanceData (m : Collector.Metrics)
| ResourceData (r : ResourceInfo)
| ErrorData (e : ErrorInfo)
| RenderData (m : Render.RenderMetrics).

(** The argument of [report]: a [ReportData] without the stamped
    fields. *)
Record ReportInput := {
  in_type : ReportType;
  in_data : Payload;
  in_appId : option string;
  in_userId : option string
}.

Record ReportData := {
  type : ReportType;
  data : Payload;
  timestamp : Z;
  url : string;
  userAgent : string;
  appId : option string;
  userId : option string
}.

Record Options := {
  o_reportUrl : option string;
  o_appId : option string;
  o_userId : option string;
  o_immediate : option bool;
  o_batchInterval : option number
}.

(** What the reporter reads from the browser: [Date.now()],
    [window.location.href], [navigator.userAgent], whether
    [navigator.sendBeacon] exists, and the handle [setInterval]
    returns. *)
Record Env := {
  dateNow : Z;
  href : string;
  navUserAgent : string;
  hasSendBeacon : bool;
  intervalId : positive
}.

(** A [fetch] in flight.  [caught] tells whether a rejection handler
    was attached to its promise. *)
Record Request := {
  body : list ReportData;
  caught : bool
}.

(** [ticking] is the browser's side of the timer: [clearInterval]
    stops it, the field [timer] keeps the handle. *)
Record t := {
  reportUrl : option string;
  r_appId : option string;
  r_userId : option string;
  immediate : bool;
  batchInterval : number;
  queue : list ReportData;
  timer : option positive;
  ticking : bool;
  inflight : list Request
}.

Definition with_queue (q : list ReportData) (r : t) : t :=
  {| reportUrl := reportUrl r; r_appId := r_appId r; r_userId := r_userId r;
     immediate := immediate r; batchInterval := batchInterval r;
     queue := q; timer := timer r; ticking := ticking r;
     inflight := inflight r |}.

Definition with_inflight (l : list Request) (r : t) : t :=
  {| reportUrl := reportUrl r; r_appId := r_appId r; r_userId := r_userId r;
     immediate := immediate r; batchInterval := batchInterval r;
     queue := queue r; timer := timer r; ticking := ticking r;
     inflight := l |}.

Definition with_timer (id : option positive) (on : bool) (r : t) : t :=
  {| reportUrl := reportUrl r; r_appId := r_appId r; r_userId := r_userId r;
     immediate := immediate r; batchInterval := batchInterval r;
     queue := queue r; timer := id; ticking := on;
     inflight := inflight r |}.

(** What the page and the network see of the reporter. *)
Inductive effect :=
| ConsoleLog (payload : list ReportData)
| ConsoleLogUnload (payload : list ReportData)
| SendBeacon (to : string) (payload : list ReportData)
| Fetch (to : string) (payload : list ReportData)
| ConsoleError
| UncaughtTypeError
| UnhandledRejection.

(** An effect that puts envelopes on the wire or on the console. *)
Definition transmits (e : effect) : bool :=
  match e with
  | ConsoleLog _ | ConsoleLogUnload _ | SendBeacon _ _ | Fetch _ _ => true
  | _ => false
  end.

Definition startBatchTimer (env : Env) (r : t) : t :=
  with_timer (Some (intervalId env)) true r.

Definition constructor (env : Env) (options : Options) : t :=
  let r :=
    {| reportUrl := o_reportUrl options;
       r_appId := o_appId options;
       r_userId := o_userId options;
       immediate := match o_immediate options with Some b => b | None => false end;
       batchInterval :=
         match o_batchInterval options with
         | Some n => or_num n 5000
         | None => 5000
         end;
       queue := []; timer := None; ticking := false; inflight := [] |} in
  if negb (immediate r) then startBatchTimer env r else r.

Definition send (env : Env) (data : list ReportData) (r : t) : t * list effect :=
  match copy_if_truthy (reportUrl r) with
  | None => (r, [ConsoleLog data])
  | Some reportUrl =>
      if hasSendBeacon env then (r, [SendBeacon reportUrl data])
      else
        (with_inflight (inflight r ++ [{| body := data; caught := true |}]) r,
         [Fetch reportUrl data])
  end.

(** The handler [send] attaches with [.catch]. *)
Definition on_rejected (data : list ReportData) (r : t) : t * list effect :=
  (if negb (immediate r) then with_queue (queue r ++ data) r else r,
   [ConsoleError]).

Definition stamp (env : Env) (input : ReportInput) (r : t) : ReportData :=
  {| type := in_type input;
     data := in_data input;
     timestamp := dateNow env;
     url := href env;
     userAgent := navUserAgent env;
     appId := r_appId r;
     userId := r_userId r |}.

Definition report (env : Env) (input : ReportInput) (r : t) : t * list effect :=
  let reportData := stamp env input r in
  if immediate r then send env [reportData] r
  else (with_queue (queue r ++ [reportData]) r, []).

Definition batchReport (env : Env) (r : t) : t * list effect :=
  match queue r with
  | [] => (r, [])
  | _ =>
      let dataToSend := queue r in
      send env dataToSend (with_queue [] r)
  end.

(** The listener [setupBeforeUnload] registers. *)
Definition beforeunload (env : Env) (r : t) : t * list effect :=
  if (0 <? List.length (queue r))%nat then
    match copy_if_truthy (reportUrl r) with
    | Some reportUrl =>
        if hasSendBeacon env then (r, [SendBeacon reportUrl (queue r)])
        else (r, [UncaughtTypeError])
    | None => (r, [ConsoleLogUnload (queue r)])
    end
  else (r, []).

Definition destroy (env : Env) (r : t) : t * list effect :=
  let r :=
    match timer r with
    | Some _ => with_timer (timer r) false r
    | None => r
    end in
  batchReport env r.

(** Removes the [i]-th element of a list, returning it. *)
Fixpoint take_nth {A} (i : nat) (l : list A) : option (A * list A) :=
  match l, i with
  | [], _ => None
  | x :: rest, O => Some (x, rest)
  | x :: rest, S i' =>
      match take_nth i' rest with
      | Some (y, rest') => Some (y, x :: rest')
      | None => None
      end
  end.

(** The [i]-th request in flight settles. *)
Definition settle (i : nat) (ok : bool) (r : t) : t * list effect :=
  match take_nth i (inflight r) with
  | None => (r, [])
  | Some (req, others) =>
      let r := with_inflight others r in
      if ok then (r, [])
      else if caught req then on_rejected (body req) r
      else (r, [UnhandledRejection])
  end.

Inductive event :=
| Report (env : Env) (input : ReportInput)
| Tick (env : Env)
| Destroy (env : Env)
| BeforeUnload (env : Env)
| Settled (i : nat) (ok : bool).

Definition step (r : t) (ev : event) : t * list effect :=
  match ev with
  | Report env input => report env input r
  | Tick env => if ticking r then batchReport env r else (r, [])
  | Destroy env => destroy env r
  | BeforeUnload env => beforeunload env r
  | Settled i ok => settle i ok r
  end.

(** A run, with everything it emitted, in order. *)
Fixpoint run (evs : list event) (r : t) : t * list effect :=
  match evs with
  | [] => (r, [])
  | ev :: rest =>
      let '(r1, out1) := step r ev in
      let '(r2, out2) := run rest r1 in
      (r2, out1 ++ out2)
  end.

End Reporter.

(* ================================================================== *)
(** * The vocabulary of the properties *)

Definition is_integer (q : Q) : Prop := exists z : Z, q == inject_Z z.

Module Vocabulary.

Import JS Collector.

(** What a stored number looks like: an integer, or for [cls] a
    number of thousandths. *)
Definition rounded (k : MetricName) (v : Q) : Prop :=
  match k with
  | cls => exists z : Z, v == inject_Z z / 1000
  | _ => is_integer v
  end.

Section WithPath.

Variable getElementPath : Element -> option string.

(** A stored task is the normal form of an entry that lasted more
    than 50. *)
Definition from_long_entry (task : LongTaskInfo) : Prop :=
  exists entry, 50 < lt_duration entry /\ normalize getElementPath entry = Some task.

Definition well_formed (m : Metrics) : Prop :=
  (forall k v, num m k = Some v -> rounded k v)
  /\ (forall tasks, longTasks m = Some tasks -> Forall from_long_entry tasks).

End WithPath.

(** **** Long tasks *)

(** The long-task entries the events of a run carry. *)
Definition long_tasks_of (evs : list event) : list LongTaskEntry :=
  flat_map (fun ev => match ev with
                      | LongTaskObserved entries => entries
                      | _ => []
                      end) evs.

(** [init] and [destroy] connect and disconnect the observers; the
    other events leave them as they are. *)
Definition lifecycle (ev : event) : bool :=
  match ev with
  | Init _ | Destroy => true
  | _ => false
  end.

Definition is_long (entry : LongTaskEntry) : bool := gt (lt_duration entry) 50.

Section Batches.

Variable getElementPath : Element -> option string.

(** [getElementPath] returns a path for the element. *)
Definition path_known (el : Element) : bool :=
  match getElementPath el with
  | Some _ => true
  | None => false
  end.

(** The path of every element the attributions of the entry name can
    be computed. *)
Definition paths_known (entry : LongTaskEntry) : bool :=
  match lt_attribution entry with
  | Some attrs =>
      forallb (fun attr => match a_element attr with
                           | Some el => path_known el
                           | None => true
                           end) attrs
  | None => true
  end.

(** The entries of a batch the long-task callback gets through: all of
    them, or those before the first long one with an attribution element
    whose path cannot be computed. *)
Fixpoint handled (entries : list LongTaskEntry) : list LongTaskEntry :=
  match entries with
  | [] => []
  | entry :: rest =>
      if (is_long entry && negb (paths_known entry))%bool then []
      else entry :: handled rest
  end.

(** The tasks it stores for them. *)
Fixpoint stored (entries : list LongTaskEntry) : list LongTaskInfo :=
  match entries with
  | [] => []
  | entry :: rest =>
      if is_long entry then
        match normalize getElementPath entry with
        | Some task => task :: stored rest
        | None => []
        end
      else stored rest
  end.

(** The same over the batches of a run. *)
Definition handled_of (evs : list event) : list LongTaskEntry :=
  flat_map (fun ev => match ev with
                      | LongTaskObserved entries => handled entries
                      | _ => []
                      end) evs.

Definition stored_of (evs : list event) : list LongTaskInfo :=
  flat_map (fun ev => match ev with
                      | LongTaskObserved entries => stored entries
                      | _ => []
                      end) evs.

End Batches.

(** The total as the specification words it: the sum of [d - 50]
    over the observations with [d > 50]. *)
Fixpoint tbt_stated (entries : list LongTaskEntry) : Q :=
  match entries with
  | [] => 0
  | entry :: rest =>
      (if is_long entry then lt_duration entry - 50 else 0) + tbt_stated rest
  end.

(** The same sum over the rounded durations. *)
Fixpoint blocking_total (entries : list LongTaskEntry) : Q :=
  match entries with
  | [] => 0
  | entry :: rest =>
      (if is_long entry then Math_round (lt_duration entry) - 50 else 0)
      + blocking_total rest
  end.

(** The part of a collector the long-task code reads and writes. *)
Definition tbt_view (c : Collector.t) :=
  (num (metrics c) tbt, longTasks (metrics c), longTaskObserver c).

(** **** Sample data *)

Definition long_task (start d : Q) : LongTaskEntry :=
  {| lt_name := "self"; lt_startTime := start; lt_duration := d;
     lt_attribution := None; lt_scriptURL := None |}.

(** A [getElementPath] that never throws: the tag alone. *)
Definition tag_path (el : Element) : option string := Some (toLowerCase (tagName el)).

Definition shift (t v : Q) : LayoutShift :=
  {| ls_startTime := t; ls_value := v; hadRecentInput := false |}.

Definition browser : Host := full_host empty_timeline.

(** **** Layout shifts *)

(** The rule as the specification words it: a shift without recent
    input joins the session when it starts less than 1000 after the
    previous member and less than 5000 after the first one, and replaces
    the session otherwise. *)
Definition cls_entry_stated (s : Q * list LayoutShift) (layoutShift : LayoutShift)
  : Q * list LayoutShift :=
  let '(value, members) := s in
  if hadRecentInput layoutShift then s
  else
    match hd_error members, last_entry members with
    | Some first, Some previous =>
        if (lt (ls_startTime layoutShift - ls_startTime previous) 1000
            && lt (ls_startTime layoutShift - ls_startTime first) 5000)%bool
        then (value + ls_value layoutShift, members ++ [layoutShift])
        else (ls_value layoutShift, [layoutShift])
    | _, _ => (ls_value layoutShift, [layoutShift])
    end.

(** **** Largest contentful paint *)

(** The selection as the specification words it: [renderTime] if
    positive, else [loadTime] if positive, else [startTime]. *)
Definition lcp_policy (e : LcpEntry) : Q :=
  match renderTime e, loadTime e with
  | Some r, Some l => if gt r 0 then r else if gt l 0 then l else lcp_startTime e
  | Some r, None => if gt r 0 then r else lcp_startTime e
  | None, Some l => if gt l 0 then l else lcp_startTime e
  | None, None => lcp_startTime e
  end.

Definition candidate (render load start : Q) (el : option Element) : LcpEntry :=
  {| renderTime := Some render; loadTime := Some load;
     lcp_startTime := start; lcp_element := el |}.

Definition hero : Element :=
  {| eid := 1; tagName := "IMG"; elId := "hero"; className := Some "banner" |}.

(** A browser whose timeline holds the given candidates. *)
Definition with_lcp_history (observers : bool) (types : EntryType -> bool)
           (paints : list PaintEntry) (history : list LcpEntry)
           (navigation : option (list NavigationTiming))
           (legacy : option LegacyTiming) : Host :=
  {| hasPerformanceObserver := observers;
     supports := types;
     performance :=
       Some {| has_getEntriesByType := true;
               paintEntries := paints;
               lcpEntries := Some history;
               navigationEntries := navigation;
               timing := legacy |} |}.

(** **** The render monitor *)

Definition render_env : Render.Env := {| Render.now := 0; Render.stack := "Error" |}.

Definition box (n : nat) : Element :=
{| eid := n; tagName := "DIV"; elId := ""; className := Some "box" |}.

Definition child_added (el : Element) : Render.MutationRecord :=
{| Render.mu_type := Render.childList; Render.target := el;
   Render.attributeName := None |}.

Definition attribute_changed (el : Element) (attr : string) : Render.MutationRecord :=
{| Render.mu_type := Render.attributes; Render.target := el;
   Render.attributeName := Some attr |}.

(** [n] frames, 100 apart: each is late by more than four frames. *)
Definition slow_frames (first : nat) (n : nat) : list Render.event :=
map (fun i => Render.Frame render_env (inject_Z (100 * Z.of_nat i))) (seq first n).

(** A monitor whose reflow sequence holds [n] frame-drop records: it was
    started, one element was mutated, and [n] slow frames followed. *)
Definition after_slow_frames (n : nat) : Render.t :=
Render.run tag_path
  (Render.Start render_env
   :: Render.Mutated render_env [child_added (box 0)]
   :: slow_frames 1 n)
  Render.create.

(** The computed style of an element no rule applies to. *)
Definition initial_style : Render.CSSStyleDeclaration :=
{| Render.willChange := "auto";
   Render.transform := "none";
   Render.transitionProperty := "all";
   Render.transitionDuration := "0s";
   Render.opacity := "1";
   Render.filter := "none";
   Render.backdropFilter := "none" |}.

Definition with_transform (value : string) : Render.CSSStyleDeclaration :=
{| Render.willChange := "auto";
   Render.transform := value;
   Render.transitionProperty := "all";
   Render.transitionDuration := "0s";
   Render.opacity := "1";
   Render.filter := "none";
   Render.backdropFilter := "none" |}.

Definition with_opacity (value : string) : Render.CSSStyleDeclaration :=
{| Render.willChange := "auto";
   Render.transform := "none";
   Render.transitionProperty := "all";
   Render.transitionDuration := "0s";
   Render.opacity := value;
   Render.filter := "none";
   Render.backdropFilter := "none" |}.

Definition with_transition (transform property duration : string)
  : Render.CSSStyleDeclaration :=
{| Render.willChange := "auto";
   Render.transform := transform;
   Render.transitionProperty := property;
   Render.transitionDuration := duration;
   Render.opacity := "1";
   Render.filter := "none";
   Render.backdropFilter := "none" |}.

(** The three tests of the scan that read a plain property: the
    property is set, and is neither its initial keyword nor blank. *)
Definition is_set (initial value : string) : bool :=
(Render.nonempty value
 && negb (String.eqb value initial)
 && negb (String.eqb (trim value) ""))%bool.

(** The test of the scan on the opacity. *)
Definition opacity_below_1 (parseFloat : string -> option Q)
           (computedStyle : Render.CSSStyleDeclaration) : bool :=
match parseFloat (Render.opacity computedStyle) with
| Some opacityValue => (lt opacityValue 1 && ge opacityValue 0)%bool
| None => false
end.

Definition method_tags : list string :=
["will-change"; "transform"; "transform-3d"; "transform-transition";
 "opacity"; "filter"; "backdrop-filter"].

(** **** The reporter *)

(** The envelopes an effect carries. *)
Definition payload_of (e : Reporter.effect) : list Reporter.ReportData :=
match e with
| Reporter.ConsoleLog payload | Reporter.ConsoleLogUnload payload
| Reporter.SendBeacon _ payload | Reporter.Fetch _ payload => payload
| _ => []
end.

(** The failure of a request surfaces to the page. *)
Definition raised (e : Reporter.effect) : bool :=
match e with
| Reporter.UncaughtTypeError | Reporter.UnhandledRejection => true
| _ => false
end.

(** [report] calls, each with what the browser answers at that time. *)
Definition reports (calls : list (Reporter.Env * Reporter.ReportInput))
  : list Reporter.event :=
map (fun call => Reporter.Report (fst call) (snd call)) calls.

Definition stamped (r : Reporter.t) (calls : list (Reporter.Env * Reporter.ReportInput))
  : list Reporter.ReportData :=
map (fun call => Reporter.stamp (fst call) (snd call) r) calls.

Definition page (t : Z) (beacon : bool) : Reporter.Env :=
{| Reporter.dateNow := t;
   Reporter.href := "https://example.org/";
   Reporter.navUserAgent := "agent";
   Reporter.hasSendBeacon := beacon;
   Reporter.intervalId := 1%positive |}.

Definition options (immediate : option bool) : Reporter.Options :=
{| Reporter.o_reportUrl := Some "https://example.org/report";
   Reporter.o_appId := Some "app";
   Reporter.o_userId := None;
   Reporter.o_immediate := immediate;
   Reporter.o_batchInterval := None |}.

Definition metrics_report : Reporter.ReportInput :=
{| Reporter.in_type := Reporter.performance;
   Reporter.in_data := Reporter.PerformanceData Collector.empty_metrics;
   Reporter.in_appId := None;
   Reporter.in_userId := None |}.

(** Every request in flight has a rejection handler. *)
Definition all_caught (r : Reporter.t) : Prop :=
Forall (fun req => Reporter.caught req = true) (Reporter.inflight r).


End Vocabulary.

Import Vocabulary.

(* ================================================================== *)
(** * The rest of the monitor, the utilities and the helper

    The queries and scans of [RenderMonitor], [getElementPath],
    [ResourceMonitor] and the [PerformanceHelper] that ties the parts
    together. *)

(* ================================================================== *)
(** ** RenderMonitor: the queries and the scans *)

Module RenderQueries.

Import JS.

(** [s.split(c)] for a one-character separator. *)
Fixpoint split (sep : ascii) (s : string) : list string :=
match s with
| EmptyString => [EmptyString]
| String c rest =>
    if Ascii.eqb c sep then EmptyString :: split sep rest
    else match split sep rest with
         | [] => [String c EmptyString]
         | head :: tail => String c head :: tail
         end
end.

(** An entry of the result of [getFrequentReflowElements]. *)
Record FrequentElement := {
  fe_element : Element;
  fe_path : string;
  fe_count : nat
}.

(** The [Map] from path to element and count, in insertion order:
    [existing.count++] or [set(path, {element, count: 1})]. *)
Fixpoint count_path (path : string) (element : Element)
         (elementCounts : list (string * (Element * nat)))
  : list (string * (Element * nat)) :=
match elementCounts with
| [] => [(path, (element, 1%nat))]
| (p, (e, n)) :: rest =>
    if String.eqb path p then (p, (e, S n)) :: rest
    else (p, (e, n)) :: count_path path element rest
end.

(** The first loop of [getFrequentReflowElements]. *)
Definition elementCounts (reflows : list Render.ReflowInfo)
  : list (string * (Element * nat)) :=
fold_left
  (fun elementCounts reflow =>
     match Render.element reflow, Render.elementPath reflow with
     | Some element, Some path =>
         if Render.nonempty path then count_path path element elementCounts
         else elementCounts
     | _, _ => elementCounts
     end)
  reflows [].

Definition count_number (n : nat) : number := inject_Z (Z.of_nat n).

Definition getFrequentReflowElements (threshold : number) (m : Render.t)
  : list FrequentElement :=
let kept :=
  List.filter (fun entry => ge (count_number (snd (snd entry))) threshold)
              (elementCounts (Render.reflows m)) in
let mapped :=
  map (fun entry => {| fe_element := fst (snd entry);
                       fe_path := fst entry;
                       fe_count := snd (snd entry) |}) kept in
map fst (sort_desc (map (fun fe => (fe, count_number (fe_count fe))) mapped)).

(** The computed style with the two animation properties the monitor
    reads besides. *)
Record AnimatedStyle := {
  computed : Render.CSSStyleDeclaration;
  animationName : string;
  animationDuration : string
}.

(** An entry of the result of [getElementsNeedingGPUAcceleration]. *)
Record Candidate := {
  c_element : Element;
  c_path : string;
  c_reason : string
}.

(** The loop the style-read hook keeps: [readCount], [lastReadTime] and
    the [Map] [readElements]. *)
Record Reads := {
  readCount : nat;
  lastReadTime : number;
  readElements : list (Element * number)
}.

Definition no_reads : Reads :=
{| readCount := 0; lastReadTime := 0; readElements := [] |}.

Section Operations.

(** [getElementPath]; [None] when it throws. *)
Variable getElementPath : Element -> option string.
Variable parseFloat : string -> option number.

(** [element instanceof HTMLElement] *)
Variable isHTMLElement : Element -> bool.

(** [window.getComputedStyle]; [None] when it throws. *)
Variable getComputedStyle : Element -> option AnimatedStyle.

(** [durations.some(d => !isNaN(d) && d > 0)] over
    [value.split(',').map(d => parseFloat(d.trim()))]. *)
Definition some_positive_duration (value : string) : bool :=
existsb (fun d => match d with
                  | Some d => gt d 0
                  | None => false
                  end)
        (map (fun d => parseFloat (trim d)) (split "," value)).

Definition hasRealAnimation (computedStyle : AnimatedStyle) : bool :=
if (Render.nonempty (animationName computedStyle)
    && negb (String.eqb (animationName computedStyle) "none")
    && some_positive_duration (animationDuration computedStyle))%bool
then true
else if (Render.nonempty (Render.transitionProperty (computed computedStyle))
         && negb (String.eqb (Render.transitionProperty (computed computedStyle)) "none")
         && some_positive_duration
              (Render.transitionDuration (computed computedStyle)))%bool
then true
else false.

Definition excluded (element : Element) : bool :=
existsb (String.eqb (tagName element)) Render.excludeTags.

(** [detectGPUAccelerationSelectively]: the candidates of the scan. *)
Definition scan_candidates (allElements : list Element) : list Element :=
List.filter (fun element => (isHTMLElement element && negb (excluded element))%bool)
            allElements.

(** The batches of the scan, one per idle callback, for at most [fuel]
    callbacks; [W] and [getComputedStyle] as in
    [Render.processGPUAccelerationBatch]. *)
Fixpoint scan {W : Type}
         (getComputedStyle : Element -> W -> W * option Render.CSSStyleDeclaration)
         (fuel : nat) (candidates : list Element) (index : nat)
         (m : Render.t) (w : W) : Render.t * W :=
match fuel with
| O => (m, w)
| S fuel' =>
    match Render.processGPUAccelerationBatch getElementPath parseFloat getComputedStyle
            candidates index m w with
    | (m', w', Some endIndex) => scan getComputedStyle fuel' candidates endIndex m' w'
    | (m', w', None) => (m', w')
    end
end.

(** The first loop of [getElementsNeedingGPUAcceleration]; what
    throws inside the [try] leaves the candidates as they are. *)
Definition animated_candidates (allElements : list Element) : list Candidate :=
fold_left
  (fun candidates element =>
     if isHTMLElement element then
       if excluded element then candidates
       else
         match getComputedStyle element with
         | Some computedStyle =>
             if hasRealAnimation computedStyle then
               match Render.checkGPUAcceleration getElementPath parseFloat element
                       (computed computedStyle) with
               | Some gpuInfo =>
                   if negb (Render.isAccelerated gpuInfo) then
                     match getElementPath element with
                     | Some path =>
                         candidates ++ [{| c_element := element;
                                           c_path := path;
                                           c_reason := "has_animation" |}]
                     | None => candidates
                     end
                   else candidates
               | None => candidates
               end
             else candidates
         | None => candidates
         end
     else candidates)
  allElements [].

Definition getElementsNeedingGPUAcceleration (allElements : list Element) (m : Render.t)
  : list Candidate :=
let candidates := animated_candidates allElements in
let frequentReflowElements := getFrequentReflowElements 5 m in
fold_left
  (fun candidates fe =>
     let element := fe_element fe in
     if isHTMLElement element then
       if excluded element then candidates
       else
         match getComputedStyle element with
         | Some computedStyle =>
             match Render.checkGPUAcceleration getElementPath parseFloat element
                     (computed computedStyle) with
             | Some gpuInfo =>
                 if negb (Render.isAccelerated gpuInfo) then
                   if negb (existsb (fun c => same_element (c_element c) element)
                                    candidates)
                   then candidates ++ [{| c_element := element;
                                          c_path := fe_path fe;
                                          c_reason := "frequent_reflow" |}]
                   else candidates
                 else candidates
             | None => candidates
             end
         | None => candidates
         end
     else candidates)
  frequentReflowElements candidates.

End Operations.

(** The replacement of [window.getComputedStyle]: one read at time
    [now].  The result says which element, if any, [markRepaint] is
    called for, with the reason [frequent_style_read]. *)
Definition style_read (now : number) (element : Element) (s : Reads)
  : Reads * option Element :=
let readCount := S (readCount s) in
let elementReadCount :=
  match Render.map_get element (readElements s) with
  | Some n => or_num n 0
  | None => 0
  end in
let readElements := Render.map_set element (elementReadCount + 1) (readElements s) in
let '(readCount, readElements, marked) :=
  if (lt (now - lastReadTime s) 10 && (5 <? readCount)%nat)%bool then
    (O, @nil (Element * number),
     option_map fst (find (fun entry => gt (snd entry) 3) readElements))
  else (readCount, readElements, None) in
let readElements :=
  if gt (now - lastReadTime s) 100 then [] else readElements in
({| readCount := readCount; lastReadTime := now; readElements := readElements |},
 marked).

(** A sequence of reads, with the elements [markRepaint] was called
    for. *)
Fixpoint style_reads (reads : list (number * Element)) (s : Reads)
  : Reads * list Element :=
match reads with
| [] => (s, [])
| (now, element) :: rest =>
    let '(s1, marked) := style_read now element s in
    let '(s2, more) := style_reads rest s1 in
    (s2, match marked with Some el => el :: more | None => more end)
end.

(** What [interceptStyleReads] adds to the window: the variables of
    the replacement of [window.getComputedStyle] ([hook]), the elements it
    called [markRepaint] for so far ([marked]), each of which is recorded
    later, by the timer of [markRepaint], and the number of reads it saw
    ([reads]). *)
Record Window := {
  hook : Reads;
  marked : list Element;
  reads : nat
}.

Definition fresh_window : Window :=
{| hook := no_reads; marked := []; reads := 0 |}.

(** The replacement itself.  [clock] gives [performance.now()] at each
    read; [original] is the function that was replaced, with its own
    state [W]: the browser's function has none, the replacement an
    earlier [start()] installed has a [Window] of its own. *)
Definition hooked_getComputedStyle {W : Type} (clock : nat -> number)
           (original : Element -> W -> W * option Render.CSSStyleDeclaration)
           (element : Element) (w : Window * W)
  : (Window * W) * option Render.CSSStyleDeclaration :=
let '(h, w0) := w in
let '(hook, mark) := style_read (clock (reads h)) element (hook h) in
let h := {| hook := hook;
            marked := match mark with
                      | Some el => marked h ++ [el]
                      | None => marked h
                      end;
            reads := S (reads h) |} in
let '(w0, computedStyle) := original element w0 in
((h, w0), computedStyle).

(** The browser's own [getComputedStyle]: no state. *)
Definition native_getComputedStyle
           (styles : Element -> option Render.CSSStyleDeclaration)
           (element : Element) (w : unit)
  : unit * option Render.CSSStyleDeclaration :=
(w, styles element).

(** The attributes the mutation observer of [observeDOMChanges] asks
    for. *)
Definition attributeFilter : list string :=
["style"; "class"; "width"; "height"; "display"; "position"].

End RenderQueries.

(* ================================================================== *)
(** ** getElementPath *)

Module Dom.

Import JS.

(** An element as [getElementPath] reads it.  [n_className] is [None]
    when the property is not a string but an object (an
    [SVGAnimatedString]); [n_index] is the position of the element among
    the children of its parent. *)
Record Node := {
  n_tagName : string;
  n_id : string;
  n_className : option string;
  n_index : nat
}.

(** The pieces of [s] between the characters [p] holds of. *)
Fixpoint split_on (p : ascii -> bool) (s : string) : list string :=
match s with
| EmptyString => [EmptyString]
| String c rest =>
    if p c then EmptyString :: split_on p rest
    else match split_on p rest with
         | [] => [String c EmptyString]
         | head :: tail => String c head :: tail
         end
end.

(** [className.trim().split(/\s+/).filter(cls => cls).slice(0, 3)] *)
Definition classes (className : string) : list string :=
firstn 3 (List.filter Render.nonempty (split_on is_space (trim className))).

(** [`${n}`] for a natural number. *)
Definition decimal (n : nat) : string := NilZero.string_of_uint (Nat.to_uint n).

(** One turn of the loop up to [path.unshift(selector)]; [None] when it
    throws ([className.trim] is not a function on an object). *)
Definition selector (current : Node) (hasParent : bool) : option string :=
let selector := toLowerCase (n_tagName current) in
let selector :=
  if Render.nonempty (n_id current)
  then (selector ++ "#" ++ n_id current)%string
  else selector in
let selector :=
  match n_className current with
  | Some className =>
      if Render.nonempty className then
        let classes := classes className in
        if (0 <? List.length classes)%nat
        then (selector ++ "." ++ String.concat "." classes)%string
        else selector
      else selector
  | None => selector
  end in
if negb (Render.nonempty (n_id current)) then
  match n_className current with
  | None => None
  | Some className =>
      if (negb (Render.nonempty className) || String.eqb (trim className) "")%bool then
        if hasParent
        then Some (selector ++ ":nth-child(" ++ decimal (n_index current + 1) ++ ")")%string
        else Some selector
      else Some selector
  end
else Some selector.

(** The loop, on an element given with its ancestors, nearest first. *)
Fixpoint walk (chain : list Node) (path : list string) : option (list string) :=
match chain with
| [] => Some path
| current :: ancestors =>
    match selector current (match ancestors with [] => false | _ => true end) with
    | None => None
    | Some selector =>
        let path := selector :: path in
        match ancestors with
        | parent :: _ =>
            if String.eqb (n_tagName parent) "HTML" then Some path
            else walk ancestors path
        | [] => Some path
        end
    end
end.

(** [getElementPath(element)]; the argument is [None] for [null]. *)
Definition getElementPath (element : option (list Node)) : option string :=
match element with
| None => Some EmptyString
| Some chain => option_map (String.concat " > ") (walk chain [])
end.

End Dom.

(* ================================================================== *)
(** ** ResourceMonitor *)

Module Resource.

Import JS.

Record PerformanceResourceTiming := {
  e_name : string;
  e_entryType : string;
  e_duration : number;
  e_transferSize : option number;
  e_startTime : number
}.

(** What [typeMap[extension] || 'other'] evaluates to: a name, or, for
    the two lower-case keys every object inherits, the inherited
    member. *)
Inductive ResourceType :=
| Named (name : string)
| Inherited (key : string).

Record ResourceInfo := {
  name : string;
  type : ResourceType;
  duration : number;
  size : number;
  startTime : number;
  url : string
}.

Definition typeMap : list (string * string) :=
[("js", "script"); ("css", "stylesheet"); ("png", "image"); ("jpg", "image");
 ("jpeg", "image"); ("gif", "image"); ("svg", "image"); ("webp", "image");
 ("woff", "font"); ("woff2", "font"); ("ttf", "font"); ("eot", "font");
 ("xml", "xmlhttprequest"); ("json", "xmlhttprequest")].

Definition inherited : list string := ["constructor"; "__proto__"].

(** [typeMap[extension] || 'other'] *)
Definition type_of_extension (extension : string) : ResourceType :=
match find (fun entry => String.eqb (fst entry) extension) typeMap with
| Some entry => Named (snd entry)
| None =>
    if existsb (String.eqb extension) inherited then Inherited extension
    else Named "other"
end.

Definition getResourceType (url : string) : ResourceType :=
let extension :=
  match last_entry (RenderQueries.split "." url) with
  | Some last => toLowerCase last
  | None => EmptyString
  end in
type_of_extension extension.

Definition resourceInfo (entry : PerformanceResourceTiming) : ResourceInfo :=
{| name := e_name entry;
   type := getResourceType (e_name entry);
   duration := Math_round (e_duration entry);
   size := match e_transferSize entry with
           | Some n => or_num n 0
           | None => 0
           end;
   startTime := Math_round (e_startTime entry);
   url := e_name entry |}.

(** What [start] reads from the browser.  [timeline] holds the resource
    entries recorded so far; [getEntriesThrows] and [observeThrows] say
    whether [getEntriesByType] and [observe] throw. *)
Record Host := {
  hasPerformance : bool;
  hasPerformanceObserver : bool;
  observeThrows : bool;
  getEntriesThrows : bool;
  timeline : list PerformanceResourceTiming
}.

(** [observers] counts the observers created so far: none is ever
    disconnected. *)
Record t := {
  resources : list ResourceInfo;
  observers : nat
}.

Definition create : t := {| resources := []; observers := 0 |}.

Definition addResource (entry : PerformanceResourceTiming) (m : t) : t :=
{| resources := resources m ++ [resourceInfo entry]; observers := observers m |}.

Definition collectExistingResources (host : Host) (m : t) : t :=
if getEntriesThrows host then m
else fold_left (fun m entry => addResource entry m) (timeline host) m.

(** The callback of an observer. *)
Definition callback (entries : list PerformanceResourceTiming) (m : t) : t :=
fold_left
  (fun m entry =>
     if String.eqb (e_entryType entry) "resource" then addResource entry m else m)
  entries m.

(** With [buffered: true] the new observer is called back with the
    entries of the timeline; the model delivers them at once. *)
Definition observeNewResources (host : Host) (m : t) : t :=
if negb (hasPerformanceObserver host) then collectExistingResources host m
else if observeThrows host then collectExistingResources host m
else callback (timeline host)
       {| resources := resources m; observers := S (observers m) |}.

Definition start (host : Host) (m : t) : t :=
if negb (hasPerformance host) then m
else observeNewResources host m.

Definition getResources (m : t) : list ResourceInfo := resources m.

Definition getSlowResources (threshold : number) (m : t) : list ResourceInfo :=
List.filter (fun resource => gt (duration resource) threshold) (resources m).

Inductive event :=
| Start (host : Host)
| Delivered (entries : list PerformanceResourceTiming).

(** [Delivered]: the browser calls back every observer with new
    entries. *)
Definition step (m : t) (ev : event) : t :=
match ev with
| Start host => start host m
| Delivered entries => Nat.iter (observers m) (callback entries) m
end.

Definition run (evs : list event) (m : t) : t := fold_left step evs m.

End Resource.

(* ================================================================== *)
(** ** PerformanceHelper *)

Module Helper.

Import JS.

(** The options; [None] is a property that is not given.  [reporting]
    holds the ones the reporter reads. *)
Record Options := {
  reporting : Reporter.Options;
  monitorResources : option bool;
  monitorErrors : option bool;
  monitorPerformance : option bool;
  sampleRate : option number
}.

(** [{ immediate: false, monitorResources: true, monitorErrors: false,
      monitorPerformance: true, sampleRate: 1, ...options }] *)
Definition merged (options : Options) : Options :=
{| reporting :=
     {| Reporter.o_reportUrl := Reporter.o_reportUrl (reporting options);
        Reporter.o_appId := Reporter.o_appId (reporting options);
        Reporter.o_userId := Reporter.o_userId (reporting options);
        Reporter.o_immediate :=
          Some (match Reporter.o_immediate (reporting options) with
                | Some b => b
                | None => false
                end);
        Reporter.o_batchInterval := Reporter.o_batchInterval (reporting options) |};
   monitorResources :=
     Some (match monitorResources options with Some b => b | None => true end);
   monitorErrors :=
     Some (match monitorErrors options with Some b => b | None => false end);
   monitorPerformance :=
     Some (match monitorPerformance options with Some b => b | None => true end);
   sampleRate :=
     Some (match sampleRate options with Some r => r | None => 1 end) |}.

(** [if (this.options.flag)] *)
Definition enabled (flag : option bool) : bool :=
match flag with Some b => b | None => false end.

(** What the helper reads from the browser: the environments of its
    parts, [Math.random()] and whether [document.readyState] is
    ['complete']. *)
Record Env := {
  reporterEnv : Reporter.Env;
  host : Collector.Host;
  resourceHost : Resource.Host;
  random : number;
  readyComplete : bool
}.

(** [errorMonitorStarts] counts the calls of [errorMonitor.start()],
    [loadListeners] the listeners registered for the [load] event. *)
Record t := {
  options : Options;
  reporter : Reporter.t;
  performanceCollector : Collector.t;
  resourceMonitor : Resource.t;
  errorMonitorStarts : nat;
  loadListeners : nat;
  initialized : bool
}.

Definition with_reporter (r : Reporter.t) (h : t) : t :=
{| options := options h; reporter := r;
   performanceCollector := performanceCollector h;
   resourceMonitor := resourceMonitor h;
   errorMonitorStarts := errorMonitorStarts h;
   loadListeners := loadListeners h; initialized := initialized h |}.

Definition with_collector (c : Collector.t) (h : t) : t :=
{| options := options h; reporter := reporter h;
   performanceCollector := c;
   resourceMonitor := resourceMonitor h;
   errorMonitorStarts := errorMonitorStarts h;
   loadListeners := loadListeners h; initialized := initialized h |}.

Definition with_resourceMonitor (m : Resource.t) (h : t) : t :=
{| options := options h; reporter := reporter h;
   performanceCollector := performanceCollector h;
   resourceMonitor := m;
   errorMonitorStarts := errorMonitorStarts h;
   loadListeners := loadListeners h; initialized := initialized h |}.

Definition with_errorMonitorStarts (n : nat) (h : t) : t :=
{| options := options h; reporter := reporter h;
   performanceCollector := performanceCollector h;
   resourceMonitor := resourceMonitor h;
   errorMonitorStarts := n;
   loadListeners := loadListeners h; initialized := initialized h |}.

Definition with_loadListeners (n : nat) (h : t) : t :=
{| options := options h; reporter := reporter h;
   performanceCollector := performanceCollector h;
   resourceMonitor := resourceMonitor h;
   errorMonitorStarts := errorMonitorStarts h;
   loadListeners := n; initialized := initialized h |}.

Definition with_initialized (b : bool) (h : t) : t :=
{| options := options h; reporter := reporter h;
   performanceCollector := performanceCollector h;
   resourceMonitor := resourceMonitor h;
   errorMonitorStarts := errorMonitorStarts h;
   loadListeners := loadListeners h; initialized := b |}.

(** [new PerformanceHelper(options)]; [None] when it throws. *)
Definition constructor (env : Env) (options : Options) : option t :=
if negb (truthy_str (Reporter.o_reportUrl (reporting options))) then None
else
  let options := merged options in
  Some {| options := options;
          reporter := Reporter.constructor (reporterEnv env) (reporting options);
          performanceCollector :=
            if enabled (monitorPerformance options)
            then Collector.init (host env) Collector.create
            else Collector.create;
          resourceMonitor := Resource.create;
          errorMonitorStarts := 0;
          loadListeners := 0;
          initialized := false |}.

Section Operations.

Variable getElementPath : Element -> option string.

(** [collectAndReportPerformance] and [reportPerformance] have the same
    body. *)
Definition reportPerformance (env : Env) (h : t) : t * list Reporter.effect :=
let '(c, metrics) := Collector.collect getElementPath (host env) (performanceCollector h) in
let '(r, out) :=
  Reporter.report (reporterEnv env)
    {| Reporter.in_type := Reporter.performance;
       Reporter.in_data := Reporter.PerformanceData metrics;
       Reporter.in_appId := None;
       Reporter.in_userId := None |}
    (reporter h) in
(with_reporter r (with_collector c h), out).

Definition collectAndReportPerformance := reportPerformance.

Definition getPerformanceMetrics (env : Env) (h : t) : t * Collector.Metrics :=
let '(c, metrics) := Collector.collect getElementPath (host env) (performanceCollector h) in
(with_collector c h, metrics).

(** [Math.random() > (this.options.sampleRate || 1)] *)
Definition sampled_out (env : Env) (h : t) : bool :=
gt (random env)
   (match sampleRate (options h) with
    | Some rate => or_num rate 1
    | None => 1
    end).

Definition init (env : Env) (h : t) : t * list Reporter.effect :=
if initialized h then (h, [])
else if sampled_out env h then (h, [])
else
  let h :=
    if enabled (monitorResources (options h))
    then with_resourceMonitor (Resource.start (resourceHost env) (resourceMonitor h)) h
    else h in
  let h :=
    if enabled (monitorErrors (options h))
    then with_errorMonitorStarts (S (errorMonitorStarts h)) h
    else h in
  let '(h, out) :=
    if enabled (monitorPerformance (options h)) then
      if readyComplete env then collectAndReportPerformance env h
      else (with_loadListeners (S (loadListeners h)) h, [])
    else (h, []) in
  (with_initialized true h, out).

Definition reportCustom (env : Env) (input : Reporter.ReportInput) (h : t)
  : t * list Reporter.effect :=
let '(r, out) := Reporter.report (reporterEnv env) input (reporter h) in
(with_reporter r h, out).

Definition destroy (env : Env) (h : t) : t * list Reporter.effect :=
let '(r, out) := Reporter.destroy (reporterEnv env) (reporter h) in
let h := with_reporter r h in
let h := with_collector (Collector.destroy (performanceCollector h)) h in
(with_initialized false h, out).

(** What can happen to a helper: its methods, and what the browser
    does to its parts.  [LoadTimeout] is the timeout a [load] listener
    has set; [Observed] carries a batch for one of the collector's
    observers, [Network] a timer tick, an unload or a settled request
    for the reporter, [ResourcesDelivered] a batch for the resource
    observers. *)
Inductive event :=
| Init (env : Env)
| ReportPerformance (env : Env)
| GetPerformanceMetrics (env : Env)
| ReportCustom (env : Env) (input : Reporter.ReportInput)
| Destroy (env : Env)
| LoadTimeout (env : Env)
| Observed (batch : Collector.event)
| Network (ev : Reporter.event)
| ResourcesDelivered (entries : list Resource.PerformanceResourceTiming).

Definition step (h : t) (ev : event) : t * list Reporter.effect :=
match ev with
| Init env => init env h
| ReportPerformance env => reportPerformance env h
| GetPerformanceMetrics env => (fst (getPerformanceMetrics env h), [])
| ReportCustom env input => reportCustom env input h
| Destroy env => destroy env h
| LoadTimeout env =>
    if (0 <? loadListeners h)%nat then collectAndReportPerformance env h
    else (h, [])
| Observed batch =>
    match batch with
    | Collector.Init _ | Collector.Collect _ | Collector.Destroy => (h, [])
    | _ => (with_collector
              (Collector.step getElementPath (performanceCollector h) batch) h, [])
    end
| Network ev =>
    match ev with
    | Reporter.Report _ _ | Reporter.Destroy _ => (h, [])
    | _ => let '(r, out) := Reporter.step (reporter h) ev in (with_reporter r h, out)
    end
| ResourcesDelivered entries =>
    (with_resourceMonitor
       (Resource.step (resourceMonitor h) (Resource.Delivered entries)) h, [])
end.

Fixpoint run (evs : list event) (h : t) : t * list Reporter.effect :=
match evs with
| [] => (h, [])
| ev :: rest =>
    let '(h1, out1) := step h ev in
    let '(h2, out2) := run rest h1 in
    (h2, out1 ++ out2)
end.

End Operations.

End Helper.

(* ================================================================== *)
(** * More vocabulary *)

(** The observations a browser delivers to the collector. *)
Definition is_observation (ev : Collector.event) : bool :=
match ev with
| Collector.PaintObserved _ | Collector.LcpObserved _
| Collector.FirstInputObserved _ | Collector.LayoutShiftObserved _
| Collector.LongTaskObserved _ => true
| _ => false
end.

(** The last first-contentful-paint entry of a batch. *)
Definition last_fcp (entries : list Collector.PaintEntry) : option Collector.PaintEntry :=
find Collector.is_fcp (rev entries).

(** A first-input entry the callback uses: both times are non-zero. *)
Definition usable_input (e : Collector.FirstInputEntry) : bool :=
(JS.truthy (Collector.processingStart e) && JS.truthy (Collector.fi_startTime e))%bool.

Definition last_usable_input (entries : list Collector.FirstInputEntry)
  : option Collector.FirstInputEntry :=
find usable_input (rev entries).

(** The sum of the values of the members of a session. *)
Fixpoint session_sum (members : list Collector.LayoutShift) : Q :=
match members with
| [] => 0
| s :: rest => Collector.ls_value s + session_sum rest
end.

(** Each member starts less than 1000 after the one before it. *)
Fixpoint close_together (members : list Collector.LayoutShift) : Prop :=
match members with
| [] => True
| s :: rest =>
    match rest with
    | [] => True
    | s' :: _ => Collector.ls_startTime s' - Collector.ls_startTime s < 1000
    end /\ close_together rest
end.

(** What the layout-shift callback keeps true of its session. *)
Definition session_ok (value : Q) (members : list Collector.LayoutShift) : Prop :=
value == session_sum members
/\ Forall (fun s => Collector.hadRecentInput s = false) members
/\ close_together members
/\ match members with
   | [] => True
   | first :: _ =>
       Forall (fun s => Collector.ls_startTime s - Collector.ls_startTime first < 5000)
              (tl members)
   end.

(** The part of a collector the layout-shift code reads and writes. *)
Definition cls_view (c : Collector.t) := (Collector.clsValue c, Collector.clsEntries c).

(** The layout shifts the events of a run carry. *)
Definition layout_shifts_of (evs : list Collector.event) : list Collector.LayoutShift :=
flat_map (fun ev => match ev with
                    | Collector.LayoutShiftObserved entries => entries
                    | _ => []
                    end) evs.

(** The metrics [collect()] writes. *)
Definition collected (k : Collector.MetricName) : bool :=
match k with
| Collector.fcp | Collector.fid | Collector.cls | Collector.tbt => false
| _ => true
end.

(** The tasks an event adds to the stored sequence. *)
Definition appended_by (getElementPath : Element -> option string)
           (c : Collector.t) (ev : Collector.event) : list Collector.LongTaskInfo :=
match ev with
| Collector.LongTaskObserved entries =>
    if Collector.observing (Collector.longTaskObserver c)
    then stored getElementPath entries
    else []
| _ => []
end.

(** A browser without [PerformanceObserver]. *)
Definition old_browser (perf : option Collector.Performance) : Collector.Host :=
{| Collector.hasPerformanceObserver := false;
   Collector.supports := fun _ => false;
   Collector.performance := perf |}.

(** **** More on the reporter *)

(** An effect that only writes to the console. *)
Definition is_console (e : Reporter.effect) : bool :=
match e with
| Reporter.ConsoleLog _ | Reporter.ConsoleLogUnload _ => true
| _ => false
end.

(** The calls a page makes and the ticks of the timer. *)
Definition report_tick_or_destroy (ev : Reporter.event) : bool :=
match ev with
| Reporter.Report _ _ | Reporter.Tick _ | Reporter.Destroy _ => true
| _ => false
end.

(** What happens between two flushes: calls of [report()], and
    requests that settle. *)
Definition report_or_settled (ev : Reporter.event) : bool :=
match ev with
| Reporter.Report _ _ | Reporter.Settled _ _ => true
| _ => false
end.

Definition report_or_tick (ev : Reporter.event) : bool :=
match ev with
| Reporter.Report _ _ | Reporter.Tick _ => true
| _ => false
end.

(** The envelopes the [report()] calls of a run produce, in order. *)
Fixpoint envelopes_of (r : Reporter.t) (evs : list Reporter.event)
  : list Reporter.ReportData :=
match evs with
| [] => []
| Reporter.Report env input :: rest => Reporter.stamp env input r :: envelopes_of r rest
| _ :: rest => envelopes_of r rest
end.

(** Everything a run handed to a transport, in order. *)
Definition transmitted (out : list Reporter.effect) : list Reporter.ReportData :=
List.concat (map payload_of out).

(** An effect hands at least one envelope to a transport, or none is
    involved. *)
Definition carries_something (e : Reporter.effect) : bool :=
match e with
| Reporter.ConsoleLog payload | Reporter.ConsoleLogUnload payload
| Reporter.SendBeacon _ payload | Reporter.Fetch _ payload =>
    (0 <? List.length payload)%nat
| _ => true
end.

Definition options_without_url (url : option string) (immediate : option bool)
  : Reporter.Options :=
{| Reporter.o_reportUrl := url;
   Reporter.o_appId := None;
   Reporter.o_userId := None;
   Reporter.o_immediate := immediate;
   Reporter.o_batchInterval := None |}.

(** What no step changes: the destination, the identity and the mode. *)
Definition settings (r : Reporter.t) :=
(Reporter.reportUrl r, Reporter.r_appId r, Reporter.r_userId r, Reporter.immediate r).

(** A reporter without destination and without request in flight. *)
Definition local_only (r : Reporter.t) : Prop :=
JS.copy_if_truthy (Reporter.reportUrl r) = None /\ Reporter.inflight r = [].

(** The handle of the timer and whether the browser still runs it. *)
Definition clock (r : Reporter.t) := (Reporter.timer r, Reporter.ticking r).

(** A running timer has a handle. *)
Definition timer_known (r : Reporter.t) : Prop :=
Reporter.ticking r = true -> Reporter.timer r <> None.

(** **** More on the render monitor *)

(** What the heuristics of the monitor listen to. *)
Definition is_heuristic_input (ev : Render.event) : bool :=
match ev with
| Render.Frame _ _ | Render.Mutated _ _ | Render.Measured _ _ => true
| _ => false
end.

Definition is_frame (ev : Render.event) : bool :=
match ev with
| Render.Frame _ _ => true
| _ => false
end.

Definition is_clear (ev : Render.event) : bool :=
match ev with
| Render.Clear => true
| _ => false
end.

(** The attributes of the filter whose change is recorded. *)
Definition recorded_attributes : list string :=
["width"; "height"; "display"; "position"].

(** The records of [m] are still there in [m'], in place. *)
Definition keeps_records (m m' : Render.t) : Prop :=
(exists more, Render.reflows m' = Render.reflows m ++ more)
/\ (exists more, Render.repaints m' = Render.repaints m ++ more).

(** A reflow record that [getFrequentReflowElements] counts for [path]:
    it has an element and that, non-empty, path. *)
Definition counted (path : string) (reflow : Render.ReflowInfo) : bool :=
match Render.element reflow, Render.elementPath reflow with
| Some _, Some p => (Render.nonempty p && String.eqb p path)%bool
| _, _ => false
end.

Definition occurrences (path : string) (reflows : list Render.ReflowInfo) : nat :=
List.length (List.filter (counted path) reflows).

(** The element of the first record counted for [path]. *)
Definition first_counted (path : string) (reflows : list Render.ReflowInfo)
  : option Element :=
match find (counted path) reflows with
| Some reflow => Render.element reflow
| None => None
end.

(** [elementCounts.get(path)] *)
Fixpoint lookup_path (path : string) (elementCounts : list (string * (Element * nat)))
  : option (Element * nat) :=
match elementCounts with
| [] => None
| (p, v) :: rest => if String.eqb path p then Some v else lookup_path path rest
end.

(** One turn of the first loop of [getFrequentReflowElements]. *)
Definition count_reflow (elementCounts : list (string * (Element * nat)))
           (reflow : Render.ReflowInfo) : list (string * (Element * nat)) :=
match Render.element reflow, Render.elementPath reflow with
| Some element, Some path =>
    if Render.nonempty path
    then RenderQueries.count_path path element elementCounts
    else elementCounts
| _, _ => elementCounts
end.

(** What the scan makes of one style it read: the record of the
    element if its path could be computed and it is accelerated. *)
Definition found (getElementPath : Element -> option string)
           (parseFloat : string -> option JS.number)
           (element : Element) (computedStyle : option Render.CSSStyleDeclaration)
  : list Render.GPUAccelerationInfo :=
match computedStyle with
| Some computedStyle =>
    match Render.checkGPUAcceleration getElementPath parseFloat element computedStyle with
    | Some gpuInfo => if Render.isAccelerated gpuInfo then [gpuInfo] else []
    | None => []
    end
| None => []
end.

(** One pass over the candidates: each style is read once, in order,
    through [getComputedStyle], whose state the reads change. *)
Fixpoint examined {W : Type} (getElementPath : Element -> option string)
         (parseFloat : string -> option JS.number)
         (getComputedStyle : Element -> W -> W * option Render.CSSStyleDeclaration)
         (candidates : list Element) (w : W)
  : W * list Render.GPUAccelerationInfo :=
match candidates with
| [] => (w, [])
| element :: rest =>
    let '(w1, computedStyle) := getComputedStyle element w in
    let '(w2, more) := examined getElementPath parseFloat getComputedStyle rest w1 in
    (w2, found getElementPath parseFloat element computedStyle ++ more)
end.

(** A document in which every element has a running animation of one
    second and nothing that lifts it onto the GPU. *)
Definition spinning (_ : Element) : option RenderQueries.AnimatedStyle :=
Some {| RenderQueries.computed := initial_style;
        RenderQueries.animationName := "spin";
        RenderQueries.animationDuration := "1s" |}.

(** What the first loop of [getElementsNeedingGPUAcceleration] adds for
    one element. *)
Definition animated_candidate (getElementPath : Element -> option string)
           (parseFloat : string -> option JS.number)
           (isHTMLElement : Element -> bool)
           (getComputedStyle : Element -> option RenderQueries.AnimatedStyle)
           (element : Element) : list RenderQueries.Candidate :=
if isHTMLElement element then
  if RenderQueries.excluded element then []
  else
    match getComputedStyle element with
    | Some computedStyle =>
        if RenderQueries.hasRealAnimation parseFloat computedStyle then
          match Render.checkGPUAcceleration getElementPath parseFloat element
                  (RenderQueries.computed computedStyle) with
          | Some gpuInfo =>
              if negb (Render.isAccelerated gpuInfo) then
                match getElementPath element with
                | Some path => [{| RenderQueries.c_element := element;
                                   RenderQueries.c_path := path;
                                   RenderQueries.c_reason := "has_animation" |}]
                | None => []
                end
              else []
          | None => []
          end
        else []
    | None => []
    end
else [].

(** What holds of every entry of the result. *)
Definition sound_entry (getElementPath : Element -> option string)
           (parseFloat : string -> option JS.number)
           (isHTMLElement : Element -> bool)
           (getComputedStyle : Element -> option RenderQueries.AnimatedStyle)
           (allElements : list Element) (m : Render.t)
           (c : RenderQueries.Candidate) : Prop :=
let element := RenderQueries.c_element c in
isHTMLElement element = true
/\ RenderQueries.excluded element = false
/\ exists computedStyle gpuInfo,
    getComputedStyle element = Some computedStyle
    /\ Render.checkGPUAcceleration getElementPath parseFloat element
         (RenderQueries.computed computedStyle) = Some gpuInfo
    /\ Render.isAccelerated gpuInfo = false
    /\ ((RenderQueries.c_reason c = "has_animation"
         /\ In element allElements
         /\ getElementPath element = Some (RenderQueries.c_path c)
         /\ RenderQueries.hasRealAnimation parseFloat computedStyle = true)
        \/ (RenderQueries.c_reason c = "frequent_reflow"
            /\ exists fe,
                In fe (RenderQueries.getFrequentReflowElements 5 m)
                /\ RenderQueries.fe_element fe = element
                /\ RenderQueries.fe_path fe = RenderQueries.c_path c)).

(** [Some] of the values when all are there. *)
Fixpoint all_defined {A} (l : list (option A)) : option (list A) :=
match l with
| [] => Some []
| None :: _ => None
| Some x :: rest =>
    match all_defined rest with
    | Some xs => Some (x :: xs)
    | None => None
    end
end.

Definition is_html (n : Dom.Node) : bool := String.eqb (Dom.n_tagName n) "HTML".

Definition node (tag id className : string) (index : nat) : Dom.Node :=
{| Dom.n_tagName := tag; Dom.n_id := id; Dom.n_className := Some className;
   Dom.n_index := index |}.

(** [getElementPath] on elements that have no parent: one turn of its
    loop. *)
Definition own_path (el : Element) : option string :=
Dom.getElementPath
  (Some [{| Dom.n_tagName := tagName el; Dom.n_id := elId el;
            Dom.n_className := className el; Dom.n_index := 0 |}]).

(** [getElementPath] where the parent of every element is an SVG
    [foreignObject] without id, whose [className] is not a string. *)
Definition embedded_path (el : Element) : option string :=
Dom.getElementPath
  (Some [{| Dom.n_tagName := tagName el; Dom.n_id := elId el;
            Dom.n_className := className el; Dom.n_index := 0 |};
         {| Dom.n_tagName := "foreignObject"; Dom.n_id := "";
            Dom.n_className := None; Dom.n_index := 0 |}]).

(** An element without id whose [className] is not a string. *)
Definition icon : Element :=
{| eid := 7; tagName := "svg"; elId := ""; className := None |}.

(** A long task whose one attribution names an element. *)
Definition long_task_on (el : Element) (start d : Q) : Collector.LongTaskEntry :=
{| Collector.lt_name := "self"; Collector.lt_startTime := start;
   Collector.lt_duration := d;
   Collector.lt_attribution :=
     Some [{| Collector.a_entryType := Some "taskattribution";
              Collector.a_name := Some "unknown";
              Collector.a_containerType := Some "window";
              Collector.a_containerName := None;
              Collector.a_containerId := None;
              Collector.a_containerSrc := None;
              Collector.a_scriptURL := None;
              Collector.a_element := Some el |}];
   Collector.lt_scriptURL := None |}.

(** An [Start] in a browser where the observer can be set up. *)
Definition observing_start (ev : Resource.event) : bool :=
match ev with
| Resource.Start host =>
    (Resource.hasPerformance host && Resource.hasPerformanceObserver host
     && negb (Resource.observeThrows host))%bool
| Resource.Delivered _ => false
end.

Definition is_resource (entry : Resource.PerformanceResourceTiming) : bool :=
String.eqb (Resource.e_entryType entry) "resource".

Definition modern : Resource.Host :=
{| Resource.hasPerformance := true; Resource.hasPerformanceObserver := true;
   Resource.observeThrows := false; Resource.getEntriesThrows := false;
   Resource.timeline := [] |}.

Definition fetched (name : string) (duration : Q) : Resource.PerformanceResourceTiming :=
{| Resource.e_name := name; Resource.e_entryType := "resource";
   Resource.e_duration := duration; Resource.e_transferSize := Some 1024;
   Resource.e_startTime := 12 |}.

Definition no_dot (s : string) : bool :=
forallb (fun c => negb (Ascii.eqb c ".")) (list_ascii_of_string s).

(** What holds of every stored resource record. *)
Definition sound_resource (r : Resource.ResourceInfo) : Prop :=
is_integer (Resource.duration r) /\ is_integer (Resource.startTime r)
/\ Resource.url r = Resource.name r.

(** The six names [getResourceType] chooses from. *)
Definition type_names : list string :=
["script"; "stylesheet"; "image"; "font"; "xmlhttprequest"; "other"].

(** The observers of a collector. *)
Definition observers_of (c : Collector.t) :=
(Collector.lcpObserver c, Collector.fidObserver c, Collector.clsObserver c,
 Collector.fcpObserver c, Collector.longTaskObserver c).

(** No observer of the collector observes. *)
Definition detached (c : Collector.t) : Prop :=
Collector.observing (Collector.lcpObserver c) = false
/\ Collector.observing (Collector.fidObserver c) = false
/\ Collector.observing (Collector.clsObserver c) = false
/\ Collector.observing (Collector.fcpObserver c) = false
/\ Collector.observing (Collector.longTaskObserver c) = false.

(** A browser in which [ResourceMonitor.start] sets up its observer. *)
Definition observes_resources (host : Resource.Host) : bool :=
(Resource.hasPerformance host && Resource.hasPerformanceObserver host
 && negb (Resource.observeThrows host))%bool.

Definition helper_options (rate : option Q) : Helper.Options :=
{| Helper.reporting := options None;
   Helper.monitorResources := None;
   Helper.monitorErrors := None;
   Helper.monitorPerformance := None;
   Helper.sampleRate := rate |}.

Definition helper_env (random : Q) : Helper.Env :=
{| Helper.reporterEnv := page 0 true;
   Helper.host := browser;
   Helper.resourceHost := modern;
   Helper.random := random;
   Helper.readyComplete := true |}.

(** The helper [new PerformanceHelper(helper_options rate)] makes. *)
Definition constructed (rate : option Q) : Helper.t :=
{| Helper.options := Helper.merged (helper_options rate);
   Helper.reporter :=
     Reporter.constructor (page 0 true)
       (Helper.reporting (Helper.merged (helper_options rate)));
   Helper.performanceCollector := Collector.init browser Collector.create;
   Helper.resourceMonitor := Resource.create;
   Helper.errorMonitorStarts := 0;
   Helper.loadListeners := 0;
   Helper.initialized := false |}.

(** [f] changes nothing but the metric object, in which it stores the
    numbers [written] and the path [path] and keeps the rest. *)
Definition writes (f : Collector.t -> Collector.t)
           (written : Collector.MetricName -> option Q) (path : option string) : Prop :=
forall c,
  f c = Collector.with_metrics (Collector.metrics (f c)) c
  /\ (forall k, Collector.num (Collector.metrics (f c)) k
                = match written k with
                  | Some v => Some v
                  | None => Collector.num (Collector.metrics c) k
                  end)
  /\ Collector.lcpElement (Collector.metrics (f c))
     = match path with
       | Some p => Some p
       | None => Collector.lcpElement (Collector.metrics c)
       end
  /\ Collector.longTasks (Collector.metrics (f c))
     = Collector.longTasks (Collector.metrics c).

(* ================================================================== *)
(** * Properties *)

(** ** Rounding *)

Lemma Qfloor_unique (z : Z) (x : Q) :
  inject_Z z <= x -> x < inject_Z (z + 1) -> Qfloor x = z.
Proof.
  intros Hlo Hhi.
  pose proof (Qfloor_le x) as Hf.
  pose proof (Qlt_floor x) as Hc.
  assert (H1 : (z < Qfloor x + 1)%Z).
  { rewrite Zlt_Qlt. eapply Qle_lt_trans; eauto. }
  assert (H2 : (Qfloor x < z + 1)%Z).
  { rewrite Zlt_Qlt. eapply Qle_lt_trans; eauto. }
  lia.
Qed.

Lemma Qfloor_add_Z (x : Q) (n : Z) :
  Qfloor (x + inject_Z n) = (Qfloor x + n)%Z.
Proof.
  apply Qfloor_unique.
  - rewrite inject_Z_plus. pose proof (Qfloor_le x) as H.
    revert H. generalize (inject_Z (Qfloor x)) (inject_Z n). intros a b H. lra.
  - pose proof (Qlt_floor x) as H.
    rewrite !inject_Z_plus in *. change (inject_Z 1) with 1 in *.
    revert H. generalize (inject_Z (Qfloor x)) (inject_Z n). intros a b H. lra.
Qed.

Lemma Math_round_integer (x : Q) : is_integer (JS.Math_round x).
Proof. exists (Qfloor (x + (1 # 2))). reflexivity. Qed.

Lemma Math_round_of_Z (z : Z) : JS.Math_round (inject_Z z) == inject_Z z.
Proof.
  unfold JS.Math_round.
  replace (Qfloor (inject_Z z + (1 # 2))) with z; [reflexivity|].
  symmetry. apply Qfloor_unique.
  - generalize (inject_Z z). intro q. lra.
  - rewrite inject_Z_plus. change (inject_Z 1) with 1.
    generalize (inject_Z z). intro q. lra.
Qed.

Lemma Math_round_of_integer (x : Q) : is_integer x -> JS.Math_round x == x.
Proof.
  intros [z Hz]. unfold JS.Math_round.
  rewrite Hz at 2. rewrite Hz.
  apply Math_round_of_Z.
Qed.

(** [Math.round] is within one half of its argument. *)
Lemma Math_round_nearest (x : Q) :
  x - (1 # 2) < JS.Math_round x /\ JS.Math_round x <= x + (1 # 2).
Proof.
  unfold JS.Math_round.
  pose proof (Qfloor_le (x + (1 # 2))) as H0.
  pose proof (Qlt_floor (x + (1 # 2))) as H1.
  rewrite inject_Z_plus in H1. change (inject_Z 1) with 1 in H1.
  revert H0 H1. generalize (inject_Z (Qfloor (x + (1 # 2)))). intros a H0 H1.
  split; lra.
Qed.

Lemma Math_round_sub_Z (x : Q) (n : Z) :
  JS.Math_round (x - inject_Z n) == JS.Math_round x - inject_Z n.
Proof.
  unfold JS.Math_round.
  assert (E : x - inject_Z n + (1 # 2) == (x + (1 # 2)) + inject_Z (- n)).
  { rewrite inject_Z_opp. ring. }
  rewrite E, Qfloor_add_Z.
  rewrite inject_Z_plus, inject_Z_opp. ring.
Qed.

Lemma Math_round_mono (x y : Q) : x <= y -> JS.Math_round x <= JS.Math_round y.
Proof.
  intro H. unfold JS.Math_round. rewrite <- Zle_Qle.
  apply Qfloor_resp_le. lra.
Qed.

Lemma is_integer_plus (a b : Q) : is_integer a -> is_integer b -> is_integer (a + b).
Proof.
  intros [x Hx] [y Hy]. exists (x + y)%Z.
  rewrite inject_Z_plus, Hx, Hy. reflexivity.
Qed.

Lemma is_integer_minus (a b : Q) : is_integer a -> is_integer b -> is_integer (a - b).
Proof.
  intros [x Hx] [y Hy]. exists (x - y)%Z.
  unfold Z.sub. rewrite inject_Z_plus, inject_Z_opp, Hx, Hy. reflexivity.
Qed.

Lemma is_integer_Z (z : Z) : is_integer (inject_Z z).
Proof. exists z. reflexivity. Qed.

Lemma gt_true (x y : Q) : JS.gt x y = true <-> y < x.
Proof.
  unfold JS.gt, JS.lt. rewrite negb_true_iff.
  split; intro H.
  - apply Qnot_le_lt. intro Hle. apply Qle_bool_iff in Hle. congruence.
  - destruct (Qle_bool x y) eqn:E; auto.
    apply Qle_bool_iff in E. lra.
Qed.

Lemma gt_false (x y : Q) : JS.gt x y = false <-> x <= y.
Proof.
  unfold JS.gt, JS.lt. rewrite negb_false_iff. apply Qle_bool_iff.
Qed.

Lemma lt_true (x y : Q) : JS.lt x y = true <-> x < y.
Proof. apply (gt_true y x). Qed.

Lemma lt_false (x y : Q) : JS.lt x y = false <-> y <= x.
Proof. apply (gt_false y x). Qed.

Lemma truthy_true (x : Q) : JS.truthy x = true <-> ~ x == 0.
Proof.
  unfold JS.truthy. rewrite negb_true_iff. split; intro H.
  - now apply Qeq_bool_neq.
  - destruct (Qeq_bool x 0) eqn:E; auto. apply Qeq_bool_iff in E. contradiction.
Qed.

Lemma truthy_false (x : Q) : JS.truthy x = false <-> x == 0.
Proof.
  unfold JS.truthy. rewrite negb_false_iff. apply Qeq_bool_iff.
Qed.

Lemma or_num_0 (x : Q) : JS.or_num x 0 == x.
Proof.
  unfold JS.or_num. destruct (JS.truthy x) eqn:E; [reflexivity|].
  apply truthy_false in E. now rewrite E.
Qed.

(** A raw duration above 50 is stored as an integer that is at least 50. *)
Lemma Math_round_above_50 (d : Q) : 50 < d -> 50 <= JS.Math_round d.
Proof.
  intro H.
  rewrite <- (Math_round_of_Z 50).
  apply Math_round_mono. change (inject_Z 50) with 50. lra.
Qed.

(** ** The collector: what every reachable state satisfies *)

(** What [normalize] stores of the times of an entry. *)
Lemma normalize_times (getElementPath : Element -> option string)
      (entry : Collector.LongTaskEntry) (task : Collector.LongTaskInfo) :
  Collector.normalize getElementPath entry = Some task ->
  Collector.startTime task = JS.Math_round (Collector.lt_startTime entry)
  /\ Collector.duration task = JS.Math_round (Collector.lt_duration entry).
Proof.
  unfold Collector.normalize.
  destruct (match Collector.lt_attribution entry with
            | Some attrs => Collector.extract_attributions getElementPath attrs
            | None => Some [Collector.fallback_attribution entry]
            end); [|discriminate].
  intro H. injection H as <-. split; reflexivity.
Qed.

Lemma fold_left_preserves {A B} (P : A -> Prop) (f : A -> B -> A) (l : list B) :
  (forall a b, P a -> P (f a b)) -> forall a, P a -> P (fold_left f l a).
Proof.
  intro Hf. induction l as [|b l IH]; intros a Ha; simpl; auto.
Qed.

Section CollectorInvariant.

Import Collector.

Variable getElementPath : Element -> option string.

Local Abbreviation normalize := (normalize getElementPath).
Local Abbreviation step := (step getElementPath).
Local Abbreviation run := (run getElementPath).

Local Abbreviation from_long_entry := (from_long_entry getElementPath).
Local Abbreviation well_formed := (well_formed getElementPath).

Lemma well_formed_empty : well_formed empty_metrics.
Proof. split; simpl; intros; discriminate. Qed.

Lemma MetricName_eqb_eq (a b : MetricName) : MetricName_eqb a b = true <-> a = b.
Proof. destruct a, b; simpl; split; intro H; try reflexivity; discriminate. Qed.

Lemma well_formed_store k v c :
  rounded k v -> well_formed (metrics c) -> well_formed (metrics (store k v c)).
Proof.
  intros Hv [Hn Ht]. split; simpl.
  - intros k' v'. destruct (MetricName_eqb k k') eqn:E.
    + apply MetricName_eqb_eq in E. subst k'. intros [= <-]. exact Hv.
    + apply Hn.
  - exact Ht.
Qed.

Lemma rounded_Math_round k x : k <> cls -> rounded k (JS.Math_round x).
Proof.
  intro Hk. destruct k; try congruence; apply Math_round_integer.
Qed.

Lemma rounded_Z k z : k <> cls -> rounded k (inject_Z z).
Proof.
  intro Hk. destruct k; try congruence; apply is_integer_Z.
Qed.


Ltac metric_neq := discriminate.

Lemma well_formed_legacy h c :
  well_formed (metrics c) -> well_formed (metrics (collectNavigationTimingLegacy h c)).
Proof.
  intro H. unfold collectNavigationTimingLegacy.
  destruct (performance h) as [perf|]; auto.
  destruct (timing perf) as [tm|]; auto.
  repeat (apply well_formed_store; [apply rounded_Z; metric_neq|]). exact H.
Qed.

Lemma well_formed_navigation h c :
  well_formed (metrics c) -> well_formed (metrics (collectNavigationTiming h c)).
Proof.
  intro H. unfold collectNavigationTiming.
  destruct (performance h) as [perf|] eqn:Ep; auto.
  destruct (has_getEntriesByType perf); simpl; auto.
  destruct (navigationEntries perf) as [[|nav l]|]; auto.
  - repeat (apply well_formed_store; [apply rounded_Math_round; metric_neq|]). exact H.
  - now apply well_formed_legacy.
Qed.

Lemma well_formed_fcp_callback entries c :
  well_formed (metrics c) -> well_formed (metrics (fcp_callback entries c)).
Proof.
  unfold fcp_callback.
  apply (fold_left_preserves (fun c => well_formed (metrics c))).
  intros a b Ha. destruct (is_fcp b); auto.
  change (well_formed (metrics (store fcp (JS.Math_round (p_startTime b)) a))).
  apply well_formed_store; auto. apply rounded_Math_round. metric_neq.
Qed.

Lemma well_formed_observeFCP h c :
  well_formed (metrics c) -> well_formed (metrics (observeFCP h c)).
Proof.
  intro H. unfold observeFCP.
  match goal with |- context [num (metrics ?x) fcp] => assert (Hx : well_formed (metrics x)) end.
  { destruct (performance h) as [perf|]; auto.
    destruct (has_getEntriesByType perf); auto.
    apply (fold_left_preserves (fun c => well_formed (metrics c))); auto.
    intros a b Ha. destruct (is_fcp b); auto.
    apply well_formed_store; auto. apply rounded_Math_round. metric_neq. }
  match goal with |- context [num (metrics ?x) fcp] => destruct (num (metrics x) fcp) end; auto.
  destruct (hasPerformanceObserver h); auto.
Qed.

Lemma well_formed_set_lcpElement p c :
  well_formed (metrics c) ->
  well_formed (metrics (with_metrics (set_lcpElement p (metrics c)) c)).
Proof. intros [Hn Ht]. split; simpl; auto. Qed.

Lemma well_formed_lcp_callback entries c :
  well_formed (metrics c) -> well_formed (metrics (lcp_callback getElementPath entries c)).
Proof.
  intro H. unfold lcp_callback.
  destruct (JS.last_entry entries) as [e|]; auto.
  match goal with |- context [JS.gt ?v 0] => destruct (JS.gt v 0) end; auto.
  match goal with |- context [store lcp ?v c] =>
    assert (Hs : well_formed (metrics (store lcp v c)))
      by (apply well_formed_store; auto; apply rounded_Math_round; metric_neq)
  end.
  destruct (lcp_element e) as [el|]; auto.
  destruct (getElementPath el) as [path|]; auto.
  destruct (negb _); auto; try (now apply well_formed_set_lcpElement).
Qed.

Lemma well_formed_collectFinalLCP h c :
  well_formed (metrics c) -> well_formed (metrics (collectFinalLCP getElementPath h c)).
Proof.
  intro H. unfold collectFinalLCP.
  destruct (performance h) as [perf|]; auto.
  destruct (negb (has_getEntriesByType perf)); auto.
  destruct (lcpEntries perf) as [es|]; auto.
  destruct (0 <? List.length es)%nat; auto.
  destruct (JS.last_entry es) as [e|]; auto.
  match goal with |- context [JS.gt ?v 0] => destruct (JS.gt v 0) end; auto.
  match goal with |- context [store lcp ?v c] =>
    assert (Hs : well_formed (metrics (store lcp v c)))
      by (apply well_formed_store; auto; apply rounded_Math_round; metric_neq)
  end.
  destruct (lcp_element e) as [el|]; auto.
  destruct (getElementPath el) as [path|]; auto.
  destruct (negb _); auto; try (now apply well_formed_set_lcpElement).
Qed.

Lemma well_formed_fid_callback entries c :
  well_formed (metrics c) -> well_formed (metrics (fid_callback entries c)).
Proof.
  unfold fid_callback.
  apply (fold_left_preserves (fun c => well_formed (metrics c))).
  intros a b Ha. destruct (_ && _)%bool; auto.
  change (well_formed (metrics (store fid (JS.Math_round (processingStart b - fi_startTime b)) a))).
  apply well_formed_store; auto. apply rounded_Math_round. metric_neq.
Qed.

Lemma rounded_cls (v : Q) : rounded cls (JS.Math_round (v * 1000) / 1000).
Proof. exists (Qfloor (v * 1000 + (1 # 2))). reflexivity. Qed.

Lemma well_formed_cls_callback entries c :
  well_formed (metrics c) -> well_formed (metrics (cls_callback entries c)).
Proof.
  intro H. unfold cls_callback.
  destruct (fold_left cls_entry entries (clsValue c, clsEntries c)) as [v es].
  apply well_formed_store; [apply rounded_cls | exact H].
Qed.

Lemma tbt_or_0_integer m : well_formed m -> is_integer (tbt_or_0 m).
Proof.
  intros [Hn _]. unfold tbt_or_0.
  destruct (num m tbt) as [v|] eqn:E.
  - destruct (Hn _ _ E) as [z Hz]. exists z. now rewrite or_num_0.
  - exists 0%Z. reflexivity.
Qed.

Lemma well_formed_longtask_entry entry c c' :
  well_formed (metrics c) ->
  longtask_entry getElementPath entry c = Some c' ->
  well_formed (metrics c').
Proof.
  intros H. unfold longtask_entry.
  destruct (JS.gt (lt_duration entry) 50) eqn:Hd.
  - destruct (normalize entry) as [task|] eqn:En; [|discriminate].
    destruct (longTasks (metrics c)) as [tasks|] eqn:Et; [|discriminate].
    intros [= <-].
    assert (Hm : well_formed (set_longTasks (tasks ++ [task]) (metrics c))).
    { destruct H as [Hn Ht]. split; simpl; auto.
      intros ts [= <-]. apply Forall_app. split; auto.
      constructor; auto. exists entry. split; auto. now apply gt_true. }
    apply well_formed_store; auto.
    apply is_integer_plus.
    + now apply tbt_or_0_integer.
    + apply Math_round_integer.
  - now intros [= <-].
Qed.

Lemma well_formed_longtask_callback entries c :
  well_formed (metrics c) ->
  well_formed (metrics (longtask_callback getElementPath entries c)).
Proof.
  revert c. induction entries as [|e es IH]; intros c H; simpl; auto.
  destruct (longtask_entry getElementPath e c) as [c'|] eqn:E; auto.
  apply IH. eapply well_formed_longtask_entry; eauto.
Qed.

Lemma well_formed_updateTBT c :
  well_formed (metrics c) -> well_formed (metrics (updateTBT c)).
Proof.
  intro H. unfold updateTBT.
  destruct (longTasks (metrics c)) as [[|task tasks]|];
    apply well_formed_store; auto;
    try apply Math_round_integer; exists 0%Z; reflexivity.
Qed.

Lemma well_formed_observeTBT h c :
  well_formed (metrics c) -> well_formed (metrics (observeTBT h c)).
Proof.
  intro H. unfold observeTBT.
  destruct (negb (hasPerformanceObserver h)); auto.
  match goal with |- context [store tbt 0 ?x] =>
    assert (Hx : well_formed (metrics x)) end.
  { destruct (longTasks (metrics c)) eqn:E; auto.
    destruct H as [Hn Ht]. split; simpl; auto.
    intros ts [= <-]. constructor. }
  match goal with |- context [store tbt 0 ?x] =>
    assert (Hs : well_formed (metrics (store tbt 0 x)))
      by (apply well_formed_store; auto; exists 0%Z; reflexivity) end.
  destruct (supports h LongTaskType); auto.
  now apply well_formed_updateTBT.
Qed.

Lemma well_formed_init h c :
  well_formed (metrics c) -> well_formed (metrics (init h c)).
Proof.
  intro H. unfold init. destruct (initialized c); auto.
  change (well_formed (metrics (collectWebVitals h c))).
  unfold collectWebVitals.
  apply well_formed_observeTBT.
  unfold observeCLS.
  destruct (negb (hasPerformanceObserver h)).
  - unfold observeFID, observeLCP.
    destruct (negb (hasPerformanceObserver h)); now apply well_formed_observeFCP.
  - change (well_formed (metrics (observeFID h (observeLCP h (observeFCP h c))))).
    unfold observeFID, observeLCP.
    destruct (negb (hasPerformanceObserver h)); now apply well_formed_observeFCP.
Qed.

Lemma well_formed_collect h c :
  well_formed (metrics c) -> well_formed (metrics (fst (collect getElementPath h c))).
Proof.
  intro H. unfold collect. simpl.
  now apply well_formed_collectFinalLCP, well_formed_navigation.
Qed.

Lemma well_formed_step c ev :
  well_formed (metrics c) -> well_formed (metrics (step c ev)).
Proof.
  intro H. destruct ev; simpl.
  - now apply well_formed_init.
  - now apply well_formed_collect.
  - exact H.
  - destruct (observing (fcpObserver c)); auto using well_formed_fcp_callback.
  - destruct (observing (lcpObserver c)); auto using well_formed_lcp_callback.
  - destruct (observing (fidObserver c)); auto using well_formed_fid_callback.
  - destruct (observing (clsObserver c)); auto using well_formed_cls_callback.
  - destruct (observing (longTaskObserver c)); auto using well_formed_longtask_callback.
Qed.

(** Whatever happens to a fresh collector, its metric object is well
    formed. *)
Lemma well_formed_run evs :
  well_formed (metrics (run evs create)).
Proof.
  unfold Collector.run.
  apply (fold_left_preserves (fun c => well_formed (metrics c))).
  - intros a b. apply well_formed_step.
  - apply well_formed_empty.
Qed.

End CollectorInvariant.

(** ** Long tasks and the blocking total *)

Section LongTasks.

Import Collector.

Variable getElementPath : Element -> option string.

Local Abbreviation normalize := (normalize getElementPath).
Local Abbreviation step := (step getElementPath).
Local Abbreviation run := (run getElementPath).
Local Abbreviation collect := (collect getElementPath).
Local Abbreviation longtask_callback := (longtask_callback getElementPath).

Lemma view_store k v c : k <> tbt -> tbt_view (store k v c) = tbt_view c.
Proof. intro H. destruct k; try reflexivity. congruence. Qed.

Lemma view_legacy h c : tbt_view (collectNavigationTimingLegacy h c) = tbt_view c.
Proof.
  unfold collectNavigationTimingLegacy.
  destruct (performance h) as [perf|]; auto.
  destruct (timing perf); reflexivity.
Qed.

Lemma view_navigation h c : tbt_view (collectNavigationTiming h c) = tbt_view c.
Proof.
  unfold collectNavigationTiming.
  destruct (performance h) as [perf|] eqn:E; auto.
  destruct (has_getEntriesByType perf); simpl; auto.
  destruct (navigationEntries perf) as [[|nav l]|]; try reflexivity.
  apply view_legacy.
Qed.

Lemma view_collectFinalLCP h c :
  tbt_view (collectFinalLCP getElementPath h c) = tbt_view c.
Proof.
  unfold collectFinalLCP.
  destruct (performance h) as [perf|]; auto.
  destruct (negb (has_getEntriesByType perf)); auto.
  destruct (lcpEntries perf) as [es|]; auto.
  destruct (0 <? List.length es)%nat; auto.
  destruct (JS.last_entry es) as [e|]; auto.
  match goal with |- context [JS.gt ?v 0] => destruct (JS.gt v 0) end; auto.
  destruct (lcp_element e) as [el|]; try reflexivity.
  destruct (getElementPath el) as [path|]; try reflexivity.
  destruct (negb _); reflexivity.
Qed.

Lemma view_lcp_callback entries c :
  tbt_view (lcp_callback getElementPath entries c) = tbt_view c.
Proof.
  unfold lcp_callback.
  destruct (JS.last_entry entries) as [e|]; auto.
  match goal with |- context [JS.gt ?v 0] => destruct (JS.gt v 0) end; auto.
  destruct (lcp_element e) as [el|]; try reflexivity.
  destruct (getElementPath el) as [path|]; try reflexivity.
  destruct (negb _); reflexivity.
Qed.

Lemma view_fcp_callback entries c : tbt_view (fcp_callback entries c) = tbt_view c.
Proof.
  unfold fcp_callback.
  apply (fold_left_preserves (fun a => tbt_view a = tbt_view c)); auto.
  intros a b Ha. destruct (is_fcp b); auto.
Qed.

Lemma view_fid_callback entries c : tbt_view (fid_callback entries c) = tbt_view c.
Proof.
  unfold fid_callback.
  apply (fold_left_preserves (fun a => tbt_view a = tbt_view c)); auto.
  intros a b Ha. destruct (_ && _)%bool; auto.
Qed.

Lemma view_cls_callback entries c : tbt_view (cls_callback entries c) = tbt_view c.
Proof.
  unfold cls_callback.
  destruct (fold_left cls_entry entries (clsValue c, clsEntries c)).
  reflexivity.
Qed.

Lemma view_collect h c : tbt_view (fst (collect h c)) = tbt_view c.
Proof.
  unfold Collector.collect. simpl.
  now rewrite view_collectFinalLCP, view_navigation.
Qed.

Lemma collect_snd h c : snd (collect h c) = metrics (fst (collect h c)).
Proof. reflexivity. Qed.

Lemma view_observeFCP h c : tbt_view (observeFCP h c) = tbt_view c.
Proof.
  unfold observeFCP.
  match goal with |- context [num (metrics ?x) fcp] =>
    assert (Hx : tbt_view x = tbt_view c) end.
  { destruct (performance h) as [perf|]; auto.
    destruct (has_getEntriesByType perf); auto.
    apply (fold_left_preserves (fun a => tbt_view a = tbt_view c)); auto.
    intros a b Ha. destruct (is_fcp b); auto. }
  match goal with |- context [num (metrics ?x) fcp] =>
    destruct (num (metrics x) fcp) end; auto.
  destruct (hasPerformanceObserver h); auto.
Qed.

(** After [init] on a browser that observes long tasks, a fresh
    collector holds no task and a total of zero. *)
Lemma init_view h :
  hasPerformanceObserver h = true ->
  supports h LongTaskType = true ->
  tbt_view (init h create) = (Some 0, Some [], Some true).
Proof.
  intros Hpo Hs.
  unfold init, collectWebVitals. simpl initialized. cbv iota.
  unfold observeTBT, observeCLS, observeFID, observeLCP.
  rewrite Hpo, Hs. simpl negb. cbv iota.
  pose proof (view_observeFCP h create) as Hv.
  unfold tbt_view in Hv. simpl in Hv.
  injection Hv as Hn Ht Ho.
  unfold tbt_view. simpl. rewrite Ht. simpl. reflexivity.
Qed.

Lemma blocking_total_app a b :
  blocking_total (a ++ b) == blocking_total a + blocking_total b.
Proof.
  induction a as [|e a IH]; simpl.
  - ring.
  - rewrite IH. ring.
Qed.

Lemma long_tasks_of_cons ev evs :
  long_tasks_of (ev :: evs)
  = (match ev with LongTaskObserved entries => entries | _ => [] end) ++ long_tasks_of evs.
Proof. reflexivity. Qed.

Lemma long_tasks_of_single ev :
  long_tasks_of [ev]
  = match ev with LongTaskObserved entries => entries | _ => [] end.
Proof. unfold long_tasks_of. simpl. apply app_nil_r. Qed.

(** Building the attribution throws exactly when a path is not
    known. *)
Lemma extract_attributions_known attrs :
  match extract_attributions getElementPath attrs with
  | Some _ =>
      forallb (fun attr => match a_element attr with
                           | Some el => path_known getElementPath el
                           | None => true
                           end) attrs = true
  | None =>
      forallb (fun attr => match a_element attr with
                           | Some el => path_known getElementPath el
                           | None => true
                           end) attrs = false
  end.
Proof.
  induction attrs as [|attr attrs IH]; simpl; [reflexivity|].
  unfold extract_attribution, path_known at 1 3.
  destruct (a_element attr) as [el|]; simpl.
  - destruct (getElementPath el) as [path|]; simpl; [|reflexivity].
    destruct (extract_attributions getElementPath attrs); exact IH.
  - destruct (extract_attributions getElementPath attrs); exact IH.
Qed.

Lemma normalize_known entry :
  match normalize entry with
  | Some _ => paths_known getElementPath entry = true
  | None => paths_known getElementPath entry = false
  end.
Proof.
  unfold Collector.normalize, paths_known.
  destruct (lt_attribution entry) as [attrs|]; [|reflexivity].
  pose proof (extract_attributions_known attrs) as H.
  destruct (extract_attributions getElementPath attrs); exact H.
Qed.

Lemma handled_cons_long e es :
  is_long e = true ->
  handled getElementPath (e :: es)
  = match normalize e with
    | Some _ => e :: handled getElementPath es
    | None => []
    end.
Proof.
  intro El. simpl. rewrite El. pose proof (normalize_known e) as H.
  destruct (normalize e); rewrite H; reflexivity.
Qed.

(** The callback appends the tasks of the long entries it gets
    through, and adds their rounded blocking times to the total. *)
Lemma longtask_callback_view entries :
  forall c tasks v o,
    tbt_view c = (Some v, Some tasks, o) ->
    exists v',
      tbt_view (longtask_callback entries c)
      = (Some v', Some (tasks ++ stored getElementPath entries), o)
      /\ v' == v + blocking_total (handled getElementPath entries).
Proof.
  induction entries as [|e es IH]; intros c tasks v o Hc; simpl.
  - exists v. rewrite app_nil_r. split; [exact Hc | ring].
  - unfold tbt_view in Hc. injection Hc as Hn Ht Ho.
    unfold longtask_entry. fold (is_long e).
    pose proof (normalize_known e) as Hk.
    destruct (is_long e) eqn:El.
    + destruct (Collector.normalize getElementPath e) as [task|] eqn:En;
        rewrite Hk; simpl.
      * rewrite Ht.
        match goal with |- context [longtask_callback es ?x] =>
          destruct (IH x (tasks ++ [task])
                       (tbt_or_0 (metrics (with_metrics
                          (set_longTasks (tasks ++ [task]) (metrics c)) c))
                        + JS.Math_round (lt_duration e - 50)) o) as [v' [Hv' Hs]]
        end.
        { unfold tbt_view. simpl. now rewrite Ho. }
        exists v'. split.
        -- rewrite Hv'. now rewrite <- app_assoc.
        -- rewrite Hs. rewrite El. unfold tbt_or_0. simpl. rewrite Hn, or_num_0.
           change 50 with (inject_Z 50). rewrite Math_round_sub_Z. ring.
      * exists v. rewrite app_nil_r. split; [|ring].
        unfold tbt_view. now rewrite Hn, Ht, Ho.
    + simpl. destruct (IH c tasks v o) as [v' [Hv' Hs]].
      { unfold tbt_view. now rewrite Hn, Ht, Ho. }
      exists v'. split; [exact Hv'|]. rewrite Hs, El. ring.
Qed.

Lemma handled_of_cons ev evs :
  handled_of getElementPath (ev :: evs)
  = (match ev with
     | LongTaskObserved entries => handled getElementPath entries
     | _ => []
     end) ++ handled_of getElementPath evs.
Proof. reflexivity. Qed.

Lemma stored_of_cons ev evs :
  stored_of getElementPath (ev :: evs)
  = (match ev with
     | LongTaskObserved entries => stored getElementPath entries
     | _ => []
     end) ++ stored_of getElementPath evs.
Proof. reflexivity. Qed.

Lemma step_view c ev tasks v :
  lifecycle ev = false ->
  tbt_view c = (Some v, Some tasks, Some true) ->
  exists v',
    tbt_view (step c ev)
    = (Some v', Some (tasks ++ stored_of getElementPath [ev]), Some true)
    /\ v' == v + blocking_total (handled_of getElementPath [ev]).
Proof.
  intros Hl Hc.
  assert (Hsame : forall c', tbt_view c' = tbt_view c ->
            stored_of getElementPath [ev] = [] ->
            handled_of getElementPath [ev] = [] ->
            exists v', tbt_view c'
              = (Some v', Some (tasks ++ stored_of getElementPath [ev]), Some true)
              /\ v' == v + blocking_total (handled_of getElementPath [ev])).
  { intros c' Hc' Es Eh. exists v. rewrite Es, Eh. simpl. rewrite app_nil_r.
    split; [congruence | ring]. }
  destruct ev; try discriminate; simpl Collector.step.
  - apply Hsame; [apply view_collect | reflexivity | reflexivity].
  - apply Hsame; [|reflexivity|reflexivity].
    destruct (observing (fcpObserver c)); auto using view_fcp_callback.
  - apply Hsame; [|reflexivity|reflexivity].
    destruct (observing (lcpObserver c)); auto using view_lcp_callback.
  - apply Hsame; [|reflexivity|reflexivity].
    destruct (observing (fidObserver c)); auto using view_fid_callback.
  - apply Hsame; [|reflexivity|reflexivity].
    destruct (observing (clsObserver c)); auto using view_cls_callback.
  - assert (Ho : longTaskObserver c = Some true)
      by (unfold tbt_view in Hc; congruence).
    rewrite Ho. simpl observing. cbv iota.
    unfold stored_of, handled_of. simpl flat_map. rewrite !app_nil_r.
    now apply longtask_callback_view.
Qed.

Lemma run_view evs :
  forall c tasks v,
    forallb (fun ev => negb (lifecycle ev)) evs = true ->
    tbt_view c = (Some v, Some tasks, Some true) ->
    exists v',
      tbt_view (run evs c)
      = (Some v', Some (tasks ++ stored_of getElementPath evs), Some true)
      /\ v' == v + blocking_total (handled_of getElementPath evs).
Proof.
  induction evs as [|ev evs IH]; intros c tasks v Hl Hc.
  - exists v. simpl. rewrite app_nil_r. split; [exact Hc | ring].
  - simpl in Hl. apply andb_true_iff in Hl. destruct Hl as [Hev Hl].
    apply negb_true_iff in Hev.
    destruct (step_view c ev tasks v Hev Hc) as [v1 [H1 E1]].
    destruct (IH _ _ _ Hl H1) as [v2 [H2 E2]].
    exists v2. split.
    + change (run (ev :: evs) c) with (run evs (step c ev)).
      rewrite H2. rewrite (stored_of_cons ev evs).
      unfold stored_of at 1. simpl flat_map. rewrite !app_nil_r.
      now rewrite app_assoc.
    + rewrite E2, E1, (handled_of_cons ev evs), blocking_total_app.
      unfold handled_of at 1. simpl flat_map. rewrite !app_nil_r. ring.
Qed.

(** The stored tasks are the long entries the callback got through. *)
Lemma stored_of_handled entries :
  map Some (stored getElementPath entries)
  = map normalize (List.filter is_long (handled getElementPath entries)).
Proof.
  induction entries as [|e es IH]; [reflexivity|].
  simpl. destruct (is_long e) eqn:El; simpl.
  - pose proof (normalize_known e) as Hk.
    destruct (Collector.normalize getElementPath e) as [task|] eqn:En;
      rewrite Hk; simpl; [|reflexivity].
    rewrite El. simpl. now rewrite En, IH.
  - rewrite El. exact IH.
Qed.

(** They are a prefix of the batch, which ends before a long entry with
    an unknown path or with the batch. *)
Lemma handled_prefix entries :
  exists rest,
    entries = handled getElementPath entries ++ rest
    /\ match rest with
       | [] => True
       | entry :: _ =>
           is_long entry = true /\ paths_known getElementPath entry = false
       end.
Proof.
  induction entries as [|e es [rest [IH1 IH2]]]; [exists []; auto|].
  simpl. destruct (is_long e) eqn:El; simpl.
  - destruct (paths_known getElementPath e) eqn:Ek; simpl.
    + exists rest. split; [now rewrite <- IH1 | exact IH2].
    + exists (e :: es). auto.
  - exists rest. split; [now rewrite <- IH1 | exact IH2].
Qed.

Lemma handled_known entries :
  Forall (fun entry => is_long entry = true ->
                       paths_known getElementPath entry = true)
         (handled getElementPath entries).
Proof.
  induction entries as [|e es IH]; [constructor|].
  simpl. destruct (is_long e) eqn:El; simpl.
  - destruct (paths_known getElementPath e) eqn:Ek; simpl; [|constructor].
    constructor; auto.
  - constructor; [congruence | exact IH].
Qed.

(** Where every path can be computed, the callback gets through the
    whole batch. *)
Lemma handled_all entries :
  Forall (fun entry => is_long entry = true -> paths_known getElementPath entry = true)
         entries ->
  handled getElementPath entries = entries
  /\ map Some (stored getElementPath entries)
     = map normalize (List.filter is_long entries).
Proof.
  induction 1 as [|e es He _ [IH1 IH2]]; simpl; [auto|].
  destruct (is_long e) eqn:El; simpl.
  - specialize (He eq_refl). rewrite He. simpl.
    pose proof (normalize_known e) as Hk.
    destruct (Collector.normalize getElementPath e) as [task|] eqn:En;
      [|congruence].
    simpl. rewrite IH1, IH2. auto.
  - rewrite IH1. auto.
Qed.

Lemma handled_of_all evs :
  Forall (fun entry => is_long entry = true -> paths_known getElementPath entry = true)
         (long_tasks_of evs) ->
  handled_of getElementPath evs = long_tasks_of evs
  /\ map Some (stored_of getElementPath evs)
     = map normalize (List.filter is_long (long_tasks_of evs)).
Proof.
  induction evs as [|ev evs IH]; intro H; [auto|].
  rewrite long_tasks_of_cons in H. apply Forall_app in H. destruct H as [Hev H].
  destruct (IH H) as [IH1 IH2].
  rewrite handled_of_cons, stored_of_cons, long_tasks_of_cons.
  rewrite filter_app, !map_app, IH1, IH2.
  destruct ev; simpl; auto.
  destruct (handled_all entries Hev) as [E1 E2]. now rewrite E1, E2.
Qed.

End LongTasks.

Section BlockingTotal.

Import Collector.

Variable getElementPath : Element -> option string.

Local Abbreviation normalize := (normalize getElementPath).
Local Abbreviation run := (run getElementPath).
Local Abbreviation collect := (collect getElementPath).
Local Abbreviation longtask_callback := (longtask_callback getElementPath).

Lemma resum_fold (tasks : list LongTaskInfo) :
  forall acc,
    fold_left
      (fun tbt task =>
         if JS.gt (duration task) 50 then tbt + (duration task - 50) else tbt)
      tasks acc
    == acc + resum tasks.
Proof.
  unfold resum. induction tasks as [|task tasks IH]; intro acc; simpl.
  - ring.
  - rewrite IH. rewrite (IH (if JS.gt (duration task) 50 then _ else _)).
    destruct (JS.gt (duration task) 50); ring.
Qed.

Lemma resum_cons task tasks :
  resum (task :: tasks)
  == (if JS.gt (duration task) 50 then duration task - 50 else 0) + resum tasks.
Proof.
  unfold resum at 1. simpl. rewrite resum_fold.
  destruct (JS.gt (duration task) 50); ring.
Qed.

(** Summing again over the stored tasks gives what the callback
    accumulated. *)
Lemma resum_stored entries :
  resum (stored getElementPath entries)
  == blocking_total (handled getElementPath entries).
Proof.
  induction entries as [|e es IH]; [reflexivity|].
  destruct (is_long e) eqn:El.
  - rewrite (handled_cons_long getElementPath e es El). simpl stored. rewrite El.
    destruct (normalize e) as [task|] eqn:En; [|reflexivity].
    simpl blocking_total. rewrite El, resum_cons, IH.
    assert (Ed : duration task = JS.Math_round (lt_duration e)).
    { unfold Collector.normalize in En.
      destruct (match lt_attribution e with
                | Some attrs => extract_attributions getElementPath attrs
                | None => Some [fallback_attribution e]
                end); [|discriminate].
      injection En as <-. reflexivity. }
    rewrite Ed.
    destruct (JS.gt (JS.Math_round (lt_duration e)) 50) eqn:Eg; [reflexivity|].
    apply gt_false in Eg. apply gt_true in El.
    pose proof (Math_round_above_50 _ El) as Hge.
    assert (E0 : JS.Math_round (lt_duration e) - 50 == 0) by lra.
    rewrite E0. reflexivity.
  - simpl. rewrite El. simpl. rewrite IH, El. ring.
Qed.

Lemma resum_app a b : resum (a ++ b) == resum a + resum b.
Proof.
  unfold resum. rewrite fold_left_app, (resum_fold b). reflexivity.
Qed.

Lemma resum_stored_of evs :
  resum (stored_of getElementPath evs)
  == blocking_total (handled_of getElementPath evs).
Proof.
  induction evs as [|ev evs IH]; [reflexivity|].
  rewrite stored_of_cons, handled_of_cons, resum_app, blocking_total_app, IH.
  destruct ev; try reflexivity.
  now rewrite resum_stored.
Qed.

(** On whole-number durations the rounded sum is the sum the
    specification states. *)
Lemma blocking_total_integral entries :
  Forall (fun e => is_integer (lt_duration e)) entries ->
  blocking_total entries == tbt_stated entries.
Proof.
  induction 1 as [|e es He _ IH]; simpl.
  - reflexivity.
  - rewrite IH. destruct (is_long e); [|reflexivity].
    now rewrite (Math_round_of_integer _ He).
Qed.

Lemma longtask_callback_tasks entries :
  forall c tasks,
    longTasks (metrics c) = Some tasks ->
    longTasks (metrics (longtask_callback entries c))
    = Some (tasks ++ stored getElementPath entries).
Proof.
  induction entries as [|e es IH]; intros c tasks Hc; simpl.
  - now rewrite app_nil_r.
  - unfold longtask_entry. fold (is_long e).
    destruct (is_long e).
    + destruct (Collector.normalize getElementPath e) as [task|].
      * rewrite Hc. erewrite IH; [|reflexivity].
        now rewrite <- app_assoc.
      * now rewrite app_nil_r.
    + now apply IH.
Qed.


End BlockingTotal.



(** ** The stored long tasks *)



(** ** Rounding of the stored values *)


(** ** Layout shifts *)

Lemma last_entry_app {A} (l : list A) (x : A) : JS.last_entry (l ++ [x]) = Some x.
Proof. unfold JS.last_entry. now rewrite rev_app_distr. Qed.

(** When the test of the callback succeeds. *)
Lemma merges_iff (value : Q) (members : list Collector.LayoutShift)
      (s : Collector.LayoutShift) :
  Collector.merges value members s = true
  <-> ~ value == 0
      /\ exists first previous,
          hd_error members = Some first
          /\ JS.last_entry members = Some previous
          /\ Collector.ls_startTime s - Collector.ls_startTime previous < 1000
          /\ Collector.ls_startTime s - Collector.ls_startTime first < 5000.
Proof.
  unfold Collector.merges. rewrite !andb_true_iff, truthy_true. split.
  - intros [[[Hv _] Hl] Hf].
    destruct (JS.last_entry members) as [previous|]; [|discriminate].
    destruct (hd_error members) as [first|]; [|discriminate].
    split; auto. exists first, previous.
    apply lt_true in Hl. apply lt_true in Hf. auto.
  - intros [Hv [first [previous [Hf [Hl [H1 H5]]]]]].
    rewrite Hf, Hl. repeat split; auto; try (now apply lt_true).
    destruct members; [discriminate | reflexivity].
Qed.

Section SessionFrame.

Variable getElementPath : Element -> option string.

Local Abbreviation step := (Collector.step getElementPath).

Lemma cls_view_legacy h c :
  cls_view (Collector.collectNavigationTimingLegacy h c) = cls_view c.
Proof.
  unfold Collector.collectNavigationTimingLegacy.
  destruct (Collector.performance h) as [perf|]; auto.
  destruct (Collector.timing perf); reflexivity.
Qed.

Lemma cls_view_navigation h c :
  cls_view (Collector.collectNavigationTiming h c) = cls_view c.
Proof.
  unfold Collector.collectNavigationTiming.
  destruct (Collector.performance h) as [perf|] eqn:E; auto.
  destruct (Collector.has_getEntriesByType perf); simpl; auto.
  destruct (Collector.navigationEntries perf) as [[|nav l]|]; try reflexivity.
  apply cls_view_legacy.
Qed.

Lemma cls_view_collectFinalLCP h c :
  cls_view (Collector.collectFinalLCP getElementPath h c) = cls_view c.
Proof.
  unfold Collector.collectFinalLCP.
  destruct (Collector.performance h) as [perf|]; auto.
  destruct (negb (Collector.has_getEntriesByType perf)); auto.
  destruct (Collector.lcpEntries perf) as [es|]; auto.
  destruct (0 <? List.length es)%nat; auto.
  destruct (JS.last_entry es) as [e|]; auto.
  match goal with |- context [JS.gt ?v 0] => destruct (JS.gt v 0) end; auto.
  destruct (Collector.lcp_element e) as [el|]; try reflexivity.
  destruct (getElementPath el) as [path|]; try reflexivity.
  destruct (negb _); reflexivity.
Qed.

Lemma cls_view_lcp_callback entries c :
  cls_view (Collector.lcp_callback getElementPath entries c) = cls_view c.
Proof.
  unfold Collector.lcp_callback.
  destruct (JS.last_entry entries) as [e|]; auto.
  match goal with |- context [JS.gt ?v 0] => destruct (JS.gt v 0) end; auto.
  destruct (Collector.lcp_element e) as [el|]; try reflexivity.
  destruct (getElementPath el) as [path|]; try reflexivity.
  destruct (negb _); reflexivity.
Qed.

Lemma cls_view_fcp_callback entries c :
  cls_view (Collector.fcp_callback entries c) = cls_view c.
Proof.
  unfold Collector.fcp_callback.
  apply (fold_left_preserves (fun a => cls_view a = cls_view c)); auto.
  intros a b Ha. destruct (Collector.is_fcp b); auto.
Qed.

Lemma cls_view_fid_callback entries c :
  cls_view (Collector.fid_callback entries c) = cls_view c.
Proof.
  unfold Collector.fid_callback.
  apply (fold_left_preserves (fun a => cls_view a = cls_view c)); auto.
  intros a b Ha. destruct (_ && _)%bool; auto.
Qed.

Lemma cls_view_longtask_callback entries :
  forall c, cls_view (Collector.longtask_callback getElementPath entries c) = cls_view c.
Proof.
  induction entries as [|e es IH]; intro c; simpl; auto.
  unfold Collector.longtask_entry.
  destruct (JS.gt (Collector.lt_duration e) 50).
  - destruct (Collector.normalize getElementPath e); auto.
    destruct (Collector.longTasks (Collector.metrics c)); auto.
    now rewrite IH.
  - apply IH.
Qed.

Lemma cls_view_observeFCP h c : cls_view (Collector.observeFCP h c) = cls_view c.
Proof.
  unfold Collector.observeFCP.
  match goal with |- context [Collector.num (Collector.metrics ?x) Collector.fcp] =>
    assert (Hx : cls_view x = cls_view c) end.
  { destruct (Collector.performance h) as [perf|]; auto.
    destruct (Collector.has_getEntriesByType perf); auto.
    apply (fold_left_preserves (fun a => cls_view a = cls_view c)); auto.
    intros a b Ha. destruct (Collector.is_fcp b); auto. }
  match goal with |- context [Collector.num (Collector.metrics ?x) Collector.fcp] =>
    destruct (Collector.num (Collector.metrics x) Collector.fcp) end; auto.
  destruct (Collector.hasPerformanceObserver h); auto.
Qed.

Lemma cls_view_updateTBT c : cls_view (Collector.updateTBT c) = cls_view c.
Proof.
  unfold Collector.updateTBT.
  destruct (Collector.longTasks (Collector.metrics c)) as [[|t ts]|]; reflexivity.
Qed.

Lemma cls_view_observeTBT h c : cls_view (Collector.observeTBT h c) = cls_view c.
Proof.
  unfold Collector.observeTBT.
  destruct (negb (Collector.hasPerformanceObserver h)); auto.
  destruct (Collector.supports h Collector.LongTaskType);
    [rewrite cls_view_updateTBT|];
    destruct (Collector.longTasks (Collector.metrics c)); reflexivity.
Qed.

(** [init] leaves the session alone or starts an empty one. *)
Lemma cls_view_init h c :
  cls_view (Collector.init h c) = cls_view c
  \/ cls_view (Collector.init h c) = (0, []).
Proof.
  unfold Collector.init. destruct (Collector.initialized c); [now left|].
  change (cls_view (Collector.with_initialized true (Collector.collectWebVitals h c)))
    with (cls_view (Collector.collectWebVitals h c)).
  unfold Collector.collectWebVitals. rewrite cls_view_observeTBT.
  unfold Collector.observeCLS, Collector.observeFID, Collector.observeLCP.
  destruct (negb (Collector.hasPerformanceObserver h)).
  - left. apply cls_view_observeFCP.
  - right. reflexivity.
Qed.

(** While every shift delivered has a positive value, a session with
    a member has a positive running value. *)
Lemma session_positive_entry value members s :
  0 < Collector.ls_value s ->
  (members = [] \/ 0 < value) ->
  snd (Collector.cls_entry (value, members) s) = []
  \/ 0 < fst (Collector.cls_entry (value, members) s).
Proof.
  intros Hs H. unfold Collector.cls_entry.
  destruct (negb (Collector.hadRecentInput s)); [|exact H].
  destruct (Collector.merges value members s) eqn:Hm; simpl; [|now right].
  right. destruct H as [-> | Hv]; [|lra].
  unfold Collector.merges in Hm. simpl in Hm.
  rewrite andb_false_r in Hm. discriminate Hm.
Qed.

Lemma session_positive_fold entries :
  forall value members,
    Forall (fun shift => 0 < Collector.ls_value shift) entries ->
    (members = [] \/ 0 < value) ->
    snd (fold_left Collector.cls_entry entries (value, members)) = []
    \/ 0 < fst (fold_left Collector.cls_entry entries (value, members)).
Proof.
  induction entries as [|s l IH]; intros value members Hpos H; [exact H|].
  inversion Hpos as [|? ? Hs Hl]; subst. cbn [fold_left].
  pose proof (session_positive_entry value members s Hs H) as H'.
  destruct (Collector.cls_entry (value, members) s) as [v' m'].
  now apply IH.
Qed.

Lemma layout_shifts_of_cons ev evs :
  layout_shifts_of (ev :: evs)
  = (match ev with
     | Collector.LayoutShiftObserved entries => entries
     | _ => []
     end) ++ layout_shifts_of evs.
Proof. reflexivity. Qed.

Lemma session_positive_step c ev :
  Forall (fun shift => 0 < Collector.ls_value shift) (layout_shifts_of [ev]) ->
  (Collector.clsEntries c = [] \/ 0 < Collector.clsValue c) ->
  Collector.clsEntries (step c ev) = [] \/ 0 < Collector.clsValue (step c ev).
Proof.
  intros Hpos H.
  assert (Hsame : forall c', cls_view c' = cls_view c ->
            Collector.clsEntries c' = [] \/ 0 < Collector.clsValue c').
  { intros c' Hv. unfold cls_view in Hv. injection Hv as -> ->. exact H. }
  destruct ev; simpl Collector.step.
  - destruct (cls_view_init h c) as [Hv | Hv]; [now apply Hsame|].
    unfold cls_view in Hv. injection Hv as _ ->. now left.
  - apply Hsame. unfold Collector.collect. simpl.
    now rewrite cls_view_collectFinalLCP, cls_view_navigation.
  - exact H.
  - destruct (Collector.observing (Collector.fcpObserver c));
      auto using cls_view_fcp_callback.
  - destruct (Collector.observing (Collector.lcpObserver c));
      auto using cls_view_lcp_callback.
  - destruct (Collector.observing (Collector.fidObserver c));
      auto using cls_view_fid_callback.
  - destruct (Collector.observing (Collector.clsObserver c)); [|exact H].
    unfold Collector.cls_callback.
    unfold layout_shifts_of in Hpos. simpl in Hpos. rewrite app_nil_r in Hpos.
    pose proof (session_positive_fold entries _ _ Hpos H) as H'.
    destruct (fold_left Collector.cls_entry entries
                (Collector.clsValue c, Collector.clsEntries c)) as [v m].
    exact H'.
  - destruct (Collector.observing (Collector.longTaskObserver c));
      auto using cls_view_longtask_callback.
Qed.

Lemma session_positive_run evs :
  forall c,
    Forall (fun shift => 0 < Collector.ls_value shift) (layout_shifts_of evs) ->
    (Collector.clsEntries c = [] \/ 0 < Collector.clsValue c) ->
    Collector.clsEntries (Collector.run getElementPath evs c) = []
    \/ 0 < Collector.clsValue (Collector.run getElementPath evs c).
Proof.
  induction evs as [|ev evs IH]; intros c Hpos H; [exact H|].
  rewrite layout_shifts_of_cons in Hpos. apply Forall_app in Hpos.
  destruct Hpos as [Hev Hevs].
  unfold Collector.run. simpl fold_left.
  apply IH; [exact Hevs|].
  apply session_positive_step; [|exact H].
  unfold layout_shifts_of. simpl. now rewrite app_nil_r.
Qed.

End SessionFrame.

(** C5: in every state a collector can reach while the layout shifts
    the browser delivers have positive values, an incoming shift without
    recent input joins the current session (its value is added to the
    running value, and it becomes the last member) exactly when it starts
    less than 1000 after the previous member and less than 5000 after the
    first member; otherwise it replaces the session, and the running
    value becomes its own value.  A shift with recent input changes
    nothing.  This is the rule as the specification words it, and it is
    what the callback of the observer does with a batch of one shift. *)
Theorem layout_shift_joins_or_replaces
        (getElementPath : Element -> option string)
        (evs : list Collector.event) (s : Collector.LayoutShift)
        (Hpos : Forall (fun shift => 0 < Collector.ls_value shift)
                       (layout_shifts_of evs)) :
  let c := Collector.run getElementPath evs Collector.create in
  let value := Collector.clsValue c in
  let members := Collector.clsEntries c in
  let close :=
    exists first previous,
      hd_error members = Some first
      /\ JS.last_entry members = Some previous
      /\ Collector.ls_startTime s - Collector.ls_startTime previous < 1000
      /\ Collector.ls_startTime s - Collector.ls_startTime first < 5000 in
  (Collector.hadRecentInput s = true ->
   Collector.cls_entry (value, members) s = (value, members))
  /\ (Collector.hadRecentInput s = false -> close ->
      Collector.cls_entry (value, members) s
      = (value + Collector.ls_value s, members ++ [s]))
  /\ (Collector.hadRecentInput s = false -> ~ close ->
      Collector.cls_entry (value, members) s = (Collector.ls_value s, [s]))
  /\ Collector.cls_entry (value, members) s = cls_entry_stated (value, members) s
  /\ (Collector.observing (Collector.clsObserver c) = true ->
      cls_view (Collector.step getElementPath c (Collector.LayoutShiftObserved [s]))
      = Collector.cls_entry (value, members) s).
Proof.
  intros c value members close.
  assert (Hinv : members = [] \/ 0 < value).
  { subst members value c. apply session_positive_run; [exact Hpos | now left]. }
  assert (Hiff : Collector.merges value members s = true <-> close).
  { rewrite merges_iff. subst close. split; [tauto|].
    intros Hc. split; [|exact Hc].
    destruct Hinv as [Hn | Hv]; [|lra].
    destruct Hc as [first [_ [Hf _]]]. rewrite Hn in Hf. discriminate. }
  split; [|split; [|split; [|split]]].
  - unfold Collector.cls_entry. intros ->. reflexivity.
  - unfold Collector.cls_entry. intros -> Hc. apply Hiff in Hc. simpl. now rewrite Hc.
  - unfold Collector.cls_entry. intros -> Hc. simpl.
    destruct (Collector.merges value members s); auto.
    exfalso. apply Hc, Hiff. reflexivity.
  - unfold Collector.cls_entry, cls_entry_stated, Collector.merges.
    destruct (Collector.hadRecentInput s); simpl; auto.
    destruct Hinv as [-> | Hv]; simpl.
    + now rewrite andb_false_r.
    + assert (Ht : JS.truthy value = true) by (apply truthy_true; lra).
      rewrite Ht. simpl.
      destruct members as [|m ms]; simpl; auto.
      destruct (JS.last_entry (m :: ms)) as [previous|] eqn:El; simpl; auto.
  - intro Ho. simpl Collector.step. rewrite Ho.
    unfold Collector.cls_callback. cbn [fold_left].
    fold value members.
    destruct (Collector.cls_entry (value, members) s) as [v m]. reflexivity.
Qed.

(** The theorem at work: after the shifts at 0 (0.1) and 500 (0.05), a
    shift at 1200 joins the session; one at 1600 would not. *)
Lemma layout_shift_joins_or_replaces_witness :
  let c := Collector.run tag_path
             [Collector.Init browser;
              Collector.LayoutShiftObserved [shift 0 (1 # 10); shift 500 (5 # 100)]]
             Collector.create in
  Collector.cls_entry (Collector.clsValue c, Collector.clsEntries c)
                      (shift 1200 (2 # 10))
  = (Collector.clsValue c + (2 # 10),
     [shift 0 (1 # 10); shift 500 (5 # 100); shift 1200 (2 # 10)])
  /\ Collector.cls_entry (Collector.clsValue c, Collector.clsEntries c)
                         (shift 1600 (2 # 10))
     = (2 # 10, [shift 1600 (2 # 10)]).
Proof.
  intro c. split.
  - destruct (layout_shift_joins_or_replaces tag_path
                [Collector.Init browser;
                 Collector.LayoutShiftObserved [shift 0 (1 # 10); shift 500 (5 # 100)]]
                (shift 1200 (2 # 10))) as [_ [H _]].
    + repeat constructor.
    + apply H; [reflexivity|].
      exists (shift 0 (1 # 10)), (shift 500 (5 # 100)).
      repeat split; reflexivity.
  - destruct (layout_shift_joins_or_replaces tag_path
                [Collector.Init browser;
                 Collector.LayoutShiftObserved [shift 0 (1 # 10); shift 500 (5 # 100)]]
                (shift 1600 (2 # 10))) as [_ [_ [H _]]].
    + repeat constructor.
    + apply H; [reflexivity|].
      intros [first [previous [_ [Hl [Hlt _]]]]].
      vm_compute in Hl. injection Hl as <-. vm_compute in Hlt. discriminate.
Defined.

(** Delivering the shifts in one batch or one by one makes no
    difference to the session. *)
Lemma cls_session_of_batches (batches : list (list Collector.LayoutShift))
      (s : Q * list Collector.LayoutShift) :
  fold_left (fun s batch => fold_left Collector.cls_entry batch s) batches s
  = fold_left Collector.cls_entry (List.concat batches) s.
Proof.
  revert s. induction batches as [|b bs IH]; intro s; simpl; auto.
  now rewrite fold_left_app, IH.
Qed.

(** C2, as amended: of the shifts at 0 (0.1), 500 (0.05) and 4800 (0.2),
    the first two form one session, reported as 0.15; the third starts
    4300 after the second, which is not less than 1000, so it starts a
    session of its own and the reported value is 0.2; a further shift at
    6000, of any value, starts again a new session whose running value is
    that value alone. *)
Theorem cls_of_the_three_shifts (v : Q) :
  let s1 := shift 0 (1 # 10) in
  let s2 := shift 500 (5 # 100) in
  let s3 := shift 4800 (2 # 10) in
  let s4 := shift 6000 v in
  let c2 := Collector.run tag_path
              [Collector.Init browser; Collector.LayoutShiftObserved [s1; s2]]
              Collector.create in
  let c3 := Collector.step tag_path c2 (Collector.LayoutShiftObserved [s3]) in
  let c4 := Collector.step tag_path c3 (Collector.LayoutShiftObserved [s4]) in
  (Collector.clsEntries c2 = [s1; s2]
   /\ exists x, Collector.num (Collector.metrics c2) Collector.cls = Some x
                /\ x == 15 # 100)
  /\ (Collector.clsEntries c3 = [s3]
      /\ exists x, Collector.num (Collector.metrics c3) Collector.cls = Some x
                   /\ x == 2 # 10)
  /\ (Collector.clsEntries c4 = [s4]
      /\ Collector.clsValue c4 = v
      /\ Collector.num (Collector.metrics c4) Collector.cls
         = Some (JS.Math_round (v * 1000) / 1000)).
Proof.
  cbv zeta. split; [|split].
  - split; [vm_compute; reflexivity|].
    eexists. split; [vm_compute; reflexivity | reflexivity].
  - split; [vm_compute; reflexivity|].
    eexists. split; [vm_compute; reflexivity | reflexivity].
  - split; [vm_compute; reflexivity|]. split; reflexivity.
Qed.

(** C2 as stated fails: after the three shifts, in one batch or one by
    one, the session has the third shift as its only member and the
    reported value is 0.2, not 0.35. *)
Lemma cls_of_the_three_shifts_is_not_035 :
  let s1 := shift 0 (1 # 10) in
  let s2 := shift 500 (5 # 100) in
  let s3 := shift 4800 (2 # 10) in
  let c := Collector.run tag_path
             [Collector.Init browser; Collector.LayoutShiftObserved [s1; s2; s3]]
             Collector.create in
  let c' := Collector.run tag_path
              [Collector.Init browser; Collector.LayoutShiftObserved [s1];
               Collector.LayoutShiftObserved [s2]; Collector.LayoutShiftObserved [s3]]
              Collector.create in
  Collector.clsEntries c = [s3]
  /\ Collector.clsEntries c' = [s3]
  /\ Collector.num (Collector.metrics c') Collector.cls
     = Collector.num (Collector.metrics c) Collector.cls
  /\ exists x, Collector.num (Collector.metrics c) Collector.cls = Some x
               /\ x == 2 # 10
               /\ ~ x == 35 # 100.
Proof.
  cbv zeta.
  split; [vm_compute; reflexivity|].
  split; [vm_compute; reflexivity|].
  split; [vm_compute; reflexivity|].
  eexists. split; [vm_compute; reflexivity|].
  split; [reflexivity | discriminate].
Qed.

(** ** Largest contentful paint *)

Section LargestContentfulPaint.

Import Collector.

Variable getElementPath : Element -> option string.

Local Abbreviation lcp_callback := (lcp_callback getElementPath).
Local Abbreviation collectFinalLCP := (collectFinalLCP getElementPath).

(** The value the code selects is the one the specification names. *)
Lemma selection_is_policy (e : LcpEntry) :
  (if positive (renderTime e)
   then match renderTime e with Some r => r | None => lcp_startTime e end
   else if positive (loadTime e)
        then match loadTime e with Some l => l | None => lcp_startTime e end
        else lcp_startTime e)
  = lcp_policy e.
Proof.
  unfold lcp_policy, positive.
  destruct (renderTime e) as [r|], (loadTime e) as [l|]; reflexivity.
Qed.

(** What the callback does with the last candidate of a batch. *)
Lemma lcp_callback_last (entries : list LcpEntry) (e : LcpEntry) (c : t) :
  lcp_callback (entries ++ [e]) c
  = if JS.gt (lcp_policy e) 0 then
      let c1 := store lcp (JS.Math_round (lcp_policy e)) c in
      match lcp_element e with
      | Some el =>
          match getElementPath el with
          | Some path =>
              if String.eqb path "" then c1
              else with_metrics (set_lcpElement path (metrics c1)) c1
          | None => c1
          end
      | None => c1
      end
    else c.
Proof.
  unfold Collector.lcp_callback. rewrite last_entry_app, selection_is_policy.
  destruct (JS.gt (lcp_policy e) 0); auto.
  destruct (lcp_element e) as [el|]; auto.
  destruct (getElementPath el) as [path|]; auto.
  destruct (String.eqb path ""); reflexivity.
Qed.

(** [collect()] treats the timeline as the callback treats a batch. *)
Lemma collectFinalLCP_is_callback observers types paints history navigation legacy c :
  collectFinalLCP
    (with_lcp_history observers types paints history navigation legacy) c
  = lcp_callback history c.
Proof.
  unfold Collector.collectFinalLCP, Collector.lcp_callback. simpl.
  destruct history as [|e es]; [reflexivity|].
  change (0 <? List.length (e :: es))%nat with true. cbv iota.
  destruct (JS.last_entry (e :: es)); reflexivity.
Qed.

(** C4, as amended: of a batch of candidates the callback takes the
    last one and selects [renderTime] if positive, else [loadTime] if
    positive, else [startTime].  When the selected value is positive, its
    rounding to the nearest integer replaces the stored [lcp], and the
    serialized path of the candidate's element replaces the stored path
    if the candidate has an element and the path is not empty (the stored
    path stays otherwise, also when the path cannot be computed); when
    the selected value is not positive,
    nothing is stored.  [collect()] does the same with the last entry of
    the timeline. *)
Theorem lcp_is_the_rounded_selection (entries : list LcpEntry) (e : LcpEntry) (c : t) :
  let c' := lcp_callback (entries ++ [e]) c in
  (if JS.gt (lcp_policy e) 0 then
     num (metrics c') lcp = Some (JS.Math_round (lcp_policy e))
     /\ lcpElement (metrics c')
        = match lcp_element e with
          | Some el =>
              match getElementPath el with
              | Some path =>
                  if String.eqb path "" then lcpElement (metrics c) else Some path
              | None => lcpElement (metrics c)
              end
          | None => lcpElement (metrics c)
          end
   else c' = c)
  /\ (forall start el,
         lcp_policy (candidate 1200 1500 start el) = 1200
         /\ JS.Math_round 1200 = 1200)
  /\ (forall start el,
         lcp_policy (candidate 0 900 start el) = 900
         /\ JS.Math_round 900 = 900)
  /\ (forall el,
         lcp_policy (candidate 0 0 300 el) = 300
         /\ JS.Math_round 300 = 300)
  /\ (forall observers types paints history navigation legacy c0,
         collectFinalLCP
           (with_lcp_history observers types paints history navigation legacy) c0
         = lcp_callback history c0).
Proof.
  intro c'. subst c'. rewrite lcp_callback_last.
  split; [|split; [|split; [|split]]].
  - destruct (JS.gt (lcp_policy e) 0); [|reflexivity].
    destruct (lcp_element e) as [el|]; [|split; reflexivity].
    destruct (getElementPath el) as [path|]; [|split; reflexivity].
    destruct (String.eqb path ""); split; reflexivity.
  - intros. split; reflexivity.
  - intros. split; reflexivity.
  - intros. split; reflexivity.
  - intros. apply collectFinalLCP_is_callback.
Qed.

End LargestContentfulPaint.

(** C4 as stated fails.  A candidate rendered at 1200.6 is stored as
    1201; a candidate whose three times are 0 leaves the earlier value
    1200 in place, where the policy selects its start time 0; and a
    candidate without element leaves the path of the earlier candidate
    next to the new value. *)
Lemma lcp_stated_policy_fails :
  (let e := candidate (12006 # 10) 1500 (12006 # 10) None in
   let c := Collector.run tag_path
              [Collector.Init browser; Collector.LcpObserved [e]] Collector.create in
   Collector.num (Collector.metrics c) Collector.lcp = Some 1201
   /\ lcp_policy e = 12006 # 10
   /\ ~ 1201 == lcp_policy e)
  /\ (let e := candidate 0 0 0 None in
      let c := Collector.run tag_path
                 [Collector.Init browser;
                  Collector.LcpObserved [candidate 1200 1500 1200 None];
                  Collector.LcpObserved [e]] Collector.create in
      Collector.num (Collector.metrics c) Collector.lcp = Some 1200
      /\ lcp_policy e = 0
      /\ ~ 1200 == lcp_policy e)
  /\ (let c := Collector.run tag_path
                 [Collector.Init browser;
                  Collector.LcpObserved [candidate 1200 1500 1200 (Some hero)];
                  Collector.LcpObserved [candidate 0 900 900 None]] Collector.create in
      Collector.num (Collector.metrics c) Collector.lcp = Some 900
      /\ Collector.lcpElement (Collector.metrics c) = tag_path hero).
Proof.
  cbv zeta. split; [|split].
  - split; [vm_compute; reflexivity|]. split; [reflexivity | discriminate].
  - split; [vm_compute; reflexivity|]. split; [reflexivity | discriminate].
  - split; vm_compute; reflexivity.
Qed.


(** ** The reflow sequence and its cap *)

Section ReflowCap.

Variable getElementPath : Element -> option string.

Local Abbreviation recordPotentialReflow := (Render.recordPotentialReflow getElementPath).
Local Abbreviation recordReflowFromMutation := (Render.recordReflowFromMutation getElementPath).
Local Abbreviation markReflow := (Render.markReflow getElementPath).

(** At the cap, the frame heuristic records nothing. *)
Lemma frame_drop_dropped_at_cap env deltaTime droppedFrames m :
  (1000 <= List.length (Render.reflows m))%nat ->
  recordPotentialReflow env deltaTime droppedFrames m = (m, true).
Proof.
  intro H. unfold Render.recordPotentialReflow, Render.MAX_REFLOW_RECORDS.
  apply Nat.leb_le in H. now rewrite H.
Qed.

(** The loop appends one record for each element it gets through. *)
Lemma frame_drop_fold env deltaTime droppedFrames (els : list (Element * Q)) :
  forall m,
    let '(m', returned) :=
      Render.frame_drop_records getElementPath env deltaTime droppedFrames els m in
    (List.length (Render.reflows m')
     <= List.length (Render.reflows m) + List.length els)%nat
    /\ (returned = true ->
        List.length (Render.reflows m')
        = (List.length (Render.reflows m) + List.length els)%nat).
Proof.
  induction els as [|[el n] els IH]; intro m; simpl.
  - split; [lia | intros _; lia].
  - destruct (getElementPath el) as [path|].
    + match goal with |- context [Render.frame_drop_records _ _ _ _ _ ?x] =>
        specialize (IH x);
        destruct (Render.frame_drop_records getElementPath env deltaTime
                    droppedFrames els x) as [m' returned]
      end.
      simpl in IH. rewrite length_app in IH. simpl in IH.
      destruct IH as [IH1 IH2]. split; [lia | intro H; specialize (IH2 H); lia].
    + split; [lia | discriminate].
Qed.

Lemma length_sort_desc (l : list (Element * Q)) :
  List.length (JS.sort_desc l) = List.length l.
Proof.
  unfold JS.sort_desc.
  induction l as [|x l IH]; simpl; auto.
  rewrite <- IH. clear.
  induction (fold_right JS.insert_desc [] l) as [|y r IHr]; simpl; auto.
  destruct (Qle_bool (snd y) (snd x)); simpl; auto.
Qed.

(** Below the cap, it records one entry for each of at most five
    elements, without looking at the cap again. *)
Lemma frame_drop_below_cap env deltaTime droppedFrames m :
  (List.length (Render.reflows m) < 1000)%nat ->
  let '(m', returned) := recordPotentialReflow env deltaTime droppedFrames m in
  (List.length (Render.reflows m')
   <= List.length (Render.reflows m)
      + Nat.min 5 (List.length (Render.suspiciousElements m)))%nat
  /\ (returned = true ->
      List.length (Render.reflows m')
      = (List.length (Render.reflows m)
         + Nat.min 5 (List.length (Render.suspiciousElements m)))%nat).
Proof.
  intro H. unfold Render.recordPotentialReflow, Render.MAX_REFLOW_RECORDS.
  assert (E : (1000 <=? List.length (Render.reflows m))%nat = false)
    by (apply Nat.leb_gt; exact H).
  rewrite E.
  pose proof (frame_drop_fold env deltaTime droppedFrames
                (firstn 5 (JS.sort_desc (Render.suspiciousElements m))) m) as Hf.
  destruct (Render.frame_drop_records getElementPath env deltaTime droppedFrames
              (firstn 5 (JS.sort_desc (Render.suspiciousElements m))) m)
    as [m' returned].
  now rewrite length_firstn, length_sort_desc in Hf.
Qed.

(** A mutation of a watched attribute is recorded whatever the length
    of the sequence, if the path of the element can be computed. *)
Lemma mutation_reflow_appended env element attrName m :
  recordReflowFromMutation env element attrName m
  = match getElementPath element with
    | Some path =>
        Some (Render.with_reflows
                (Render.reflows m
                 ++ [{| Render.timestamp := Render.now env;
                        Render.duration := 0;
                        Render.element := Some element;
                        Render.elementPath := Some path;
                        Render.reason := ("attribute_change:" ++ attrName)%string;
                        Render.droppedFrames := None;
                        Render.stackTrace := Render.getStackTrace env m |}]) m)
    | None => None
    end.
Proof. reflexivity. Qed.

(** So is an explicit mark. *)
Lemma mark_reflow_appended env element reason measure m :
  Render.reflows (markReflow env element reason (Some measure) m)
  = match Render.path_if_given getElementPath element with
    | Some elementPath =>
        Render.reflows m
        ++ [{| Render.timestamp := Render.m_startTime measure;
               Render.duration := Render.m_duration measure;
               Render.element := element;
               Render.elementPath := elementPath;
               Render.reason := JS.or_str reason "manual";
               Render.droppedFrames := None;
               Render.stackTrace := Render.getStackTrace env m |}]
    | None => Render.reflows m
    end.
Proof.
  unfold Render.markReflow.
  destruct (Render.path_if_given getElementPath element); reflexivity.
Qed.

End ReflowCap.

(** C3, the code at the failing inputs.  A monitor that recorded 1000
    frame drops holds 1000 entries, all from the frame heuristic, and a
    further slow frame adds nothing; but a change of the attribute [width]
    is then recorded as entry 1001, with the reason
    [attribute_change:width].  And a monitor at 999 entries with five
    recently mutated elements grows to 1004 on the next slow frame: the cap
    is tested once, before the five records are appended. *)
Theorem reflow_sequence_exceeds_the_cap :
  let run := Render.run tag_path in
  let full := after_slow_frames 1000 in
  let mutated := run [Render.Mutated render_env [attribute_changed (box 0) "width"]] full in
  let nearly := run [Render.Mutated render_env
                       [child_added (box 1); child_added (box 2);
                        child_added (box 3); child_added (box 4)]]
                    (after_slow_frames 999) in
  (List.length (Render.reflows full) = 1000%nat
   /\ forallb (fun r => String.eqb (Render.reason r) "frame_drop") (Render.reflows full) = true
   /\ Render.reflows (run (slow_frames 1001 1) full) = Render.reflows full)
  /\ (List.length (Render.reflows mutated) = 1001%nat
      /\ option_map Render.reason (JS.last_entry (Render.reflows mutated))
         = Some "attribute_change:width")
  /\ (List.length (Render.reflows nearly) = 999%nat
      /\ List.length (Render.reflows (run (slow_frames 1000 1) nearly)) = 1004%nat
      /\ forallb (fun r => String.eqb (Render.reason r) "frame_drop")
                 (Render.reflows (run (slow_frames 1000 1) nearly)) = true).
Proof.
  cbv zeta. vm_compute. repeat split; reflexivity.
Qed.


(** ** GPU acceleration *)

(** The tests of the scan, spelled out. *)
Lemma nonempty_iff (s : string) : Render.nonempty s = true <-> s <> "".
Proof.
  unfold Render.nonempty. rewrite negb_true_iff. apply String.eqb_neq.
Qed.

Lemma is_set_iff (initial value : string) :
  is_set initial value = true
  <-> value <> "" /\ value <> initial /\ JS.trim value <> "".
Proof.
  unfold is_set. rewrite !andb_true_iff, nonempty_iff, !negb_true_iff.
  rewrite !String.eqb_neq. tauto.
Qed.

Lemma transform_active_iff (transform : string) :
  Render.transform_active transform = true
  <-> transform <> "" /\ transform <> "none"
      /\ transform <> Render.identity_matrix.
Proof.
  unfold Render.transform_active.
  rewrite !andb_true_iff, nonempty_iff, !negb_true_iff, !String.eqb_neq. tauto.
Qed.

Lemma transform_idle_iff (transform : string) :
  Render.transform_active transform = false
  <-> transform = "" \/ transform = "none"
      \/ transform = Render.identity_matrix.
Proof.
  unfold Render.transform_active, Render.nonempty.
  rewrite !andb_false_iff, !negb_false_iff, !String.eqb_eq. tauto.
Qed.

Lemma has3d_iff (transform : string) :
  Render.has3d transform = true
  <-> JS.includes transform "translate3d" = true
      \/ JS.includes transform "translateZ" = true
      \/ JS.includes transform "perspective" = true
      \/ JS.includes transform "matrix3d" = true.
Proof. unfold Render.has3d. rewrite !orb_true_iff. tauto. Qed.

Section GPUAcceleration.

Variable getElementPath : Element -> option string.
Variable parseFloat : string -> option Q.

Local Abbreviation checkGPUAcceleration :=
  (Render.checkGPUAcceleration getElementPath parseFloat).
Local Abbreviation hasTransformTransition := (Render.hasTransformTransition parseFloat).

Local Abbreviation opacity_below_1 := (opacity_below_1 parseFloat).

Lemma opacity_below_1_iff computedStyle :
  opacity_below_1 computedStyle = true
  <-> exists v, parseFloat (Render.opacity computedStyle) = Some v /\ 0 <= v /\ v < 1.
Proof.
  unfold Vocabulary.opacity_below_1.
  destruct (parseFloat (Render.opacity computedStyle)) as [v|].
  - rewrite andb_true_iff, lt_true. unfold JS.ge. rewrite Qle_bool_iff.
    split.
    + intros [H1 H0]. exists v. auto.
    + intros [v' [[= <-] [H0 H1]]]. auto.
  - split; [discriminate | intros [v [[=] _]]].
Qed.

Lemma hasTransformTransition_iff computedStyle :
  hasTransformTransition computedStyle = true
  <-> Render.transitionProperty computedStyle <> ""
      /\ Render.transitionProperty computedStyle <> "none"
      /\ (JS.includes (Render.transitionProperty computedStyle) "transform" = true
          \/ Render.transitionProperty computedStyle = "all")
      /\ exists d,
          parseFloat (Render.transitionDuration computedStyle) = Some d /\ 0 < d.
Proof.
  unfold Render.hasTransformTransition.
  rewrite !andb_true_iff, nonempty_iff, negb_true_iff, String.eqb_neq,
    orb_true_iff, String.eqb_eq.
  destruct (parseFloat (Render.transitionDuration computedStyle)) as [d|].
  - rewrite gt_true. split.
    + intros [[[H1 H2] H3] H4]. repeat split; auto. exists d. auto.
    + intros [H1 [H2 [H4 [d' [[= <-] H3]]]]]. auto.
  - split.
    + intros [[_ H] _]. discriminate.
    + intros [_ [_ [_ [d [[=] _]]]]].
Qed.

(** The record is built unless the path cannot be computed. *)
Lemma checkGPUAcceleration_path element computedStyle :
  match checkGPUAcceleration element computedStyle with
  | Some info =>
      getElementPath element = Some (Render.g_elementPath info)
      /\ Render.g_element info = element
  | None => getElementPath element = None
  end.
Proof.
  unfold Render.checkGPUAcceleration, Render.check_willChange, Render.check_transform,
    Render.check_opacity, Render.check_filter, Render.check_backdropFilter.
  destruct (getElementPath element) as [path|]; [|reflexivity].
  destruct (Render.nonempty (Render.willChange computedStyle)
            && negb (String.eqb (Render.willChange computedStyle) "auto")
            && negb (String.eqb (JS.trim (Render.willChange computedStyle)) ""))%bool;
    destruct (Render.transform_active (Render.transform computedStyle));
    destruct (Render.has3d (Render.transform computedStyle));
    destruct (hasTransformTransition computedStyle);
    destruct (parseFloat (Render.opacity computedStyle)) as [v|];
    try destruct (JS.lt v 1 && JS.ge v 0)%bool;
    destruct (Render.nonempty (Render.filter computedStyle)
              && negb (String.eqb (Render.filter computedStyle) "none")
              && negb (String.eqb (JS.trim (Render.filter computedStyle)) ""))%bool;
    destruct (Render.nonempty (Render.backdropFilter computedStyle)
              && negb (String.eqb (Render.backdropFilter computedStyle) "none")
              && negb (String.eqb (JS.trim (Render.backdropFilter computedStyle)) ""))%bool;
    split; reflexivity.
Qed.

(** The methods the scan records, in the order it records them. *)
Lemma methods_recorded element computedStyle info :
  checkGPUAcceleration element computedStyle = Some info ->
  Render.accelerationMethods info
  = (if is_set "auto" (Render.willChange computedStyle) then ["will-change"] else [])
    ++ (if Render.transform_active (Render.transform computedStyle)
        then "transform"
             :: (if Render.has3d (Render.transform computedStyle)
                 then ["transform-3d"] else [])
        else if hasTransformTransition computedStyle
             then ["transform-transition"] else [])
    ++ (if opacity_below_1 computedStyle then ["opacity"] else [])
    ++ (if is_set "none" (Render.filter computedStyle) then ["filter"] else [])
    ++ (if is_set "none" (Render.backdropFilter computedStyle)
        then ["backdrop-filter"] else []).
Proof.
  unfold Render.checkGPUAcceleration, Render.check_willChange, Render.check_transform,
    Render.check_opacity, Render.check_filter, Render.check_backdropFilter,
    Vocabulary.opacity_below_1, is_set.
  destruct (getElementPath element) as [path|]; [|discriminate].
  intro H. injection H as <-.
  destruct (Render.nonempty (Render.willChange computedStyle)
            && negb (String.eqb (Render.willChange computedStyle) "auto")
            && negb (String.eqb (JS.trim (Render.willChange computedStyle)) ""))%bool;
    destruct (Render.transform_active (Render.transform computedStyle));
    destruct (Render.has3d (Render.transform computedStyle));
    destruct (hasTransformTransition computedStyle);
    destruct (parseFloat (Render.opacity computedStyle)) as [v|];
    try destruct (JS.lt v 1 && JS.ge v 0)%bool;
    destruct (Render.nonempty (Render.filter computedStyle)
              && negb (String.eqb (Render.filter computedStyle) "none")
              && negb (String.eqb (JS.trim (Render.filter computedStyle)) ""))%bool;
    destruct (Render.nonempty (Render.backdropFilter computedStyle)
              && negb (String.eqb (Render.backdropFilter computedStyle) "none")
              && negb (String.eqb (JS.trim (Render.backdropFilter computedStyle)) ""))%bool;
    reflexivity.
Qed.

(** The element counts as accelerated when a method was recorded. *)
Lemma accelerated_iff_method element computedStyle info :
  checkGPUAcceleration element computedStyle = Some info ->
  Render.isAccelerated info
  = negb (match Render.accelerationMethods info with
          | [] => true
          | _ :: _ => false
          end).
Proof.
  unfold Render.checkGPUAcceleration, Render.check_willChange, Render.check_transform,
    Render.check_opacity, Render.check_filter, Render.check_backdropFilter.
  destruct (getElementPath element) as [path|]; [|discriminate].
  intro H. injection H as <-.
  destruct (Render.nonempty (Render.willChange computedStyle)
            && negb (String.eqb (Render.willChange computedStyle) "auto")
            && negb (String.eqb (JS.trim (Render.willChange computedStyle)) ""))%bool;
    destruct (Render.transform_active (Render.transform computedStyle));
    destruct (Render.has3d (Render.transform computedStyle));
    destruct (hasTransformTransition computedStyle);
    destruct (parseFloat (Render.opacity computedStyle)) as [v|];
    try destruct (JS.lt v 1 && JS.ge v 0)%bool;
    destruct (Render.nonempty (Render.filter computedStyle)
              && negb (String.eqb (Render.filter computedStyle) "none")
              && negb (String.eqb (JS.trim (Render.filter computedStyle)) ""))%bool;
    destruct (Render.nonempty (Render.backdropFilter computedStyle)
              && negb (String.eqb (Render.backdropFilter computedStyle) "none")
              && negb (String.eqb (JS.trim (Render.backdropFilter computedStyle)) ""))%bool;
    reflexivity.
Qed.

Lemma in_if (b : bool) (x y : string) :
  In x (if b then [y] else []) <-> b = true /\ x = y.
Proof. destruct b; simpl; intuition (try discriminate; congruence). Qed.

(** A tag is recorded exactly when its test succeeds. *)
Lemma in_methods element computedStyle info (tag : string) :
  checkGPUAcceleration element computedStyle = Some info ->
  In tag (Render.accelerationMethods info)
  <-> (is_set "auto" (Render.willChange computedStyle) = true /\ tag = "will-change")
      \/ (Render.transform_active (Render.transform computedStyle) = true
          /\ tag = "transform")
      \/ (Render.transform_active (Render.transform computedStyle) = true
          /\ Render.has3d (Render.transform computedStyle) = true
          /\ tag = "transform-3d")
      \/ (Render.transform_active (Render.transform computedStyle) = false
          /\ hasTransformTransition computedStyle = true
          /\ tag = "transform-transition")
      \/ (opacity_below_1 computedStyle = true /\ tag = "opacity")
      \/ (is_set "none" (Render.filter computedStyle) = true /\ tag = "filter")
      \/ (is_set "none" (Render.backdropFilter computedStyle) = true
          /\ tag = "backdrop-filter").
Proof.
  intro H. rewrite (methods_recorded _ _ _ H), !in_app_iff, !in_if.
  destruct (Render.transform_active (Render.transform computedStyle));
    destruct (Render.has3d (Render.transform computedStyle));
    destruct (hasTransformTransition computedStyle);
    simpl; intuition (try discriminate; try congruence).
Qed.

Lemma methods_NoDup element computedStyle info :
  checkGPUAcceleration element computedStyle = Some info ->
  NoDup (Render.accelerationMethods info).
Proof.
  intro H. rewrite (methods_recorded _ _ _ H).
  destruct (is_set "auto" (Render.willChange computedStyle));
    destruct (Render.transform_active (Render.transform computedStyle));
    destruct (Render.has3d (Render.transform computedStyle));
    destruct (hasTransformTransition computedStyle);
    destruct (opacity_below_1 computedStyle);
    destruct (is_set "none" (Render.filter computedStyle));
    destruct (is_set "none" (Render.backdropFilter computedStyle));
    simpl; repeat constructor; simpl; intuition discriminate.
Qed.

End GPUAcceleration.




(** ** The reporter *)

Lemma send_once env data r :
  exists e,
    snd (Reporter.send env data r) = [e]
    /\ Reporter.transmits e = true
    /\ payload_of e = data
    /\ Reporter.queue (fst (Reporter.send env data r)) = Reporter.queue r
    /\ Reporter.immediate (fst (Reporter.send env data r)) = Reporter.immediate r.
Proof.
  unfold Reporter.send.
  destruct (JS.copy_if_truthy (Reporter.reportUrl r)) as [u|].
  - destruct (Reporter.hasSendBeacon env); eexists; repeat split; reflexivity.
  - eexists; repeat split; reflexivity.
Qed.

(** In batched mode a sequence of [report()] calls only fills the queue. *)
Lemma reports_accumulate calls :
  forall r,
    Reporter.immediate r = false ->
    Reporter.run (reports calls) r
    = (Reporter.with_queue (Reporter.queue r ++ stamped r calls) r, []).
Proof.
  induction calls as [|[env input] calls IH]; intros r Hb; simpl.
  - rewrite app_nil_r. destruct r; reflexivity.
  - unfold Reporter.report. rewrite Hb.
    rewrite IH by exact Hb. simpl. rewrite <- app_assoc. reflexivity.
Qed.

Lemma run_app evs1 :
  forall evs2 r,
    Reporter.run (evs1 ++ evs2) r
    = (fst (Reporter.run evs2 (fst (Reporter.run evs1 r))),
       snd (Reporter.run evs1 r)
       ++ snd (Reporter.run evs2 (fst (Reporter.run evs1 r)))).
Proof.
  induction evs1 as [|ev evs1 IH]; intros evs2 r; simpl.
  - destruct (Reporter.run evs2 r); reflexivity.
  - destruct (Reporter.step r ev) as [r1 o1].
    rewrite IH.
    destruct (Reporter.run evs1 r1) as [r2 o2]. simpl.
    destruct (Reporter.run evs2 r2) as [r3 o3]. simpl.
    now rewrite app_assoc.
Qed.

(** The mode of a reporter never changes. *)
Lemma step_immediate r ev :
  Reporter.immediate (fst (Reporter.step r ev)) = Reporter.immediate r.
Proof.
  assert (Hsend : forall env data r0,
             Reporter.immediate (fst (Reporter.send env data r0)) = Reporter.immediate r0).
  { intros env data r0. destruct (send_once env data r0) as [e [_ [_ [_ [_ H]]]]]. exact H. }
  assert (Hbatch : forall env r0,
             Reporter.immediate (fst (Reporter.batchReport env r0)) = Reporter.immediate r0).
  { intros env r0. unfold Reporter.batchReport.
    destruct (Reporter.queue r0); [reflexivity|]. now rewrite Hsend. }
  destruct ev; simpl.
  - unfold Reporter.report.
    destruct (Reporter.immediate r) eqn:E; [now rewrite Hsend | exact E].
  - destruct (Reporter.ticking r); [apply Hbatch | reflexivity].
  - unfold Reporter.destroy. rewrite Hbatch. destruct (Reporter.timer r); reflexivity.
  - unfold Reporter.beforeunload.
    destruct (0 <? List.length (Reporter.queue r))%nat; [|reflexivity].
    destruct (JS.copy_if_truthy (Reporter.reportUrl r)); [|reflexivity].
    destruct (Reporter.hasSendBeacon env); reflexivity.
  - unfold Reporter.settle.
    destruct (Reporter.take_nth i (Reporter.inflight r)) as [[req others]|];
      [|reflexivity].
    destruct ok; [reflexivity|].
    destruct (Reporter.caught req); [|reflexivity].
    unfold Reporter.on_rejected. simpl.
    destruct (negb (Reporter.immediate r)); reflexivity.
Qed.

Lemma run_immediate evs :
  forall r, Reporter.immediate (fst (Reporter.run evs r)) = Reporter.immediate r.
Proof.
  induction evs as [|ev evs IH]; intro r; simpl; [reflexivity|].
  pose proof (step_immediate r ev) as Hs.
  destruct (Reporter.step r ev) as [r1 o1]. simpl in Hs.
  specialize (IH r1).
  destruct (Reporter.run evs r1) as [r2 o2]. simpl in *. congruence.
Qed.

(** A flush sends the whole queue at once and leaves it empty. *)
Lemma flush_sends_queue env r :
  Reporter.queue r <> [] ->
  exists e,
    snd (Reporter.batchReport env r) = [e]
    /\ Reporter.transmits e = true
    /\ payload_of e = Reporter.queue r
    /\ Reporter.queue (fst (Reporter.batchReport env r)) = [].
Proof.
  intro Hne. unfold Reporter.batchReport.
  destruct (Reporter.queue r) as [|d ds] eqn:E; [contradiction|].
  destruct (send_once env (d :: ds) (Reporter.with_queue [] r))
    as [e [H1 [H2 [H3 [H4 _]]]]].
  exists e. auto.
Qed.

(** Between flushes a batched reporter transmits nothing. *)
Lemma quiet_run evs :
  forall r,
    Reporter.immediate r = false ->
    forallb report_or_settled evs = true ->
    forallb (fun e => negb (Reporter.transmits e)) (snd (Reporter.run evs r)) = true.
Proof.
  induction evs as [|ev evs IH]; intros r Hb Hq; [reflexivity|].
  simpl in Hq. apply andb_true_iff in Hq. destruct Hq as [Hev Hq].
  simpl Reporter.run.
  pose proof (step_immediate r ev) as Hi.
  assert (Hs : forallb (fun e => negb (Reporter.transmits e))
                       (snd (Reporter.step r ev)) = true).
  { destruct ev; try discriminate; simpl.
    - unfold Reporter.report. now rewrite Hb.
    - unfold Reporter.settle.
      destruct (Reporter.take_nth i (Reporter.inflight r)) as [[req others]|];
        [|reflexivity].
      destruct ok; [reflexivity|].
      destruct (Reporter.caught req); reflexivity. }
  destruct (Reporter.step r ev) as [r1 o1]. cbn [fst snd] in Hi, Hs.
  specialize (IH r1 (eq_trans Hi Hb) Hq).
  destruct (Reporter.run evs r1) as [r2 o2]. cbn [snd] in *.
  rewrite forallb_app, Hs, IH. reflexivity.
Qed.

(** C7, as amended: the reporter is batched unless asked otherwise, and
    stays in its mode.  Whatever happened to it before: in batched mode
    [report()] stamps the envelope with the time, the address of the
    page, the user agent and the application and user ids of the
    reporter, appends it to the queue and transmits nothing; a
    sequence of [report()] calls leaves the stamped envelopes at the end
    of the queue, in order, and nothing is transmitted by such calls or
    by requests that settle in between.  The next tick of the running
    timer, or [destroy()], sends the whole queue in one transmission and
    empties it; and when the page unloads before that, the listener for
    [beforeunload] hands the whole queue to [sendBeacon] (to the console
    without a destination; with a destination and no [sendBeacon] the
    call fails and nothing is sent) and leaves the queue as it is.  In
    immediate mode [report()] makes exactly one transmission, which
    carries exactly the stamped envelope, and leaves the queue as it
    was. *)
Theorem report_enqueues_or_sends_once
        (env0 env : Reporter.Env) (opts : Reporter.Options)
        (history : list Reporter.event)
        (input : Reporter.ReportInput)
        (calls : list (Reporter.Env * Reporter.ReportInput)) :
  let r := fst (Reporter.run history (Reporter.constructor env0 opts)) in
  let envelope := Reporter.stamp env input r in
  (Reporter.o_immediate opts = None -> Reporter.immediate r = false)
  /\ (Reporter.timestamp envelope = Reporter.dateNow env
      /\ Reporter.url envelope = Reporter.href env
      /\ Reporter.userAgent envelope = Reporter.navUserAgent env
      /\ Reporter.appId envelope = Reporter.r_appId r
      /\ Reporter.userId envelope = Reporter.r_userId r
      /\ Reporter.type envelope = Reporter.in_type input
      /\ Reporter.data envelope = Reporter.in_data input)
  /\ (if Reporter.immediate r then
        exists e,
          snd (Reporter.report env input r) = [e]
          /\ Reporter.transmits e = true
          /\ payload_of e = [envelope]
          /\ Reporter.queue (fst (Reporter.report env input r)) = Reporter.queue r
      else
        Reporter.report env input r
        = (Reporter.with_queue (Reporter.queue r ++ [envelope]) r, [])
        /\ Reporter.run (reports calls) r
           = (Reporter.with_queue (Reporter.queue r ++ stamped r calls) r, [])
        /\ (forall flush,
            flush = Reporter.Destroy env
            \/ (flush = Reporter.Tick env /\ Reporter.ticking r = true) ->
            Reporter.queue r ++ stamped r calls <> [] ->
            exists e,
              snd (Reporter.run (reports calls ++ [flush]) r) = [e]
              /\ Reporter.transmits e = true
              /\ payload_of e = Reporter.queue r ++ stamped r calls
              /\ Reporter.queue (fst (Reporter.run (reports calls ++ [flush]) r)) = [])
        /\ (forall evs,
               forallb report_or_settled evs = true ->
               forallb (fun e => negb (Reporter.transmits e))
                       (snd (Reporter.run evs r)) = true)
        /\ (Reporter.queue r ++ stamped r calls <> [] ->
            Reporter.run (reports calls ++ [Reporter.BeforeUnload env]) r
            = (Reporter.with_queue (Reporter.queue r ++ stamped r calls) r,
               match JS.copy_if_truthy (Reporter.reportUrl r) with
               | Some reportUrl =>
                   if Reporter.hasSendBeacon env
                   then [Reporter.SendBeacon reportUrl
                           (Reporter.queue r ++ stamped r calls)]
                   else [Reporter.UncaughtTypeError]
               | None =>
                   [Reporter.ConsoleLogUnload (Reporter.queue r ++ stamped r calls)]
               end))).
Proof.
  intros r envelope.
  split; [|split].
  - intro H. subst r. rewrite run_immediate.
    unfold Reporter.constructor. rewrite H. reflexivity.
  - repeat split; reflexivity.
  - destruct (Reporter.immediate r) eqn:Hi.
    + unfold Reporter.report. rewrite Hi.
      destruct (send_once env [envelope] r) as [e [H1 [H2 [H3 [H4 _]]]]].
      exists e. auto.
    + split; [|split; [|split; [|split]]].
      * unfold Reporter.report. now rewrite Hi.
      * now apply reports_accumulate.
      * intros flush Hf Hne.
        rewrite run_app, reports_accumulate by exact Hi.
        simpl fst. simpl snd. simpl app.
        set (r' := Reporter.with_queue (Reporter.queue r ++ stamped r calls) r).
        assert (Hstep : exists r'',
                   Reporter.step r' flush = Reporter.batchReport env r''
                   /\ Reporter.queue r'' = Reporter.queue r ++ stamped r calls).
        { destruct Hf as [-> | [-> Ht]]; simpl.
          - unfold Reporter.destroy. eexists. split; [reflexivity|].
            destruct (Reporter.timer r'); reflexivity.
          - exists r'. subst r'. simpl. now rewrite Ht. }
        destruct Hstep as [r'' [Hs Hq]].
        simpl Reporter.run. rewrite Hs.
        destruct (flush_sends_queue env r'') as [e [H1 [H2 [H3 H4]]]].
        { now rewrite Hq. }
        destruct (Reporter.batchReport env r'') as [r3 o3]. simpl in *.
        exists e. rewrite app_nil_r, <- Hq. auto.
      * intros evs Hq. now apply quiet_run.
      * intro Hne.
        rewrite run_app, reports_accumulate by exact Hi.
        cbn [fst snd app Reporter.run Reporter.step].
        unfold Reporter.beforeunload. cbn [Reporter.queue Reporter.with_queue
                                             Reporter.reportUrl].
        destruct (Reporter.queue r ++ stamped r calls) as [|d ds] eqn:Eq;
          [contradiction|].
        cbn [List.length Nat.ltb Nat.leb].
        destruct (JS.copy_if_truthy (Reporter.reportUrl r)) as [u|];
          [destruct (Reporter.hasSendBeacon env)|]; reflexivity.
Qed.

(** The theorem at work: two reports to a fresh batched reporter. *)
Lemma report_enqueues_or_sends_once_witness :
  let r := Reporter.constructor (page 0 true) (options None) in
  let calls := [(page 10 true, metrics_report); (page 20 true, metrics_report)] in
  Reporter.run (reports calls) r = (Reporter.with_queue (stamped r calls) r, []).
Proof.
  intros r calls.
  destruct (report_enqueues_or_sends_once
              (page 0 true) (page 10 true) (options None) [] metrics_report calls)
    as [_ [_ H]].
  exact (proj1 (proj2 H)).
Defined.

(** C7 as stated fails: a batched reporter that holds one envelope
    transmits it when the page unloads, before any tick of its timer and
    without [destroy()]. *)
Lemma batched_queue_is_sent_on_unload :
  let r := Reporter.constructor (page 0 true) (options None) in
  let out := snd (Reporter.run [Reporter.Report (page 10 true) metrics_report;
                                Reporter.BeforeUnload (page 20 true)] r) in
  Reporter.immediate r = false
  /\ out = [Reporter.SendBeacon "https://example.org/report"
              [Reporter.stamp (page 10 true) metrics_report r]]
  /\ existsb Reporter.transmits out = true.
Proof.
  cbv zeta. repeat split; reflexivity.
Qed.

(** *** Failed requests *)

Lemma take_nth_Forall {A} (P : A -> Prop) (l : list A) :
  forall i x rest,
    Reporter.take_nth i l = Some (x, rest) -> Forall P l -> P x /\ Forall P rest.
Proof.
  induction l as [|y l IH]; intros i x rest H HP; simpl in H.
  - destruct i; discriminate.
  - inversion HP as [|? ? Hy Hl]; subst.
    destruct i as [|i]; simpl in H.
    + injection H as <- <-. auto.
    + destruct (Reporter.take_nth i l) as [[z rest']|] eqn:E; [|discriminate].
      injection H as <- <-.
      destruct (IH _ _ _ E Hl) as [Hz Hr]. auto.
Qed.

Lemma send_caught env data r :
  all_caught r ->
  all_caught (fst (Reporter.send env data r))
  /\ forallb (fun e => negb (raised e)) (snd (Reporter.send env data r)) = true.
Proof.
  intro H. unfold Reporter.send.
  destruct (JS.copy_if_truthy (Reporter.reportUrl r)) as [u|]; [|auto].
  destruct (Reporter.hasSendBeacon env); [auto|].
  split; [|reflexivity].
  unfold all_caught. simpl. apply Forall_app. split; [exact H|].
  constructor; [reflexivity | constructor].
Qed.

Lemma report_caught env input r :
  all_caught r ->
  all_caught (fst (Reporter.report env input r))
  /\ forallb (fun e => negb (raised e)) (snd (Reporter.report env input r)) = true.
Proof.
  intro H. unfold Reporter.report.
  destruct (Reporter.immediate r); [now apply send_caught | auto].
Qed.

Lemma batchReport_caught env r :
  all_caught r ->
  all_caught (fst (Reporter.batchReport env r))
  /\ ~ In Reporter.UnhandledRejection (snd (Reporter.batchReport env r)).
Proof.
  intro H. unfold Reporter.batchReport.
  destruct (Reporter.queue r) as [|d ds] eqn:E; [simpl; auto|].
  destruct (send_caught env (d :: ds) (Reporter.with_queue [] r) H) as [H1 H2].
  split; [exact H1|].
  intro Hin. rewrite forallb_forall in H2. specialize (H2 _ Hin). discriminate.
Qed.

Lemma settle_caught i ok r :
  all_caught r ->
  all_caught (fst (Reporter.settle i ok r))
  /\ ~ In Reporter.UnhandledRejection (snd (Reporter.settle i ok r)).
Proof.
  intro H. unfold Reporter.settle.
  destruct (Reporter.take_nth i (Reporter.inflight r)) as [[req others]|] eqn:E;
    [|simpl; auto].
  destruct (take_nth_Forall _ _ _ _ _ E H) as [Hreq Hothers].
  destruct ok; [simpl; auto|].
  rewrite Hreq. unfold Reporter.on_rejected. simpl.
  split.
  - destruct (negb (Reporter.immediate r)); exact Hothers.
  - intros [Hc | []]. discriminate.
Qed.

Lemma step_caught r ev :
  all_caught r ->
  all_caught (fst (Reporter.step r ev))
  /\ ~ In Reporter.UnhandledRejection (snd (Reporter.step r ev)).
Proof.
  intro H. destruct ev; simpl.
  - destruct (report_caught env input r H) as [H1 H2]. split; [exact H1|].
    intro Hin. rewrite forallb_forall in H2. specialize (H2 _ Hin). discriminate.
  - destruct (Reporter.ticking r); [now apply batchReport_caught | simpl; auto].
  - unfold Reporter.destroy. apply batchReport_caught.
    destruct (Reporter.timer r); exact H.
  - unfold Reporter.beforeunload.
    destruct (0 <? List.length (Reporter.queue r))%nat; [|simpl; auto].
    destruct (JS.copy_if_truthy (Reporter.reportUrl r)).
    + destruct (Reporter.hasSendBeacon env); simpl; split; auto;
        intros [Hc | []]; discriminate.
    + simpl. split; auto. intros [Hc | []]. discriminate.
  - now apply settle_caught.
Qed.

Lemma run_caught evs :
  forall r,
    all_caught r ->
    all_caught (fst (Reporter.run evs r))
    /\ ~ In Reporter.UnhandledRejection (snd (Reporter.run evs r)).
Proof.
  induction evs as [|ev evs IH]; intros r H; simpl; [auto|].
  destruct (step_caught r ev H) as [H1 H2].
  destruct (Reporter.step r ev) as [r1 o1]. simpl in H1, H2.
  destruct (IH r1 H1) as [H3 H4].
  destruct (Reporter.run evs r1) as [r2 o2]. simpl in *.
  split; [exact H3|].
  intro Hin. apply in_app_or in Hin. tauto.
Qed.

Lemma constructor_caught env options : all_caught (Reporter.constructor env options).
Proof.
  unfold Reporter.constructor, all_caught.
  match goal with |- context [negb ?b] => destruct (negb b) end; constructor.
Qed.

(** C8: whatever happened to a reporter before, when a request made
    through the keep-alive fallback fails, the handler attached to it logs
    the error and, in batched mode, appends the envelopes of the request to
    the queue, where the next flush finds them; in immediate mode it leaves
    the queue alone, so the envelopes are gone.  Every request the reporter
    makes has that handler, so no run ever ends in an unhandled rejection,
    and what [report()] itself does raises nothing.  After a failure in
    batched mode the next flush transmits the queue with the envelopes of
    the failed request at its end. *)
Theorem failed_request_requeued_or_dropped
        (env0 : Reporter.Env) (opts : Reporter.Options)
        (evs : list Reporter.event) (i : nat) :
  let r := fst (Reporter.run evs (Reporter.constructor env0 opts)) in
  let out := snd (Reporter.run evs (Reporter.constructor env0 opts)) in
  ~ In Reporter.UnhandledRejection out
  /\ (forall env input,
         forallb (fun e => negb (raised e)) (snd (Reporter.report env input r)) = true)
  /\ match Reporter.take_nth i (Reporter.inflight r) with
     | Some (req, others) =>
         Reporter.settle i false r
         = (if Reporter.immediate r
            then Reporter.with_inflight others r
            else Reporter.with_queue (Reporter.queue r ++ Reporter.body req)
                   (Reporter.with_inflight others r),
            [Reporter.ConsoleError])
         /\ (Reporter.immediate r = false ->
             Reporter.body req <> [] ->
             forall env, exists e,
               snd (Reporter.batchReport env (fst (Reporter.settle i false r))) = [e]
               /\ Reporter.transmits e = true
               /\ payload_of e = Reporter.queue r ++ Reporter.body req)
     | None => Reporter.settle i false r = (r, [])
     end.
Proof.
  intros r out.
  destruct (run_caught evs _ (constructor_caught env0 opts)) as [Hc Hout].
  fold r in Hc. fold out in Hout.
  split; [exact Hout|]. split.
  - intros env input. now apply report_caught.
  - destruct (Reporter.take_nth i (Reporter.inflight r)) as [[req others]|] eqn:E.
    + destruct (take_nth_Forall _ _ _ _ _ E Hc) as [Hreq _].
      assert (Hs : Reporter.settle i false r
                   = (if Reporter.immediate r
                      then Reporter.with_inflight others r
                      else Reporter.with_queue (Reporter.queue r ++ Reporter.body req)
                             (Reporter.with_inflight others r),
                      [Reporter.ConsoleError])).
      { unfold Reporter.settle. rewrite E, Hreq.
        unfold Reporter.on_rejected. simpl.
        destruct (Reporter.immediate r); reflexivity. }
      split; [exact Hs|].
      intros Hb Hne env. rewrite Hs, Hb. simpl fst.
      destruct (flush_sends_queue env
                  (Reporter.with_queue (Reporter.queue r ++ Reporter.body req)
                     (Reporter.with_inflight others r)))
        as [e [H1 [H2 [H3 _]]]].
      { simpl. intro H0. apply app_eq_nil in H0. tauto. }
      exists e. auto.
    + unfold Reporter.settle. now rewrite E.
Qed.

(** The theorem at work, without [sendBeacon].  Batched: a report, a
    tick, and the failure of the request put the envelope back in the
    queue.  Immediate: a report and the failure of its request leave the
    queue empty and nothing in flight. *)
Lemma failed_request_requeued_or_dropped_witness :
  (let r := fst (Reporter.run [Reporter.Report (page 10 false) metrics_report;
                               Reporter.Tick (page 20 false)]
                   (Reporter.constructor (page 0 false) (options None))) in
   Reporter.queue r = []
   /\ Reporter.queue (fst (Reporter.settle 0 false r))
      = [Reporter.stamp (page 10 false) metrics_report r])
  /\ (let r := fst (Reporter.run [Reporter.Report (page 10 false) metrics_report]
                      (Reporter.constructor (page 0 false) (options (Some true)))) in
      Reporter.queue (fst (Reporter.settle 0 false r)) = []
      /\ Reporter.inflight (fst (Reporter.settle 0 false r)) = []).
Proof.
  split.
  - intro r.
    destruct (failed_request_requeued_or_dropped
                (page 0 false) (options None)
                [Reporter.Report (page 10 false) metrics_report;
                 Reporter.Tick (page 20 false)] 0) as [_ [_ H]].
    fold r in H. split; [reflexivity|].
    change (Reporter.take_nth 0 (Reporter.inflight r))
      with (Some ({| Reporter.body := [Reporter.stamp (page 10 false) metrics_report r];
                     Reporter.caught := true |}, @nil Reporter.Request)) in H.
    cbv iota beta in H. rewrite (proj1 H). reflexivity.
  - intro r.
    destruct (failed_request_requeued_or_dropped
                (page 0 false) (options (Some true))
                [Reporter.Report (page 10 false) metrics_report] 0) as [_ [_ H]].
    fold r in H.
    change (Reporter.take_nth 0 (Reporter.inflight r))
      with (Some ({| Reporter.body := [Reporter.stamp (page 10 false) metrics_report r];
                     Reporter.caught := true |}, @nil Reporter.Request)) in H.
    cbv iota beta in H. rewrite (proj1 H). split; reflexivity.
Defined.

(* ================================================================== *)
(** * Further properties *)

(** ** The collector's life cycle *)

Lemma observing_disconnect (o : Collector.observer) :
  Collector.observing (Collector.disconnect o) = false.
Proof. destruct o as [[|]|]; reflexivity. Qed.

Lemma step_after_destroy getElementPath c ev :
  is_observation ev = true ->
  Collector.step getElementPath (Collector.destroy c) ev = Collector.destroy c.
Proof.
  intro H. destruct ev; try discriminate; simpl Collector.step;
    unfold Collector.destroy; simpl;
    now rewrite observing_disconnect.
Qed.

(** X1: once [destroy()] has run, whatever the browser still delivers
    (paint, largest-content, first-input, layout-shift or long-task
    batches, in any number and order) leaves the collector exactly as
    [destroy()] left it. *)
Theorem destroyed_collector_ignores_observations
        (getElementPath : Element -> option string) (c : Collector.t)
        (evs : list Collector.event)
        (Hobs : forallb is_observation evs = true) :
  Collector.run getElementPath evs (Collector.destroy c) = Collector.destroy c.
Proof.
  induction evs as [|ev evs IH]; [reflexivity|].
  simpl in Hobs. apply andb_true_iff in Hobs. destruct Hobs as [Hev Hevs].
  unfold Collector.run. simpl fold_left.
  rewrite step_after_destroy by exact Hev. now apply IH.
Qed.

Lemma destroyed_collector_ignores_observations_witness :
  let c := Collector.run tag_path
             [Collector.Init browser;
              Collector.LongTaskObserved [long_task 0 120]] Collector.create in
  Collector.run tag_path
    [Collector.LongTaskObserved [long_task 200 300];
     Collector.LayoutShiftObserved [shift 0 (1 # 10)]]
    (Collector.destroy c)
  = Collector.destroy c.
Proof.
  intro c.
  apply (destroyed_collector_ignores_observations tag_path c
           [Collector.LongTaskObserved [long_task 200 300];
            Collector.LayoutShiftObserved [shift 0 (1 # 10)]]).
  reflexivity.
Defined.

(** ** First contentful paint and first input *)

Lemma find_rev_app {A} (f : A -> bool) (l : list A) (x : A) :
  find f (rev (l ++ [x])) = if f x then Some x else find f (rev l).
Proof. rewrite rev_app_distr. reflexivity. Qed.

Lemma disconnect_idem (o : Collector.observer) :
  Collector.disconnect (Collector.disconnect o) = Collector.disconnect o.
Proof. destruct o; reflexivity. Qed.

(** What the paint callback makes of a batch. *)
Lemma fcp_callback_last (entries : list Collector.PaintEntry) (c : Collector.t) :
  match last_fcp entries with
  | Some e =>
      Collector.num (Collector.metrics (Collector.fcp_callback entries c)) Collector.fcp
      = Some (JS.Math_round (Collector.p_startTime e))
      /\ Collector.fcpObserver (Collector.fcp_callback entries c)
         = Collector.disconnect (Collector.fcpObserver c)
  | None => Collector.fcp_callback entries c = c
  end.
Proof.
  unfold last_fcp, Collector.fcp_callback.
  induction entries as [|x l IH] using rev_ind; [reflexivity|].
  rewrite find_rev_app, fold_left_app.
  set (r := fold_left _ l c) in *. cbn [fold_left].
  destruct (Collector.is_fcp x) eqn:Ex.
  - split; [reflexivity|].
    change (Collector.disconnect (Collector.fcpObserver r)
            = Collector.disconnect (Collector.fcpObserver c)).
    destruct (find Collector.is_fcp (rev l)).
    + destruct IH as [_ ->]. apply disconnect_idem.
    + now rewrite IH.
  - exact IH.
Qed.

(** X2: the first paint batch that carries a first-contentful-paint
    entry settles [fcp]: the value stored is the rounded start time of the
    last such entry of the batch, the observer is disconnected, and no
    later paint batch changes the collector.  A batch without such an
    entry changes nothing. *)
Theorem first_contentful_paint_is_single_shot
        (getElementPath : Element -> option string) (c : Collector.t)
        (entries later : list Collector.PaintEntry)
        (Hobs : Collector.fcpObserver c = Some true) :
  let c' := Collector.step getElementPath c (Collector.PaintObserved entries) in
  match last_fcp entries with
  | Some e =>
      Collector.num (Collector.metrics c') Collector.fcp
      = Some (JS.Math_round (Collector.p_startTime e))
      /\ Collector.step getElementPath c' (Collector.PaintObserved later) = c'
  | None => c' = c
  end.
Proof.
  simpl. rewrite Hobs. simpl.
  pose proof (fcp_callback_last entries c) as H.
  destruct (last_fcp entries) as [e|]; [|exact H].
  destruct H as [Hn Ho]. split; [exact Hn|].
  rewrite Ho, Hobs. reflexivity.
Qed.

Lemma first_contentful_paint_is_single_shot_witness :
  let c := Collector.init browser Collector.create in
  let paint name t := {| Collector.p_name := name; Collector.p_startTime := t |} in
  let c' := Collector.step tag_path c
              (Collector.PaintObserved
                 [paint "first-paint" (8004 # 10);
                  paint "first-contentful-paint" (8126 # 10)]) in
  Collector.num (Collector.metrics c') Collector.fcp = Some 813
  /\ Collector.step tag_path c'
       (Collector.PaintObserved [paint "first-contentful-paint" 2000]) = c'.
Proof.
  intros c paint c'.
  exact (first_contentful_paint_is_single_shot tag_path c
           [paint "first-paint" (8004 # 10);
            paint "first-contentful-paint" (8126 # 10)]
           [paint "first-contentful-paint" 2000] eq_refl).
Defined.

(** What the first-input callback makes of a batch. *)
Lemma fid_callback_last (entries : list Collector.FirstInputEntry) (c : Collector.t) :
  match last_usable_input entries with
  | Some e =>
      Collector.num (Collector.metrics (Collector.fid_callback entries c)) Collector.fid
      = Some (JS.Math_round (Collector.processingStart e - Collector.fi_startTime e))
      /\ Collector.fidObserver (Collector.fid_callback entries c)
         = Collector.disconnect (Collector.fidObserver c)
  | None => Collector.fid_callback entries c = c
  end.
Proof.
  unfold last_usable_input, Collector.fid_callback.
  induction entries as [|x l IH] using rev_ind; [reflexivity|].
  rewrite find_rev_app, fold_left_app.
  set (r := fold_left _ l c) in *. cbn [fold_left].
  fold (usable_input x).
  destruct (usable_input x) eqn:Ex.
  - split; [reflexivity|].
    change (Collector.disconnect (Collector.fidObserver r)
            = Collector.disconnect (Collector.fidObserver c)).
    destruct (find usable_input (rev l)).
    + destruct IH as [_ ->]. apply disconnect_idem.
    + now rewrite IH.
  - exact IH.
Qed.

(** X3: the first first-input batch with a usable entry settles [fid]:
    an entry whose start time or processing start is 0 is skipped; the
    value stored is the rounded delay of the last usable entry of the
    batch, the observer is disconnected, and no later batch changes the
    collector. *)
Theorem first_input_delay_is_single_shot
        (getElementPath : Element -> option string) (c : Collector.t)
        (entries later : list Collector.FirstInputEntry)
        (Hobs : Collector.fidObserver c = Some true) :
  let c' := Collector.step getElementPath c (Collector.FirstInputObserved entries) in
  match last_usable_input entries with
  | Some e =>
      Collector.num (Collector.metrics c') Collector.fid
      = Some (JS.Math_round (Collector.processingStart e - Collector.fi_startTime e))
      /\ Collector.step getElementPath c' (Collector.FirstInputObserved later) = c'
  | None => c' = c
  end.
Proof.
  simpl. rewrite Hobs. simpl.
  pose proof (fid_callback_last entries c) as H.
  destruct (last_usable_input entries) as [e|]; [|exact H].
  destruct H as [Hn Ho]. split; [exact Hn|].
  rewrite Ho, Hobs. reflexivity.
Qed.

Lemma first_input_delay_is_single_shot_witness :
  let c := Collector.init browser Collector.create in
  let input start processing :=
    {| Collector.processingStart := processing; Collector.fi_startTime := start |} in
  let c' := Collector.step tag_path c
              (Collector.FirstInputObserved [input 1000 (10164 # 10); input 0 30]) in
  Collector.num (Collector.metrics c') Collector.fid = Some 16
  /\ Collector.step tag_path c' (Collector.FirstInputObserved [input 2000 2100]) = c'.
Proof.
  intros c input c'.
  exact (first_input_delay_is_single_shot tag_path c
           [input 1000 (10164 # 10); input 0 30] [input 2000 2100] eq_refl).
Defined.

(** ** The layout-shift session *)

Lemma session_sum_app a b : session_sum (a ++ b) == session_sum a + session_sum b.
Proof.
  induction a as [|x a IH]; simpl; [ring|]. rewrite IH. ring.
Qed.

Lemma close_together_app members previous s :
  close_together members ->
  JS.last_entry members = Some previous ->
  Collector.ls_startTime s - Collector.ls_startTime previous < 1000 ->
  close_together (members ++ [s]).
Proof.
  induction members as [|x l IH]; intros Hc Hl Hs.
  - discriminate.
  - destruct l as [|y l'].
    + unfold JS.last_entry in Hl. simpl in Hl. injection Hl as <-.
      simpl. auto.
    + destruct Hc as [Hxy Hc'].
      assert (Hl' : JS.last_entry (y :: l') = Some previous).
      { unfold JS.last_entry in *. simpl in *.
        destruct (rev l' ++ [y]) eqn:E.
        - destruct (rev l'); discriminate.
        - simpl in Hl. exact Hl. }
      split; [exact Hxy|]. exact (IH Hc' Hl' Hs).
Qed.

Lemma session_ok_entry value members s :
  session_ok value members ->
  session_ok (fst (Collector.cls_entry (value, members) s))
             (snd (Collector.cls_entry (value, members) s)).
Proof.
  intros [Hsum [Hin [Hclose Hspan]]].
  unfold Collector.cls_entry.
  destruct (Collector.hadRecentInput s) eqn:Hr; simpl.
  - repeat split; assumption.
  - destruct (Collector.merges value members s) eqn:Hm; simpl.
    + apply merges_iff in Hm.
      destruct Hm as [_ [first [previous [Hf [Hl [H1 H5]]]]]].
      split; [|split; [|split]].
      * rewrite session_sum_app, Hsum. simpl. ring.
      * apply Forall_app. split; [exact Hin|]. constructor; [exact Hr | constructor].
      * eapply close_together_app; eauto.
      * destruct members as [|m ms]; [discriminate|].
        simpl in Hf. injection Hf as ->. simpl.
        apply Forall_app. split; [exact Hspan|]. constructor; [exact H5 | constructor].
    + split; [|split; [|split]].
      * simpl. ring.
      * constructor; [exact Hr | constructor].
      * simpl. auto.
      * constructor.
Qed.

Lemma session_ok_fold entries :
  forall value members,
    session_ok value members ->
    session_ok (fst (fold_left Collector.cls_entry entries (value, members)))
               (snd (fold_left Collector.cls_entry entries (value, members))).
Proof.
  induction entries as [|s l IH]; intros value members H; [exact H|].
  cbn [fold_left].
  pose proof (session_ok_entry value members s H) as H'.
  destruct (Collector.cls_entry (value, members) s) as [v' m'].
  now apply IH.
Qed.

Section SessionInvariant.

Variable getElementPath : Element -> option string.

Local Abbreviation step := (Collector.step getElementPath).

Lemma session_ok_step c ev :
  session_ok (Collector.clsValue c) (Collector.clsEntries c) ->
  session_ok (Collector.clsValue (step c ev)) (Collector.clsEntries (step c ev)).
Proof.
  intro H.
  assert (Hsame : forall c', cls_view c' = cls_view c ->
            session_ok (Collector.clsValue c') (Collector.clsEntries c')).
  { intros c' Hv. unfold cls_view in Hv. injection Hv as -> ->. exact H. }
  destruct ev; simpl Collector.step.
  - destruct (cls_view_init h c) as [Hv | Hv]; [now apply Hsame|].
    unfold cls_view in Hv. injection Hv as -> ->.
    repeat split; try constructor; reflexivity.
  - apply Hsame. unfold Collector.collect. simpl.
    now rewrite cls_view_collectFinalLCP, cls_view_navigation.
  - exact H.
  - destruct (Collector.observing (Collector.fcpObserver c));
      auto using cls_view_fcp_callback.
  - destruct (Collector.observing (Collector.lcpObserver c));
      auto using cls_view_lcp_callback.
  - destruct (Collector.observing (Collector.fidObserver c));
      auto using cls_view_fid_callback.
  - destruct (Collector.observing (Collector.clsObserver c)); [|exact H].
    unfold Collector.cls_callback.
    pose proof (session_ok_fold entries _ _ H) as H'.
    destruct (fold_left Collector.cls_entry entries
                (Collector.clsValue c, Collector.clsEntries c)) as [v m].
    exact H'.
  - destruct (Collector.observing (Collector.longTaskObserver c));
      auto using cls_view_longtask_callback.
Qed.

End SessionInvariant.

(** X4: whatever happened to a collector, the session the layout-shift
    callback keeps is consistent: its running value is the sum of the
    values of its members, no member had recent input, each member starts
    less than 1000 after the one before it, and every member starts less
    than 5000 after the first. *)
Theorem layout_shift_session_is_consistent
        (getElementPath : Element -> option string) (evs : list Collector.event) :
  let c := Collector.run getElementPath evs Collector.create in
  Collector.clsValue c == session_sum (Collector.clsEntries c)
  /\ Forall (fun s => Collector.hadRecentInput s = false) (Collector.clsEntries c)
  /\ close_together (Collector.clsEntries c)
  /\ match Collector.clsEntries c with
     | [] => True
     | first :: rest =>
         Forall (fun s => Collector.ls_startTime s - Collector.ls_startTime first < 5000)
                rest
     end.
Proof.
  intro c.
  assert (H : session_ok (Collector.clsValue c) (Collector.clsEntries c)).
  { subst c. unfold Collector.run.
    apply (fold_left_preserves
             (fun c => session_ok (Collector.clsValue c) (Collector.clsEntries c))).
    - intros a b. apply session_ok_step.
    - repeat split; try constructor; reflexivity. }
  destruct H as [H1 [H2 [H3 H4]]].
  repeat split; auto.
  destruct (Collector.clsEntries c); auto.
Qed.

(** ** The stored tasks only grow *)

Section TasksGrow.

Variable getElementPath : Element -> option string.

Local Abbreviation step := (Collector.step getElementPath).

Lemma tasks_of_view c c' :
  tbt_view c' = tbt_view c ->
  Collector.longTasks (Collector.metrics c') = Collector.longTasks (Collector.metrics c).
Proof. unfold tbt_view. congruence. Qed.

Lemma tasks_updateTBT c :
  Collector.longTasks (Collector.metrics (Collector.updateTBT c))
  = Collector.longTasks (Collector.metrics c).
Proof.
  unfold Collector.updateTBT.
  destruct (Collector.longTasks (Collector.metrics c)) as [[|t ts]|] eqn:E;
    simpl; exact E.
Qed.

Lemma tasks_init h c tasks :
  Collector.longTasks (Collector.metrics c) = Some tasks ->
  Collector.longTasks (Collector.metrics (Collector.init h c)) = Some tasks.
Proof.
  intro H. unfold Collector.init. destruct (Collector.initialized c); [exact H|].
  change (Collector.longTasks (Collector.metrics (Collector.collectWebVitals h c))
          = Some tasks).
  unfold Collector.collectWebVitals.
  set (c1 := Collector.observeCLS h _).
  assert (H1 : Collector.longTasks (Collector.metrics c1) = Some tasks).
  { subst c1. unfold Collector.observeCLS, Collector.observeFID, Collector.observeLCP.
    rewrite <- H. apply tasks_of_view.
    destruct (negb (Collector.hasPerformanceObserver h)); apply view_observeFCP. }
  unfold Collector.observeTBT.
  destruct (negb (Collector.hasPerformanceObserver h)); [exact H1|].
  rewrite H1.
  destruct (Collector.supports h Collector.LongTaskType);
    [rewrite tasks_updateTBT|]; exact H1.
Qed.

(** X5: no event ever removes or rewrites a stored long task: after any
    event the stored sequence is the one before, followed, if the event
    is a long-task batch delivered to an observing collector, by the
    normalised long entries of the batch that come before the first long
    entry naming an attribution element whose path cannot be computed
    (all the long entries when there is none), and by nothing otherwise;
    [init()] after [destroy()] keeps the tasks stored before. *)
Theorem stored_long_tasks_only_grow (c : Collector.t) (ev : Collector.event) :
  match Collector.longTasks (Collector.metrics c) with
  | Some tasks =>
      Collector.longTasks (Collector.metrics (step c ev))
      = Some (tasks ++ appended_by getElementPath c ev)
  | None => True
  end
  /\ (forall entries,
         map Some (stored getElementPath entries)
         = map (Collector.normalize getElementPath)
               (List.filter is_long (handled getElementPath entries))
         /\ (exists rest,
                entries = handled getElementPath entries ++ rest
                /\ match rest with
                   | [] => True
                   | entry :: _ =>
                       is_long entry = true
                       /\ paths_known getElementPath entry = false
                   end)
         /\ Forall (fun entry => is_long entry = true ->
                                 paths_known getElementPath entry = true)
                   (handled getElementPath entries)).
Proof.
  split.
  2:{ intro entries. split; [apply stored_of_handled|].
      split; [apply handled_prefix | apply handled_known]. }
  destruct (Collector.longTasks (Collector.metrics c)) as [tasks|] eqn:E; [|exact I].
  assert (Hsame : forall c', tbt_view c' = tbt_view c ->
            Collector.longTasks (Collector.metrics c') = Some (tasks ++ [])).
  { intros c' Hv. rewrite app_nil_r, <- E. now apply tasks_of_view. }
  destruct ev; simpl Collector.step; simpl appended_by.
  - rewrite app_nil_r. now apply tasks_init.
  - apply Hsame, view_collect.
  - rewrite app_nil_r. exact E.
  - destruct (Collector.observing (Collector.fcpObserver c));
      auto using view_fcp_callback.
  - destruct (Collector.observing (Collector.lcpObserver c));
      auto using view_lcp_callback.
  - destruct (Collector.observing (Collector.fidObserver c));
      auto using view_fid_callback.
  - destruct (Collector.observing (Collector.clsObserver c));
      auto using view_cls_callback.
  - destruct (Collector.observing (Collector.longTaskObserver c)).
    + now apply longtask_callback_tasks.
    + now rewrite app_nil_r.
Qed.

End TasksGrow.

(** ** What [collect()] touches *)

Section CollectFrame.

Variable getElementPath : Element -> option string.

Local Abbreviation collect := (Collector.collect getElementPath).

Lemma num_store k v c k' :
  Collector.num (Collector.metrics (Collector.store k v c)) k'
  = if Collector.MetricName_eqb k k' then Some v
    else Collector.num (Collector.metrics c) k'.
Proof. reflexivity. Qed.

Lemma writes_nothing : writes (fun c => c) (fun _ => None) None.
Proof. intro c. split; [destruct c; reflexivity | auto]. Qed.

Lemma writes_compose f g w p w' p' :
  writes f w p -> writes g w' p' ->
  writes (fun c => g (f c))
         (fun k => match w' k with Some v => Some v | None => w k end)
         (match p' with Some x => Some x | None => p end).
Proof.
  intros Hf Hg c.
  destruct (Hf c) as [Hf1 [Hf2 [Hf3 Hf4]]].
  destruct (Hg (f c)) as [Hg1 [Hg2 [Hg3 Hg4]]].
  split; [|split; [|split]].
  - set (m := Collector.metrics (g (f c))) in *. clearbody m.
    rewrite Hg1, Hf1. reflexivity.
  - intro k. rewrite Hg2, Hf2. destruct (w' k); reflexivity.
  - rewrite Hg3, Hf3. destruct p'; reflexivity.
  - now rewrite Hg4, Hf4.
Qed.

Lemma writes_legacy h :
  exists w, (forall k, collected k = false -> w k = None)
            /\ writes (Collector.collectNavigationTimingLegacy h) w None.
Proof.
  unfold Collector.collectNavigationTimingLegacy.
  destruct (Collector.performance h) as [perf|].
  2:{ exists (fun _ => None). split; [reflexivity | apply writes_nothing]. }
  destruct (Collector.timing perf) as [tm|].
  2:{ exists (fun _ => None). split; [reflexivity | apply writes_nothing]. }
  eexists (fun k => match k with
                    | Collector.dns => Some _ | Collector.tcp => Some _
                    | Collector.ttfb => Some _ | Collector.request => Some _
                    | Collector.parse => Some _ | Collector.domContentLoaded => Some _
                    | Collector.load => Some _ | _ => None
                    end).
  split; [intros k Hk; destruct k; try discriminate; reflexivity|].
  intro c. split; [destruct c; reflexivity|].
  split; [intro k; destruct k; reflexivity|].
  split; reflexivity.
Qed.

Lemma writes_navigation h :
  exists w, (forall k, collected k = false -> w k = None)
            /\ writes (Collector.collectNavigationTiming h) w None.
Proof.
  unfold Collector.collectNavigationTiming.
  destruct (Collector.performance h) as [perf|] eqn:Hperf.
  2:{ exists (fun _ => None). split; [reflexivity | apply writes_nothing]. }
  destruct (Collector.has_getEntriesByType perf); cbn [negb].
  2:{ exists (fun _ => None). split; [reflexivity | apply writes_nothing]. }
  destruct (Collector.navigationEntries perf) as [[|nav l]|].
  - exists (fun _ => None). split; [reflexivity | apply writes_nothing].
  - eexists (fun k => match k with
                      | Collector.dns => Some _ | Collector.tcp => Some _
                      | Collector.ttfb => Some _ | Collector.request => Some _
                      | Collector.parse => Some _ | Collector.domContentLoaded => Some _
                      | Collector.load => Some _ | _ => None
                      end).
    split; [intros k Hk; destruct k; try discriminate; reflexivity|].
    intro c. split; [destruct c; reflexivity|].
    split; [intro k; destruct k; reflexivity|].
    split; reflexivity.
  - apply writes_legacy.
Qed.

Lemma writes_collectFinalLCP h :
  exists w p, (forall k, collected k = false -> w k = None)
              /\ writes (Collector.collectFinalLCP getElementPath h) w p.
Proof.
  unfold Collector.collectFinalLCP.
  destruct (Collector.performance h) as [perf|].
  2:{ exists (fun _ => None), None. split; [reflexivity | apply writes_nothing]. }
  destruct (negb (Collector.has_getEntriesByType perf)).
  1:{ exists (fun _ => None), None. split; [reflexivity | apply writes_nothing]. }
  destruct (Collector.lcpEntries perf) as [es|].
  2:{ exists (fun _ => None), None. split; [reflexivity | apply writes_nothing]. }
  destruct (0 <? List.length es)%nat.
  2:{ exists (fun _ => None), None. split; [reflexivity | apply writes_nothing]. }
  destruct (JS.last_entry es) as [e|].
  2:{ exists (fun _ => None), None. split; [reflexivity | apply writes_nothing]. }
  cbv zeta.
  match goal with |- context [JS.gt ?v 0] => generalize v; intro value end.
  destruct (JS.gt value 0).
  2:{ exists (fun _ => None), None. split; [reflexivity | apply writes_nothing]. }
  destruct (Collector.lcp_element e) as [el|].
  - destruct (getElementPath el) as [path|].
    2:{ exists (fun k => match k with
                         | Collector.lcp => Some (JS.Math_round value)
                         | _ => None
                         end), None.
        split; [intros k Hk; destruct k; try discriminate; reflexivity|].
        intro c. split; [destruct c; reflexivity|].
        split; [intro k; destruct k; reflexivity|].
        split; reflexivity. }
    destruct (negb (String.eqb path "")).
    + exists (fun k => match k with
                       | Collector.lcp => Some (JS.Math_round value)
                       | _ => None
                       end), (Some path).
      split; [intros k Hk; destruct k; try discriminate; reflexivity|].
      intro c. split; [destruct c; reflexivity|].
      split; [intro k; destruct k; reflexivity|].
      split; reflexivity.
    + exists (fun k => match k with
                       | Collector.lcp => Some (JS.Math_round value)
                       | _ => None
                       end), None.
      split; [intros k Hk; destruct k; try discriminate; reflexivity|].
      intro c. split; [destruct c; reflexivity|].
      split; [intro k; destruct k; reflexivity|].
      split; reflexivity.
  - exists (fun k => match k with
                     | Collector.lcp => Some (JS.Math_round value)
                     | _ => None
                     end), None.
    split; [intros k Hk; destruct k; try discriminate; reflexivity|].
    intro c. split; [destruct c; reflexivity|].
    split; [intro k; destruct k; reflexivity|].
    split; reflexivity.
Qed.

Lemma writes_collect h :
  exists w p, (forall k, collected k = false -> w k = None)
              /\ writes (fun c => fst (collect h c)) w p.
Proof.
  destruct (writes_navigation h) as [w1 [Hw1 H1]].
  destruct (writes_collectFinalLCP h) as [w2 [p2 [Hw2 H2]]].
  eexists _, _. split; [|exact (writes_compose _ _ _ _ _ _ H1 H2)].
  intros k Hk. cbv beta. now rewrite (Hw2 k Hk), (Hw1 k Hk).
Qed.

(** X6: [collect()] writes the seven navigation metrics, [lcp] and the
    path of the LCP element, and nothing else: [fcp], [fid], [cls], [tbt],
    the stored long tasks, the layout-shift session, the observers and the
    [initialized] flag are as before.  Calling it again on the same
    timeline returns the same numbers and the same path. *)
Theorem collect_writes_timeline_metrics_only
        (h : Collector.Host) (c : Collector.t) (k : Collector.MetricName) :
  let c1 := fst (collect h c) in
  let c2 := fst (collect h c1) in
  (if collected k then True
   else Collector.num (snd (collect h c)) k = Collector.num (Collector.metrics c) k)
  /\ Collector.longTasks (Collector.metrics c1) = Collector.longTasks (Collector.metrics c)
  /\ (Collector.clsValue c1, Collector.clsEntries c1)
     = (Collector.clsValue c, Collector.clsEntries c)
  /\ (Collector.fcpObserver c1, Collector.lcpObserver c1, Collector.fidObserver c1,
      Collector.clsObserver c1, Collector.longTaskObserver c1, Collector.initialized c1)
     = (Collector.fcpObserver c, Collector.lcpObserver c, Collector.fidObserver c,
        Collector.clsObserver c, Collector.longTaskObserver c, Collector.initialized c)
  /\ Collector.num (snd (collect h c1)) k = Collector.num (snd (collect h c)) k
  /\ Collector.lcpElement (snd (collect h c1)) = Collector.lcpElement (snd (collect h c)).
Proof.
  cbv zeta. rewrite !collect_snd.
  destruct (writes_collect h) as [w [p [Hw H]]].
  destruct (H c) as [H1 [H2 [H3 H4]]].
  destruct (H (fst (collect h c))) as [_ [H2' [H3' _]]].
  cbv beta in *.
  split; [|split; [|split; [|split; [|split]]]].
  - destruct (collected k) eqn:Hk; [exact I|].
    now rewrite H2, (Hw k Hk).
  - exact H4.
  - rewrite H1. reflexivity.
  - rewrite H1. reflexivity.
  - rewrite H2', H2. destruct (w k); reflexivity.
  - rewrite H3', H3. destruct p; reflexivity.
Qed.

End CollectFrame.

(** ** A browser without observers *)

(** X7: on a browser without [PerformanceObserver], [init()] creates no
    observer: at most [fcp] is stored (read from the timeline), neither
    [tbt] nor a task list exists, and no observation that follows changes
    the collector. *)
Theorem no_observer_no_metric
        (getElementPath : Element -> option string) (h : Collector.Host)
        (evs : list Collector.event) (k : Collector.MetricName)
        (Hpo : Collector.hasPerformanceObserver h = false)
        (Hobs : forallb is_observation evs = true) :
  let c := Collector.init h Collector.create in
  (Collector.fcpObserver c, Collector.lcpObserver c, Collector.fidObserver c,
   Collector.clsObserver c, Collector.longTaskObserver c)
  = (None, None, None, None, None)
  /\ match k with
     | Collector.fcp => True
     | _ => Collector.num (Collector.metrics c) k = None
     end
  /\ Collector.longTasks (Collector.metrics c) = None
  /\ Collector.run getElementPath evs c = c.
Proof.
  intro c.
  assert (Hc : c = Collector.with_initialized true (Collector.observeFCP h Collector.create)).
  { subst c. unfold Collector.init, Collector.collectWebVitals, Collector.observeTBT,
      Collector.observeCLS, Collector.observeFID, Collector.observeLCP.
    rewrite Hpo. reflexivity. }
  assert (Hf : exists m, Collector.observeFCP h Collector.create
                         = Collector.with_metrics m Collector.create
                         /\ (forall k', k' <> Collector.fcp -> Collector.num m k' = None)
                         /\ Collector.longTasks m = None).
  { unfold Collector.observeFCP. rewrite Hpo.
    match goal with |- context [Collector.num (Collector.metrics ?x) Collector.fcp] =>
      assert (Hx : exists m, x = Collector.with_metrics m Collector.create
                             /\ (forall k', k' <> Collector.fcp -> Collector.num m k' = None)
                             /\ Collector.longTasks m = None) end.
    { destruct (Collector.performance h) as [perf|].
      2:{ exists Collector.empty_metrics. repeat split. }
      destruct (Collector.has_getEntriesByType perf).
      2:{ exists Collector.empty_metrics. repeat split. }
      apply (fold_left_preserves
               (fun x => exists m, x = Collector.with_metrics m Collector.create
                         /\ (forall k', k' <> Collector.fcp -> Collector.num m k' = None)
                         /\ Collector.longTasks m = None)).
      - intros a b [m [-> [Hn Ht]]]. destruct (Collector.is_fcp b).
        + eexists. split; [reflexivity|]. split; [|exact Ht].
          intros k' Hk'. simpl. destruct k'; try congruence; apply Hn; discriminate.
        + exists m. auto.
      - exists Collector.empty_metrics. repeat split. }
    destruct Hx as [m [Hm [Hn Ht]]].
    match goal with |- context [Collector.num (Collector.metrics ?x) Collector.fcp] =>
      destruct (Collector.num (Collector.metrics x) Collector.fcp) end;
      exists m; auto. }
  destruct Hf as [m [Hm [Hn Ht]]]. rewrite Hm in Hc.
  split; [rewrite Hc; reflexivity|].
  split; [rewrite Hc; destruct k; try exact I; apply Hn; discriminate|].
  split; [rewrite Hc; exact Ht|].
  assert (Hstep : forall ev, is_observation ev = true ->
            Collector.step getElementPath c ev = c).
  { intros ev Hev. rewrite Hc. destruct ev; try discriminate; reflexivity. }
  clear Hc. induction evs as [|ev evs IH]; [reflexivity|].
  simpl in Hobs. apply andb_true_iff in Hobs. destruct Hobs as [Hev Hevs].
  unfold Collector.run. simpl fold_left.
  rewrite Hstep by exact Hev. now apply IH.
Qed.

Lemma no_observer_no_metric_witness :
  let c := Collector.init (old_browser (Some Collector.empty_timeline)) Collector.create in
  Collector.num (Collector.metrics c) Collector.tbt = None
  /\ Collector.run tag_path [Collector.LongTaskObserved [long_task 0 120]] c = c.
Proof.
  intro c.
  destruct (no_observer_no_metric tag_path (old_browser (Some Collector.empty_timeline))
              [Collector.LongTaskObserved [long_task 0 120]] Collector.tbt
              eq_refl eq_refl) as [_ [H1 [_ H2]]].
  split; [exact H1 | exact H2].
Defined.

(** ** The reporter: transports and the queue *)

Lemma run_cons ev evs r :
  Reporter.run (ev :: evs) r
  = (fst (Reporter.run evs (fst (Reporter.step r ev))),
     snd (Reporter.step r ev) ++ snd (Reporter.run evs (fst (Reporter.step r ev)))).
Proof.
  simpl. destruct (Reporter.step r ev) as [r1 o1]. simpl.
  destruct (Reporter.run evs r1) as [r2 o2]. reflexivity.
Qed.

Lemma send_settings env data r :
  settings (fst (Reporter.send env data r)) = settings r.
Proof.
  unfold Reporter.send.
  destruct (JS.copy_if_truthy (Reporter.reportUrl r)); [|reflexivity].
  destruct (Reporter.hasSendBeacon env); reflexivity.
Qed.

Lemma batchReport_settings env r :
  settings (fst (Reporter.batchReport env r)) = settings r.
Proof.
  unfold Reporter.batchReport.
  destruct (Reporter.queue r); [reflexivity|]. now rewrite send_settings.
Qed.

Lemma step_settings r ev : settings (fst (Reporter.step r ev)) = settings r.
Proof.
  destruct ev; simpl.
  - unfold Reporter.report.
    destruct (Reporter.immediate r); [apply send_settings | reflexivity].
  - destruct (Reporter.ticking r); [apply batchReport_settings | reflexivity].
  - unfold Reporter.destroy. rewrite batchReport_settings.
    destruct (Reporter.timer r); reflexivity.
  - unfold Reporter.beforeunload.
    destruct (0 <? List.length (Reporter.queue r))%nat; [|reflexivity].
    destruct (JS.copy_if_truthy (Reporter.reportUrl r)); [|reflexivity].
    destruct (Reporter.hasSendBeacon env); reflexivity.
  - unfold Reporter.settle.
    destruct (Reporter.take_nth i (Reporter.inflight r)) as [[req others]|];
      [|reflexivity].
    destruct ok; [reflexivity|].
    destruct (Reporter.caught req); [|reflexivity].
    unfold Reporter.on_rejected. simpl.
    destruct (negb (Reporter.immediate r)); reflexivity.
Qed.

Lemma run_settings evs : forall r, settings (fst (Reporter.run evs r)) = settings r.
Proof.
  induction evs as [|ev evs IH]; intro r; [reflexivity|].
  rewrite run_cons. simpl fst. now rewrite IH, step_settings.
Qed.

(** *** No destination, no network *)

Lemma step_local_only r ev :
  local_only r ->
  local_only (fst (Reporter.step r ev))
  /\ forallb is_console (snd (Reporter.step r ev)) = true.
Proof.
  intros [Hu Hi].
  assert (Hsend : forall env data r0, local_only r0 ->
             local_only (fst (Reporter.send env data r0))
             /\ forallb is_console (snd (Reporter.send env data r0)) = true).
  { intros env data r0 [Hu0 Hi0]. unfold Reporter.send. rewrite Hu0.
    split; [split; assumption | reflexivity]. }
  assert (Hbatch : forall env r0, local_only r0 ->
             local_only (fst (Reporter.batchReport env r0))
             /\ forallb is_console (snd (Reporter.batchReport env r0)) = true).
  { intros env r0 H0. unfold Reporter.batchReport.
    destruct (Reporter.queue r0); [split; [exact H0 | reflexivity]|].
    apply Hsend. destruct H0. split; assumption. }
  destruct ev; simpl.
  - unfold Reporter.report. destruct (Reporter.immediate r).
    + apply Hsend. split; assumption.
    + split; [split; assumption | reflexivity].
  - destruct (Reporter.ticking r).
    + apply Hbatch. split; assumption.
    + split; [split; assumption | reflexivity].
  - unfold Reporter.destroy. apply Hbatch.
    destruct (Reporter.timer r); split; assumption.
  - unfold Reporter.beforeunload. rewrite Hu.
    destruct (0 <? List.length (Reporter.queue r))%nat;
      (split; [split; assumption | reflexivity]).
  - unfold Reporter.settle. rewrite Hi.
    destruct i; (split; [split; assumption | reflexivity]).
Qed.

(** X8: a reporter built without a destination (none, or the empty
    string) never touches the network: whatever is reported, flushed,
    unloaded or destroyed, every effect it has is a console log of the
    envelopes, and no request is ever in flight. *)
Theorem no_destination_no_network
        (env0 : Reporter.Env) (opts : Reporter.Options) (evs : list Reporter.event)
        (Hurl : JS.copy_if_truthy (Reporter.o_reportUrl opts) = None) :
  forallb is_console (snd (Reporter.run evs (Reporter.constructor env0 opts))) = true
  /\ Reporter.inflight (fst (Reporter.run evs (Reporter.constructor env0 opts))) = [].
Proof.
  assert (H0 : local_only (Reporter.constructor env0 opts)).
  { unfold Reporter.constructor, local_only.
    match goal with |- context [negb ?b] => destruct (negb b) end;
      split; try exact Hurl; reflexivity. }
  revert H0. generalize (Reporter.constructor env0 opts).
  induction evs as [|ev evs IH]; intros r Hr.
  - split; [reflexivity | apply Hr].
  - rewrite run_cons. simpl fst. simpl snd.
    destruct (step_local_only r ev Hr) as [H1 H2].
    destruct (IH _ H1) as [H3 H4].
    split; [|exact H4]. rewrite forallb_app, H2, H3. reflexivity.
Qed.

Lemma no_destination_no_network_witness :
  snd (Reporter.run [Reporter.Report (page 10 true) metrics_report;
                     Reporter.Tick (page 20 true)]
         (Reporter.constructor (page 0 true) (options_without_url (Some "") None)))
  = [Reporter.ConsoleLog
       [Reporter.stamp (page 10 true) metrics_report
          (Reporter.constructor (page 0 true) (options_without_url (Some "") None))]]
  /\ forallb is_console
       (snd (Reporter.run [Reporter.Report (page 10 true) metrics_report;
                           Reporter.Tick (page 20 true)]
               (Reporter.constructor (page 0 true)
                  (options_without_url (Some "") None)))) = true.
Proof.
  split; [reflexivity|].
  exact (proj1 (no_destination_no_network (page 0 true)
                  (options_without_url (Some "") None)
                  [Reporter.Report (page 10 true) metrics_report;
                   Reporter.Tick (page 20 true)] eq_refl)).
Defined.

(** *** Every envelope is handed over once, in order *)

Lemma envelopes_of_settings r r' evs :
  settings r' = settings r -> envelopes_of r' evs = envelopes_of r evs.
Proof.
  intro H. unfold settings in H. injection H as _ Ha Hu _.
  induction evs as [|ev evs IH]; [reflexivity|].
  destruct ev; simpl; try exact IH.
  rewrite IH. unfold Reporter.stamp. now rewrite Ha, Hu.
Qed.

Lemma send_handover env data r :
  data <> [] ->
  transmitted (snd (Reporter.send env data r)) = data
  /\ forallb carries_something (snd (Reporter.send env data r)) = true
  /\ Reporter.queue (fst (Reporter.send env data r)) = Reporter.queue r.
Proof.
  intro Hne. unfold Reporter.send, transmitted.
  assert (Hl : (0 <? List.length data)%nat = true).
  { destruct data; [contradiction | reflexivity]. }
  destruct (JS.copy_if_truthy (Reporter.reportUrl r)) as [u|].
  - destruct (Reporter.hasSendBeacon env); simpl; rewrite app_nil_r, Hl; auto.
  - simpl. rewrite app_nil_r, Hl. auto.
Qed.

Lemma batchReport_handover env r :
  transmitted (snd (Reporter.batchReport env r)) = Reporter.queue r
  /\ forallb carries_something (snd (Reporter.batchReport env r)) = true
  /\ Reporter.queue (fst (Reporter.batchReport env r)) = [].
Proof.
  unfold Reporter.batchReport.
  destruct (Reporter.queue r) as [|d ds] eqn:E; [auto|].
  destruct (send_handover env (d :: ds) (Reporter.with_queue [] r)) as [H1 [H2 H3]];
    [discriminate|].
  auto.
Qed.

Lemma handover_run evs :
  forall r,
    forallb report_tick_or_destroy evs = true ->
    (Reporter.immediate r = true -> Reporter.queue r = []) ->
    transmitted (snd (Reporter.run evs r)) ++ Reporter.queue (fst (Reporter.run evs r))
    = Reporter.queue r ++ envelopes_of r evs
    /\ forallb carries_something (snd (Reporter.run evs r)) = true.
Proof.
  induction evs as [|ev evs IH]; intros r Hevs Himm.
  - simpl. rewrite app_nil_r. auto.
  - simpl in Hevs. apply andb_true_iff in Hevs. destruct Hevs as [Hev Hevs].
    rewrite run_cons. simpl fst. simpl snd.
    pose proof (step_settings r ev) as Hset.
    assert (Hstep :
              transmitted (snd (Reporter.step r ev))
              ++ Reporter.queue (fst (Reporter.step r ev))
              = Reporter.queue r ++ envelopes_of r [ev]
              /\ forallb carries_something (snd (Reporter.step r ev)) = true
              /\ (Reporter.immediate r = true ->
                  Reporter.queue (fst (Reporter.step r ev)) = [])).
    { destruct ev; try discriminate; simpl.
      - unfold Reporter.report. destruct (Reporter.immediate r) eqn:Ei.
        + destruct (send_handover env [Reporter.stamp env input r] r)
            as [H1 [H2 H3]]; [discriminate|].
          rewrite H1, H3, (Himm eq_refl). auto.
        + simpl. split; [reflexivity|]. split; [reflexivity | discriminate].
      - destruct (Reporter.ticking r).
        + destruct (batchReport_handover env r) as [H1 [H2 H3]].
          rewrite H1, H3, !app_nil_r. auto.
        + simpl. rewrite app_nil_r. auto.
      - unfold Reporter.destroy.
        match goal with |- context [Reporter.batchReport env ?x] =>
          destruct (batchReport_handover env x) as [H1 [H2 H3]];
          assert (Hq : Reporter.queue x = Reporter.queue r)
            by (destruct (Reporter.timer r); reflexivity)
        end.
        rewrite H1, H3, Hq, !app_nil_r. auto. }
    destruct Hstep as [H1 [H2 H3]].
    destruct (IH (fst (Reporter.step r ev)) Hevs) as [H4 H5].
    { intro Hi. apply H3. unfold settings in Hset. congruence. }
    split.
    + unfold transmitted in *. rewrite map_app, concat_app, <- app_assoc, H4.
      rewrite (envelopes_of_settings r _ evs Hset).
      rewrite app_assoc, H1, <- app_assoc. f_equal.
      destruct ev; reflexivity.
    + rewrite forallb_app, H2, H5. reflexivity.
Qed.

(** X9: as long as the page only reports, the timer ticks and
    [destroy()] is called, the envelopes handed to a transport, in the
    order of the transmissions, followed by the envelopes still queued,
    are exactly the envelopes reported, in the order of the [report()]
    calls: none is lost, repeated or overtaken; and no transmission is
    empty. *)
Theorem envelopes_are_handed_over_in_order
        (env0 : Reporter.Env) (opts : Reporter.Options) (evs : list Reporter.event)
        (Hevs : forallb report_tick_or_destroy evs = true) :
  let r0 := Reporter.constructor env0 opts in
  transmitted (snd (Reporter.run evs r0)) ++ Reporter.queue (fst (Reporter.run evs r0))
  = envelopes_of r0 evs
  /\ forallb carries_something (snd (Reporter.run evs r0)) = true.
Proof.
  intro r0.
  destruct (handover_run evs r0 Hevs) as [H1 H2].
  - intros _. subst r0. unfold Reporter.constructor.
    match goal with |- context [negb ?b] => destruct (negb b) end; reflexivity.
  - split; [|exact H2]. rewrite H1. subst r0. unfold Reporter.constructor.
    match goal with |- context [negb ?b] => destruct (negb b) end; reflexivity.
Qed.

Lemma envelopes_are_handed_over_in_order_witness :
  let r0 := Reporter.constructor (page 0 false) (options None) in
  let evs := [Reporter.Report (page 10 false) metrics_report;
              Reporter.Tick (page 20 false);
              Reporter.Report (page 30 false) metrics_report;
              Reporter.Report (page 40 false) metrics_report;
              Reporter.Destroy (page 50 false);
              Reporter.Report (page 60 false) metrics_report] in
  transmitted (snd (Reporter.run evs r0)) ++ Reporter.queue (fst (Reporter.run evs r0))
  = [Reporter.stamp (page 10 false) metrics_report r0;
     Reporter.stamp (page 30 false) metrics_report r0;
     Reporter.stamp (page 40 false) metrics_report r0;
     Reporter.stamp (page 60 false) metrics_report r0].
Proof.
  intros r0 evs.
  exact (proj1 (envelopes_are_handed_over_in_order (page 0 false) (options None)
                  evs eq_refl)).
Defined.

(** *** After [destroy()] *)

Lemma send_clock env data r : clock (fst (Reporter.send env data r)) = clock r.
Proof.
  unfold Reporter.send.
  destruct (JS.copy_if_truthy (Reporter.reportUrl r)); [|reflexivity].
  destruct (Reporter.hasSendBeacon env); reflexivity.
Qed.

Lemma batchReport_clock env r : clock (fst (Reporter.batchReport env r)) = clock r.
Proof.
  unfold Reporter.batchReport.
  destruct (Reporter.queue r); [reflexivity|]. now rewrite send_clock.
Qed.

Lemma step_timer_known r ev : timer_known r -> timer_known (fst (Reporter.step r ev)).
Proof.
  intro H.
  assert (Hsame : forall r', clock r' = clock r -> timer_known r').
  { intros r' Hc. unfold clock in Hc. injection Hc as Ht Hk.
    unfold timer_known. rewrite Ht, Hk. exact H. }
  destruct ev; simpl.
  - apply Hsame. unfold Reporter.report.
    destruct (Reporter.immediate r); [apply send_clock | reflexivity].
  - apply Hsame. destruct (Reporter.ticking r); [apply batchReport_clock | reflexivity].
  - unfold Reporter.destroy.
    destruct (Reporter.timer r) eqn:Et.
    + unfold timer_known.
      pose proof (batchReport_clock env (Reporter.with_timer (Some p) false r)) as Hc.
      unfold clock in Hc. injection Hc as Ht Hk. rewrite Hk. discriminate.
    + apply Hsame, batchReport_clock.
  - apply Hsame. unfold Reporter.beforeunload.
    destruct (0 <? List.length (Reporter.queue r))%nat; [|reflexivity].
    destruct (JS.copy_if_truthy (Reporter.reportUrl r)); [|reflexivity].
    destruct (Reporter.hasSendBeacon env); reflexivity.
  - apply Hsame. unfold Reporter.settle.
    destruct (Reporter.take_nth i (Reporter.inflight r)) as [[req others]|];
      [|reflexivity].
    destruct ok; [reflexivity|].
    destruct (Reporter.caught req); [|reflexivity].
    unfold Reporter.on_rejected. simpl.
    destruct (negb (Reporter.immediate r)); reflexivity.
Qed.

Lemma run_timer_known evs :
  forall r, timer_known r -> timer_known (fst (Reporter.run evs r)).
Proof.
  induction evs as [|ev evs IH]; intros r H; [exact H|].
  rewrite run_cons. simpl fst. now apply IH, step_timer_known.
Qed.

Lemma destroy_stops_timer env r :
  timer_known r -> Reporter.ticking (fst (Reporter.destroy env r)) = false.
Proof.
  intro H. unfold Reporter.destroy.
  destruct (Reporter.timer r) eqn:Et.
  - pose proof (batchReport_clock env (Reporter.with_timer (Some p) false r)) as Hc.
    unfold clock in Hc. now injection Hc as _ ->.
  - pose proof (batchReport_clock env r) as Hc.
    unfold clock in Hc. injection Hc as _ ->.
    destruct (Reporter.ticking r) eqn:Ek; [|reflexivity].
    exfalso. now apply H.
Qed.

Lemma with_queue_same r : Reporter.with_queue (Reporter.queue r) r = r.
Proof. destruct r; reflexivity. Qed.

Lemma stopped_run evs :
  forall r,
    forallb report_or_tick evs = true ->
    Reporter.immediate r = false ->
    Reporter.ticking r = false ->
    Reporter.run evs r
    = (Reporter.with_queue (Reporter.queue r ++ envelopes_of r evs) r, []).
Proof.
  induction evs as [|ev evs IH]; intros r Hevs Hi Hk.
  - simpl. now rewrite app_nil_r, with_queue_same.
  - simpl in Hevs. apply andb_true_iff in Hevs. destruct Hevs as [Hev Hevs].
    rewrite run_cons.
    destruct ev; try discriminate; simpl Reporter.step.
    + unfold Reporter.report. rewrite Hi. simpl fst. simpl snd.
      rewrite IH by assumption.
      match goal with |- context [envelopes_of ?x evs] =>
        rewrite (envelopes_of_settings r x evs eq_refl) end.
      simpl. rewrite <- app_assoc. reflexivity.
    + rewrite Hk. simpl fst. simpl snd.
      rewrite IH by assumption. reflexivity.
Qed.

(** X10: [destroy()] stops the timer for good.  Once it has run, in
    batched mode, further [report()] calls only append to the queue and
    the ticks of the timer do nothing: nothing reported after [destroy()]
    is transmitted by the reporter's own schedule. *)
Theorem destroyed_reporter_stops_flushing
        (env0 env : Reporter.Env) (opts : Reporter.Options)
        (history evs : list Reporter.event)
        (Hevs : forallb report_or_tick evs = true) :
  let r := fst (Reporter.run (history ++ [Reporter.Destroy env])
                  (Reporter.constructor env0 opts)) in
  Reporter.ticking r = false
  /\ if Reporter.immediate r then True
     else Reporter.run evs r
          = (Reporter.with_queue (Reporter.queue r ++ envelopes_of r evs) r, []).
Proof.
  intro r.
  assert (Hk : Reporter.ticking r = false).
  { subst r. rewrite run_app. cbn [fst]. rewrite run_cons. cbn [fst Reporter.run].
    cbn [Reporter.step].
    apply destroy_stops_timer, run_timer_known.
    unfold timer_known, Reporter.constructor.
    match goal with |- context [negb ?b] => destruct (negb b) end; simpl;
      discriminate. }
  split; [exact Hk|].
  destruct (Reporter.immediate r) eqn:Hi; [exact I|].
  now apply stopped_run.
Qed.

Lemma destroyed_reporter_stops_flushing_witness :
  let r := fst (Reporter.run [Reporter.Report (page 10 true) metrics_report;
                              Reporter.Destroy (page 20 true)]
                  (Reporter.constructor (page 0 true) (options None))) in
  Reporter.run [Reporter.Report (page 30 true) metrics_report;
                Reporter.Tick (page 40 true); Reporter.Tick (page 50 true)] r
  = (Reporter.with_queue [Reporter.stamp (page 30 true) metrics_report r] r, []).
Proof.
  intro r.
  exact (proj2 (destroyed_reporter_stops_flushing (page 0 true) (page 20 true)
                  (options None)
                  [Reporter.Report (page 10 true) metrics_report]
                  [Reporter.Report (page 30 true) metrics_report;
                   Reporter.Tick (page 40 true); Reporter.Tick (page 50 true)]
                  eq_refl)).
Defined.

(** *** Unloading *)

(** X11: the unload listener hands the queue to [sendBeacon] but leaves
    it in place, so a flush that still follows (the page did not go away, or
    [destroy()] runs in the unload sequence) transmits the same envelopes a
    second time. *)
Theorem unload_leaves_the_queue
        (r : Reporter.t) (env env' : Reporter.Env) (destination : string)
        (Hurl : JS.copy_if_truthy (Reporter.reportUrl r) = Some destination)
        (Hqueue : Reporter.queue r <> [])
        (Hbeacon : Reporter.hasSendBeacon env = true)
        (Hbeacon' : Reporter.hasSendBeacon env' = true) :
  fst (Reporter.beforeunload env r) = r
  /\ snd (Reporter.run [Reporter.BeforeUnload env; Reporter.Destroy env'] r)
     = [Reporter.SendBeacon destination (Reporter.queue r);
        Reporter.SendBeacon destination (Reporter.queue r)].
Proof.
  assert (Hb : Reporter.beforeunload env r
               = (r, [Reporter.SendBeacon destination (Reporter.queue r)])).
  { unfold Reporter.beforeunload. rewrite Hurl, Hbeacon.
    destruct (Reporter.queue r); [contradiction | reflexivity]. }
  split; [now rewrite Hb|].
  rewrite run_cons. simpl Reporter.step. rewrite Hb. simpl fst. simpl snd.
  simpl Reporter.run. unfold Reporter.destroy, Reporter.batchReport.
  assert (Hq : forall x, Reporter.queue x = Reporter.queue r ->
               Reporter.reportUrl x = Reporter.reportUrl r ->
               snd (match Reporter.queue x with
                    | [] => (x, [])
                    | _ :: _ => Reporter.send env' (Reporter.queue x)
                                  (Reporter.with_queue [] x)
                    end)
               = [Reporter.SendBeacon destination (Reporter.queue r)]).
  { intros x Hx Hu. rewrite Hx.
    destruct (Reporter.queue r) eqn:E; [contradiction|].
    unfold Reporter.send. simpl Reporter.reportUrl. rewrite Hu, Hurl, Hbeacon'.
    reflexivity. }
  match goal with |- context [match Reporter.queue ?x with _ => _ end] =>
    specialize (Hq x) end.
  destruct (Reporter.timer r);
    match goal with |- context [let '(_, _) := ?t in _] => destruct t eqn:Et end;
    simpl in *; rewrite Hq by reflexivity; reflexivity.
Qed.

Lemma unload_leaves_the_queue_witness :
  let r := fst (Reporter.run [Reporter.Report (page 10 true) metrics_report]
                  (Reporter.constructor (page 0 true) (options None))) in
  snd (Reporter.run [Reporter.BeforeUnload (page 20 true);
                     Reporter.Destroy (page 30 true)] r)
  = [Reporter.SendBeacon "https://example.org/report" (Reporter.queue r);
     Reporter.SendBeacon "https://example.org/report" (Reporter.queue r)].
Proof.
  intro r.
  refine (proj2 (unload_leaves_the_queue r (page 20 true) (page 30 true)
                   "https://example.org/report" eq_refl _ eq_refl eq_refl)).
  discriminate.
Defined.

(** ** The render monitor: stopping, and what is recorded *)

Section RenderMonitorFacts.

Variable getElementPath : Element -> option string.

Local Abbreviation step := (Render.step getElementPath).
Local Abbreviation run := (Render.run getElementPath).

Lemma with_frameLoops_same m : Render.with_frameLoops (Render.frameLoops m) m = m.
Proof. destruct m; reflexivity. Qed.

(** The frame callbacks, one after the other. *)
Lemma animation_frame_fold env currentTime (P : Render.t -> Prop) loops :
  (forall loop m, P m -> P (fst (Render.checkFrame getElementPath env currentTime loop m))) ->
  forall m waiting,
    P m ->
    P (fst (fold_left
              (fun '(m, waiting) loop =>
                 let '(m, next) :=
                   Render.checkFrame getElementPath env currentTime loop m in
                 (m, match next with
                     | Some loop => waiting ++ [loop]
                     | None => waiting
                     end))
              loops (m, waiting))).
Proof.
  intro Hstep. induction loops as [|loop loops IH]; intros m waiting Hm; [exact Hm|].
  cbn [fold_left]. specialize (Hstep loop m Hm).
  destruct (Render.checkFrame getElementPath env currentTime loop m) as [m1 next].
  apply IH. exact Hstep.
Qed.

(** On a monitor that is not monitoring, the frame callbacks return at
    once, without asking for another frame. *)
Lemma stopped_frame env currentTime s :
  Render.isMonitoring s = false ->
  Render.animation_frame getElementPath env currentTime s
  = Render.with_frameLoops [] s.
Proof.
  intro Hs. unfold Render.animation_frame.
  assert (H : forall loops,
             fold_left
               (fun '(m, waiting) loop =>
                  let '(m, next) :=
                    Render.checkFrame getElementPath env currentTime loop m in
                  (m, match next with
                      | Some loop => waiting ++ [loop]
                      | None => waiting
                      end))
               loops (s, []) = (s, [])).
  { induction loops as [|loop loops IH]; [reflexivity|].
    assert (E : Render.checkFrame getElementPath env currentTime loop s = (s, None))
      by (unfold Render.checkFrame; now rewrite Hs).
    cbn [fold_left]. rewrite E. exact IH. }
  rewrite H. reflexivity.
Qed.

(** Frames end the frame loops of such a monitor and change nothing
    else; mutations and measures are not delivered to it. *)
Lemma stopped_monitor_run (evs : list Render.event) :
  forall s,
    Render.isMonitoring s = false ->
    forallb is_heuristic_input evs = true ->
    run evs s
    = Render.with_frameLoops
        (if existsb is_frame evs then [] else Render.frameLoops s) s.
Proof.
  induction evs as [|ev evs IH]; intros s Hs Hevs.
  - simpl. symmetry. apply with_frameLoops_same.
  - simpl in Hevs. apply andb_true_iff in Hevs. destruct Hevs as [Hev Hevs].
    unfold Render.run. simpl fold_left.
    change (fold_left step evs ?x) with (run evs x).
    destruct ev; try discriminate; simpl Render.step; simpl existsb.
    + rewrite stopped_frame by exact Hs.
      rewrite IH; [|exact Hs|exact Hevs].
      destruct (existsb is_frame evs); reflexivity.
    + rewrite Hs. now apply IH.
    + rewrite Hs. now apply IH.
Qed.

(** X12: after [stop()], frames, mutations and measures change no
    record, no tracked element and no flag of the monitor: the observers
    are disconnected, and the callback of [requestAnimationFrame] returns
    at once, without asking for another frame, so the first frame ends
    the frame loops.  The timers that [stop()] does not cancel still run:
    an expiring suspicion removes its element from the tracked ones. *)
Theorem stopped_monitor_ignores_its_inputs
        (m : Render.t) (evs : list Render.event)
        (Hevs : forallb is_heuristic_input evs = true) :
  run evs (Render.stop m)
  = Render.with_frameLoops
      (if existsb is_frame evs then [] else Render.frameLoops m)
      (Render.stop m)
  /\ (forall target,
         step (Render.stop m) (Render.SuspicionExpired target)
         = Render.with_suspicious
             (Render.map_delete target (Render.suspiciousElements m))
             (Render.stop m)).
Proof.
  split; [|reflexivity].
  now apply (stopped_monitor_run evs (Render.stop m)).
Qed.

Lemma recordPotentialReflow_nobody env deltaTime droppedFrames m :
  Render.suspiciousElements m = [] ->
  Render.recordPotentialReflow getElementPath env deltaTime droppedFrames m = (m, true).
Proof.
  intro H. unfold Render.recordPotentialReflow. rewrite H.
  destruct (Render.MAX_REFLOW_RECORDS <=? List.length (Render.reflows m))%nat;
    reflexivity.
Qed.

Lemma checkFrame_nobody env currentTime loop m :
  Render.suspiciousElements m = [] ->
  fst (Render.checkFrame getElementPath env currentTime loop m) = m.
Proof.
  intro H. unfold Render.checkFrame.
  destruct (negb (Render.isMonitoring m)); [reflexivity|].
  destruct (JS.gt (currentTime - Render.lastTime loop) 20); [|reflexivity].
  match goal with |- context [JS.gt ?d 2] => destruct (JS.gt d 2) end; [|reflexivity].
  rewrite recordPotentialReflow_nobody by exact H. reflexivity.
Qed.

Lemma animation_frame_nobody env currentTime m :
  Render.suspiciousElements m = [] ->
  Render.reflows (Render.animation_frame getElementPath env currentTime m)
  = Render.reflows m
  /\ Render.suspiciousElements (Render.animation_frame getElementPath env currentTime m)
     = [].
Proof.
  intro H. unfold Render.animation_frame.
  pose proof (animation_frame_fold env currentTime
                (fun m' => Render.reflows m' = Render.reflows m
                           /\ Render.suspiciousElements m' = [])
                (Render.frameLoops m)) as Hf.
  cbv beta in Hf.
  specialize (Hf (fun loop m0 H0 =>
                    eq_ind_r (fun x => Render.reflows x = Render.reflows m
                                       /\ Render.suspiciousElements x = [])
                             H0 (checkFrame_nobody env currentTime loop m0 (proj2 H0)))
                 m [] (conj eq_refl H)).
  destruct (fold_left _ (Render.frameLoops m) (m, [])) as [m1 waiting].
  exact Hf.
Qed.

(** X13: the frame heuristic never records a reflow on its own: as long
    as no DOM mutation is being tracked, frames, however late, leave the
    reflow sequence as it is. *)
Theorem slow_frames_alone_record_nothing
        (m : Render.t) (evs : list Render.event)
        (Hnobody : Render.suspiciousElements m = [])
        (Hevs : forallb is_frame evs = true) :
  Render.reflows (run evs m) = Render.reflows m.
Proof.
  revert m Hnobody. induction evs as [|ev evs IH]; intros m Hm; [reflexivity|].
  simpl in Hevs. apply andb_true_iff in Hevs. destruct Hevs as [Hev Hevs].
  destruct ev; try discriminate.
  unfold Render.run. simpl fold_left.
  change (fold_left step evs ?x) with (run evs x).
  simpl Render.step.
  destruct (animation_frame_nobody env currentTime m Hm) as [H1 H2].
  rewrite IH by assumption. exact H1.
Qed.

End RenderMonitorFacts.

Lemma stopped_monitor_ignores_its_inputs_witness :
  Render.run tag_path
    (Render.Mutated render_env [attribute_changed (box 0) "width"] :: slow_frames 1 3)
    (Render.stop (after_slow_frames 2))
  = Render.with_frameLoops [] (Render.stop (after_slow_frames 2)).
Proof.
  apply (stopped_monitor_ignores_its_inputs tag_path (after_slow_frames 2)
           (Render.Mutated render_env [attribute_changed (box 0) "width"]
            :: slow_frames 1 3)).
  reflexivity.
Defined.

Lemma slow_frames_alone_record_nothing_witness :
  Render.reflows
    (Render.run tag_path (slow_frames 1 4) (Render.start render_env Render.create))
  = [].
Proof.
  apply (slow_frames_alone_record_nothing tag_path
           (Render.start render_env Render.create) (slow_frames 1 4));
    reflexivity.
Defined.

(** ** Which attribute changes are recorded *)

(** X14: of the six attributes the mutation observer asks for, a change
    of [width], [height], [display] or [position] appends one reflow record
    with the reason [attribute_change:] and the name, if the path of the
    element can be computed; if it cannot, nothing is appended and the
    callback ends there, without looking at the mutations that follow in
    the batch.  A change of [style] or [class] appends no record.  In
    every case the element is counted as recently mutated. *)
Theorem style_and_class_changes_are_not_recorded
        (getElementPath : Element -> option string) (env : Render.Env)
        (m : Render.t) (element : Element) (attr : string)
        (Hattr : In attr RenderQueries.attributeFilter) :
  let mutation := attribute_changed element attr in
  let m' := fst (Render.mutation_entry getElementPath env m mutation) in
  let returned := snd (Render.mutation_entry getElementPath env m mutation) in
  (if existsb (String.eqb attr) recorded_attributes
   then match getElementPath element with
        | Some path =>
            returned = true
            /\ exists record,
                Render.reflows m' = Render.reflows m ++ [record]
                /\ Render.reason record = ("attribute_change:" ++ attr)%string
                /\ Render.duration record = 0
                /\ Render.element record = Some element
                /\ Render.elementPath record = Some path
        | None => returned = false /\ Render.reflows m' = Render.reflows m
        end
   else returned = true /\ Render.reflows m' = Render.reflows m)
  /\ Render.map_get element (Render.suspiciousElements m')
     = Some (match Render.map_get element (Render.suspiciousElements m) with
             | Some n => JS.or_num n 0
             | None => 0
             end + 1)
  /\ (forall rest,
         Render.mutation_callback getElementPath env (mutation :: rest) m
         = if returned then Render.mutation_callback getElementPath env rest m'
           else m').
Proof.
  intros mutation m' returned.
  assert (Hget : forall k v l, Render.map_get k (Render.map_set k v l) = Some v).
  { intros k v l. induction l as [|[k' v'] l IH]; simpl.
    - unfold same_element. now rewrite Nat.eqb_refl.
    - destruct (same_element k k') eqn:E; simpl; rewrite E; auto. }
  split; [|split].
  - simpl in Hattr.
    destruct Hattr as [<- | [<- | [<- | [<- | [<- | [<- | []]]]]]];
      subst mutation m' returned;
      unfold Render.mutation_entry, Render.recordReflowFromMutation; simpl;
      try (split; reflexivity);
      (destruct (getElementPath element) as [path|]; simpl;
       [split; [reflexivity|]; eexists; repeat split | split; reflexivity]).
  - simpl in Hattr.
    destruct Hattr as [<- | [<- | [<- | [<- | [<- | [<- | []]]]]]];
      subst mutation m' returned;
      unfold Render.mutation_entry, Render.recordReflowFromMutation; simpl;
      try apply Hget;
      (destruct (getElementPath element) as [path|]; simpl; apply Hget).
  - intro rest. subst mutation m' returned. simpl Render.mutation_callback.
    destruct (Render.mutation_entry getElementPath env m
                (attribute_changed element attr)) as [m1 ret].
    reflexivity.
Qed.

Lemma style_and_class_changes_are_not_recorded_witness :
  (Render.reflows
     (fst (Render.mutation_entry own_path render_env Render.create
             (attribute_changed icon "width"))) = []
   /\ Render.mutation_callback own_path render_env
        [attribute_changed icon "width"; attribute_changed (box 0) "width"]
        Render.create
      = fst (Render.mutation_entry own_path render_env Render.create
               (attribute_changed icon "width")))
  /\ List.length
       (Render.reflows
          (fst (Render.mutation_entry own_path render_env Render.create
                  (attribute_changed (box 0) "width")))) = 1%nat
  /\ Render.reflows
       (fst (Render.mutation_entry own_path render_env Render.create
               (attribute_changed (box 0) "style"))) = [].
Proof.
  split; [|split].
  - destruct (style_and_class_changes_are_not_recorded own_path render_env
                Render.create icon "width"
                (or_intror (or_intror (or_introl eq_refl))))
      as [[_ H1] [_ H2]].
    split; [exact H1 | exact (H2 [attribute_changed (box 0) "width"])].
  - destruct (style_and_class_changes_are_not_recorded own_path render_env
                Render.create (box 0) "width"
                (or_intror (or_intror (or_introl eq_refl))))
      as [[_ [record [H1 _]]] _].
    rewrite H1. reflexivity.
  - exact (proj2 (proj1 (style_and_class_changes_are_not_recorded own_path render_env
                           Render.create (box 0) "style" (or_introl eq_refl)))).
Defined.

(** ** Records are only appended *)

Section RecordsKept.

Variable getElementPath : Element -> option string.

Local Abbreviation step := (Render.step getElementPath).
Local Abbreviation run := (Render.run getElementPath).

Lemma keeps_refl m : keeps_records m m.
Proof. split; exists []; now rewrite app_nil_r. Qed.

Lemma keeps_trans m1 m2 m3 :
  keeps_records m1 m2 -> keeps_records m2 m3 -> keeps_records m1 m3.
Proof.
  intros [[a Ha] [b Hb]] [[a' Ha'] [b' Hb']]. split.
  - exists (a ++ a'). now rewrite Ha', Ha, app_assoc.
  - exists (b ++ b'). now rewrite Hb', Hb, app_assoc.
Qed.

Lemma keeps_same m m' :
  Render.reflows m' = Render.reflows m ->
  Render.repaints m' = Render.repaints m ->
  keeps_records m m'.
Proof. intros H1 H2. split; exists []; now rewrite app_nil_r. Qed.

Lemma keeps_fold {A} (f : Render.t -> A -> Render.t) (l : list A) :
  (forall m a, keeps_records m (f m a)) ->
  forall m, keeps_records m (fold_left f l m).
Proof.
  intro Hf. induction l as [|a l IH]; intro m; simpl.
  - apply keeps_refl.
  - eapply keeps_trans; [apply Hf | apply IH].
Qed.

Lemma keeps_push_reflow m record :
  keeps_records m (Render.with_reflows (Render.reflows m ++ [record]) m).
Proof. split; [now exists [record] | exists []; now rewrite app_nil_r]. Qed.

Lemma keeps_push_repaint m record :
  keeps_records m (Render.with_repaints (Render.repaints m ++ [record]) m).
Proof. split; [exists []; now rewrite app_nil_r | now exists [record]]. Qed.

Lemma keeps_frame_drop_records env deltaTime droppedFrames els :
  forall m,
    keeps_records m
      (fst (Render.frame_drop_records getElementPath env deltaTime droppedFrames els m)).
Proof.
  induction els as [|[el n] els IH]; intro m; simpl; [apply keeps_refl|].
  destruct (getElementPath el) as [path|]; [|apply keeps_refl].
  eapply keeps_trans; [apply keeps_push_reflow | apply IH].
Qed.

Lemma keeps_recordPotentialReflow env deltaTime droppedFrames m :
  keeps_records m
    (fst (Render.recordPotentialReflow getElementPath env deltaTime droppedFrames m)).
Proof.
  unfold Render.recordPotentialReflow.
  destruct (Render.MAX_REFLOW_RECORDS <=? List.length (Render.reflows m))%nat;
    [apply keeps_refl|].
  apply keeps_frame_drop_records.
Qed.

Lemma keeps_checkFrame env currentTime loop m :
  keeps_records m (fst (Render.checkFrame getElementPath env currentTime loop m)).
Proof.
  unfold Render.checkFrame.
  destruct (negb (Render.isMonitoring m)); [apply keeps_refl|].
  destruct (JS.gt (currentTime - Render.lastTime loop) 20); [|apply keeps_refl].
  match goal with |- context [JS.gt ?d 2] => destruct (JS.gt d 2) end;
    [|apply keeps_refl].
  match goal with
  | |- context [Render.recordPotentialReflow _ ?e ?d ?f ?x] =>
      pose proof (keeps_recordPotentialReflow e d f x) as Hk;
      destruct (Render.recordPotentialReflow getElementPath e d f x) as [m1 returned]
  end.
  destruct returned; exact Hk.
Qed.

Lemma keeps_animation_frame env currentTime m :
  keeps_records m (Render.animation_frame getElementPath env currentTime m).
Proof.
  unfold Render.animation_frame.
  assert (H : forall loops m0 waiting,
             keeps_records m m0 ->
             keeps_records m
               (fst (fold_left
                       (fun '(m, waiting) loop =>
                          let '(m, next) :=
                            Render.checkFrame getElementPath env currentTime loop m in
                          (m, match next with
                              | Some loop => waiting ++ [loop]
                              | None => waiting
                              end))
                       loops (m0, waiting)))).
  { induction loops as [|loop loops IH]; intros m0 waiting H0; [exact H0|].
    cbn [fold_left].
    pose proof (keeps_checkFrame env currentTime loop m0) as Hk.
    destruct (Render.checkFrame getElementPath env currentTime loop m0) as [m1 next].
    apply IH. eapply keeps_trans; [exact H0 | exact Hk]. }
  specialize (H (Render.frameLoops m) m [] (keeps_refl m)).
  destruct (fold_left _ (Render.frameLoops m) (m, [])) as [m1 waiting].
  apply (keeps_trans m m1); [exact H | now apply keeps_same].
Qed.

Lemma keeps_mutation_entry env m mutation :
  keeps_records m (fst (Render.mutation_entry getElementPath env m mutation)).
Proof.
  unfold Render.mutation_entry.
  destruct (Render.mu_type mutation); try apply keeps_refl.
  - now apply keeps_same.
  - destruct (Render.attributeName mutation) as [a|]; [|now apply keeps_same].
    destruct (_ && _)%bool; [|now apply keeps_same].
    unfold Render.recordReflowFromMutation.
    destruct (getElementPath (Render.target mutation)) as [path|];
      [|now apply keeps_same].
    match goal with
    | |- keeps_records _ (fst (Render.with_reflows (Render.reflows ?x ++ _) _, _)) =>
        apply (keeps_trans m x); [now apply keeps_same | apply keeps_push_reflow]
    end.
Qed.

Lemma keeps_mutation_callback env mutations :
  forall m, keeps_records m (Render.mutation_callback getElementPath env mutations m).
Proof.
  induction mutations as [|mutation rest IH]; intro m; simpl; [apply keeps_refl|].
  pose proof (keeps_mutation_entry env m mutation) as Hk.
  destruct (Render.mutation_entry getElementPath env m mutation) as [m1 returned].
  destruct returned; [|exact Hk].
  eapply keeps_trans; [exact Hk | apply IH].
Qed.

Lemma keeps_step m ev : is_clear ev = false -> keeps_records m (step m ev).
Proof.
  intro H. destruct ev; try discriminate; simpl.
  - unfold Render.start. destruct (Render.isMonitoring m);
      [apply keeps_refl | now apply keeps_same].
  - now apply keeps_same.
  - apply keeps_animation_frame.
  - destruct (Render.isMonitoring m); [|apply keeps_refl].
    apply keeps_mutation_callback.
  - now apply keeps_same.
  - destruct (Render.isMonitoring m); [|apply keeps_refl].
    unfold Render.measure_callback. apply keeps_fold.
    intros m0 a.
    destruct (JS.includes (Render.m_name a) "reflow"); [apply keeps_push_reflow|].
    destruct (JS.includes (Render.m_name a) "repaint");
      [apply keeps_push_repaint | apply keeps_refl].
  - unfold Render.markReflow. destruct measure; [|apply keeps_refl].
    destruct (Render.path_if_given getElementPath element);
      [apply keeps_push_reflow | apply keeps_refl].
  - unfold Render.markRepaint. destruct measure; [|apply keeps_refl].
    destruct (Render.path_if_given getElementPath element);
      [apply keeps_push_repaint | apply keeps_refl].
Qed.

(** X15: the monitor only ever appends to its two sequences: whatever
    happens short of [clear()] (starting, stopping, frames, mutations,
    measures, marks), the reflow and repaint records that were there are
    still there, in the same order, at the head of the sequences. *)
Theorem records_are_only_appended
        (m : Render.t) (evs : list Render.event)
        (Hevs : forallb (fun ev => negb (is_clear ev)) evs = true) :
  (exists more, Render.reflows (run evs m) = Render.reflows m ++ more)
  /\ (exists more, Render.repaints (run evs m) = Render.repaints m ++ more).
Proof.
  change (keeps_records m (run evs m)).
  revert m. induction evs as [|ev evs IH]; intro m; [apply keeps_refl|].
  simpl in Hevs. apply andb_true_iff in Hevs. destruct Hevs as [Hev Hevs].
  apply negb_true_iff in Hev.
  unfold Render.run. simpl fold_left.
  eapply keeps_trans; [apply keeps_step; exact Hev | apply IH; exact Hevs].
Qed.

End RecordsKept.

Lemma records_are_only_appended_witness :
  exists more,
    Render.reflows
      (Render.run tag_path
         [Render.Stop;
          Render.MarkReflow render_env (Some (box 0)) None
            (Some {| Render.m_name := "reflow"; Render.m_startTime := 5;
                     Render.m_duration := 2 |})]
         (after_slow_frames 2))
    = Render.reflows (after_slow_frames 2) ++ more.
Proof.
  exact (proj1 (records_are_only_appended tag_path (after_slow_frames 2)
                  [Render.Stop;
                   Render.MarkReflow render_env (Some (box 0)) None
                     (Some {| Render.m_name := "reflow"; Render.m_startTime := 5;
                              Render.m_duration := 2 |})]
                  eq_refl)).
Defined.

(** ** The style-read hook *)

Lemma style_read_count now element s :
  let r := RenderQueries.style_read now element s in
  match snd r with
  | Some _ =>
      RenderQueries.readCount (fst r) = 0%nat
      /\ (5 <= RenderQueries.readCount s)%nat
      /\ now - RenderQueries.lastReadTime s < 10
  | None => (RenderQueries.readCount (fst r) <= S (RenderQueries.readCount s))%nat
  end
  /\ RenderQueries.lastReadTime (fst r) = now.
Proof.
  unfold RenderQueries.style_read.
  destruct (JS.lt (now - RenderQueries.lastReadTime s) 10) eqn:Hl; simpl.
  - destruct (5 <? S (RenderQueries.readCount s))%nat eqn:Hc; simpl.
    + apply Nat.ltb_lt in Hc. apply lt_true in Hl.
      destruct (find _ _); simpl; split; auto; try lia.
      repeat split; auto; lia.
    + split; [lia | reflexivity].
  - split; [lia | reflexivity].
Qed.

Lemma style_reads_bound reads :
  forall s,
    (6 * List.length (snd (RenderQueries.style_reads reads s))
     + RenderQueries.readCount (fst (RenderQueries.style_reads reads s))
     <= RenderQueries.readCount s + List.length reads)%nat.
Proof.
  induction reads as [|[now element] reads IH]; intro s; simpl; [lia|].
  pose proof (style_read_count now element s) as [H _]. cbv zeta in H.
  destruct (RenderQueries.style_read now element s) as [s1 marked].
  specialize (IH s1).
  destruct (RenderQueries.style_reads reads s1) as [s2 more].
  simpl in *. destruct marked; simpl; lia.
Qed.

Lemma style_reads_apart reads :
  forall s,
    (forall now element, hd_error reads = Some (now, element) ->
                         10 <= now - RenderQueries.lastReadTime s) ->
    (forall i a b, nth_error reads i = Some a -> nth_error reads (S i) = Some b ->
                   10 <= fst b - fst a) ->
    snd (RenderQueries.style_reads reads s) = [].
Proof.
  induction reads as [|[now element] reads IH]; intros s Hfirst Hgap; [reflexivity|].
  simpl.
  pose proof (style_read_count now element s) as [H Ht]. cbv zeta in H, Ht.
  destruct (RenderQueries.style_read now element s) as [s1 marked].
  simpl in H, Ht.
  assert (Hm : marked = None).
  { destruct marked; [|reflexivity].
    destruct H as [_ [_ H]]. specialize (Hfirst now element eq_refl). lra. }
  subst marked.
  specialize (IH s1).
  destruct (RenderQueries.style_reads reads s1) as [s2 more]. simpl in *.
  apply IH.
  - intros now' element' Hhd. rewrite Ht.
    destruct reads as [|[n e] reads']; [discriminate|].
    simpl in Hhd. injection Hhd as <- <-.
    exact (Hgap 0%nat (now, element) (n, e) eq_refl eq_refl).
  - intros i a b Ha Hb. exact (Hgap (S i) a b Ha Hb).
Qed.

(** X16: the hook that counts style reads asks for a repaint record at
    most once per six reads, whatever the elements and the times; and it
    asks for none at all when each read comes at least 10 after the read
    before it (the first one at least 10 after time 0). *)
Theorem style_reads_seldom_mark_a_repaint
        (reads : list (Q * Element)) :
  let marked := snd (RenderQueries.style_reads reads RenderQueries.no_reads) in
  (6 * List.length marked <= List.length reads)%nat
  /\ ((forall now element, hd_error reads = Some (now, element) -> 10 <= now) ->
      (forall i a b, nth_error reads i = Some a -> nth_error reads (S i) = Some b ->
                     10 <= fst b - fst a) ->
      marked = []).
Proof.
  intro marked. split.
  - pose proof (style_reads_bound reads RenderQueries.no_reads) as H.
    simpl in H. fold marked in H. lia.
  - intros Hfirst Hgap. apply style_reads_apart; [|exact Hgap].
    intros now element Hhd. simpl.
    specialize (Hfirst now element Hhd). lra.
Qed.

Lemma style_reads_seldom_mark_a_repaint_witness :
  snd (RenderQueries.style_reads
         [(10, box 0); (25, box 0); (40, box 0); (55, box 0);
          (70, box 0); (85, box 0); (100, box 0)]
         RenderQueries.no_reads) = []
  /\ snd (RenderQueries.style_reads
            [(1, box 0); (2, box 0); (3, box 0); (4, box 0); (5, box 0); (6, box 0)]
            RenderQueries.no_reads) = [box 0].
Proof.
  split; [|reflexivity].
  apply (proj2 (style_reads_seldom_mark_a_repaint
                  [(10, box 0); (25, box 0); (40, box 0); (55, box 0);
                   (70, box 0); (85, box 0); (100, box 0)])).
  - intros now element [= <- <-]. discriminate.
  - intros i a b Ha Hb.
    do 7 (destruct i as [|i]; [simpl in Ha, Hb; try discriminate;
                               injection Ha as <-; injection Hb as <-;
                               discriminate|]).
    destruct i; discriminate.
Defined.

(** ** The elements that reflow often *)

Lemma insert_desc_perm {A} (x : A * JS.number) l :
  Permutation (JS.insert_desc x l) (x :: l).
Proof.
  induction l as [|y rest IH]; simpl; [reflexivity|].
  destruct (Qle_bool (snd y) (snd x)); [reflexivity|].
  rewrite IH. apply perm_swap.
Qed.

Lemma sort_desc_perm {A} (l : list (A * JS.number)) :
  Permutation (JS.sort_desc l) l.
Proof.
  unfold JS.sort_desc. induction l as [|x l IH]; simpl; [reflexivity|].
  rewrite insert_desc_perm. now constructor.
Qed.

Lemma insert_desc_sorted {A} (x : A * JS.number) l :
  StronglySorted (fun a b => snd b <= snd a) l ->
  StronglySorted (fun a b => snd b <= snd a) (JS.insert_desc x l).
Proof.
  induction l as [|y rest IH]; intro Hs; simpl.
  - constructor; constructor.
  - inversion Hs as [|? ? Hrest Hall]; subst.
    destruct (Qle_bool (snd y) (snd x)) eqn:Hle.
    + apply Qle_bool_iff in Hle. constructor; [exact Hs|].
      constructor; [exact Hle|].
      eapply Forall_impl; [|exact Hall].
      intros a Ha. simpl in Ha. lra.
    + assert (Hlt : snd x < snd y).
      { apply Qnot_le_lt. intro H. apply Qle_bool_iff in H. congruence. }
      constructor; [apply IH; exact Hrest|].
      apply (Permutation_Forall (x := x :: rest)).
      * symmetry. apply insert_desc_perm.
      * constructor; [lra | exact Hall].
Qed.

Lemma sort_desc_sorted {A} (l : list (A * JS.number)) :
  StronglySorted (fun a b => snd b <= snd a) (JS.sort_desc l).
Proof.
  unfold JS.sort_desc. induction l as [|x l IH]; simpl.
  - constructor.
  - now apply insert_desc_sorted.
Qed.

Lemma StronglySorted_map {A B} (f : A -> B) (R : B -> B -> Prop) l :
  StronglySorted (fun a b => R (f a) (f b)) l -> StronglySorted R (map f l).
Proof.
  induction 1 as [|a l Hs IH Hall]; simpl; constructor; auto.
  apply Forall_map. exact Hall.
Qed.

Lemma StronglySorted_impl {A} (R R' : A -> A -> Prop) l :
  (forall a b, In a l -> In b l -> R a b -> R' a b) ->
  StronglySorted R l -> StronglySorted R' l.
Proof.
  intros Himp Hs. induction Hs as [|a l Hs IH Hall]; constructor.
  - apply IH. intros x y Hx Hy. apply Himp; now right.
  - rewrite Forall_forall in *. intros b Hb. apply Himp; [now left | now right | auto].
Qed.

Lemma count_number_le a b :
  RenderQueries.count_number a <= RenderQueries.count_number b <-> (a <= b)%nat.
Proof.
  unfold RenderQueries.count_number. rewrite <- Zle_Qle. lia.
Qed.

Lemma lookup_count_path p q e acc :
  lookup_path p (RenderQueries.count_path q e acc)
  = if String.eqb p q
    then Some (match lookup_path q acc with
               | Some (e0, n) => (e0, S n)
               | None => (e, 1%nat)
               end)
    else lookup_path p acc.
Proof.
  induction acc as [|[p0 [e0 n0]] rest IH]; simpl.
  - destruct (String.eqb p q); reflexivity.
  - destruct (String.eqb q p0) eqn:Hq; simpl.
    + apply String.eqb_eq in Hq. subst p0.
      destruct (String.eqb p q); reflexivity.
    + rewrite IH. destruct (String.eqb p q) eqn:Hp.
      * apply String.eqb_eq in Hp. subst p. rewrite Hq. reflexivity.
      * reflexivity.
Qed.

Lemma keys_count_path q e acc p :
  In p (map fst (RenderQueries.count_path q e acc))
  <-> p = q \/ In p (map fst acc).
Proof.
  induction acc as [|[p0 [e0 n0]] rest IH]; simpl.
  - intuition.
  - destruct (String.eqb q p0) eqn:Hq; simpl.
    + apply String.eqb_eq in Hq. subst p0. intuition.
    + rewrite IH. intuition.
Qed.

Lemma NoDup_count_path q e acc :
  NoDup (map fst acc) -> NoDup (map fst (RenderQueries.count_path q e acc)).
Proof.
  induction acc as [|[p0 [e0 n0]] rest IH]; simpl; intro H.
  - constructor; [intros [] | constructor].
  - inversion H as [|? ? Hnotin Hrest]; subst.
    destruct (String.eqb q p0) eqn:Hq; simpl.
    + constructor; assumption.
    + constructor; [|auto].
      rewrite keys_count_path. intros [->|Hin]; [|contradiction].
      rewrite String.eqb_refl in Hq. discriminate.
Qed.

Lemma elementCounts_is_fold reflows :
  RenderQueries.elementCounts reflows = fold_left count_reflow reflows [].
Proof. reflexivity. Qed.

Lemma NoDup_count_reflow acc reflow :
  NoDup (map fst acc) -> NoDup (map fst (count_reflow acc reflow)).
Proof.
  intro H. unfold count_reflow.
  destruct (Render.element reflow); [|exact H].
  destruct (Render.elementPath reflow); [|exact H].
  destruct (Render.nonempty _); [|exact H].
  now apply NoDup_count_path.
Qed.

Lemma lookup_count_reflow p acc reflow :
  lookup_path p (count_reflow acc reflow)
  = if counted p reflow
    then match lookup_path p acc, Render.element reflow with
         | Some (e0, n), _ => Some (e0, S n)
         | None, Some e => Some (e, 1%nat)
         | None, None => None
         end
    else lookup_path p acc.
Proof.
  unfold count_reflow, counted.
  destruct (Render.element reflow) as [e|]; [|reflexivity].
  destruct (Render.elementPath reflow) as [q|]; [|reflexivity].
  destruct (Render.nonempty q); [|reflexivity]. simpl.
  rewrite lookup_count_path, (String.eqb_sym q p).
  destruct (String.eqb p q) eqn:Hp; [|reflexivity].
  apply String.eqb_eq in Hp. subst q.
  destruct (lookup_path p acc) as [[e0 n]|]; reflexivity.
Qed.

Lemma lookup_fold p reflows :
  forall acc,
    lookup_path p (fold_left count_reflow reflows acc)
    = match lookup_path p acc, first_counted p reflows with
      | Some (e, n), _ => Some (e, (n + occurrences p reflows)%nat)
      | None, Some e => Some (e, occurrences p reflows)
      | None, None => None
      end.
Proof.
  unfold first_counted, occurrences.
  induction reflows as [|reflow reflows IH]; intro acc; simpl.
  - destruct (lookup_path p acc) as [[e n]|]; [|reflexivity].
    now rewrite Nat.add_0_r.
  - rewrite IH, lookup_count_reflow.
    destruct (counted p reflow) eqn:Hc; simpl.
    + destruct (lookup_path p acc) as [[e n]|].
      * now rewrite Nat.add_succ_r.
      * unfold counted in Hc.
        destruct (Render.element reflow) as [e|]; [|discriminate].
        reflexivity.
    + reflexivity.
Qed.

Lemma NoDup_fold reflows :
  forall acc, NoDup (map fst acc) ->
              NoDup (map fst (fold_left count_reflow reflows acc)).
Proof.
  induction reflows as [|reflow reflows IH]; intros acc H; simpl; [exact H|].
  apply IH. now apply NoDup_count_reflow.
Qed.

Lemma lookup_In acc :
  NoDup (map fst acc) ->
  forall p v, In (p, v) acc <-> lookup_path p acc = Some v.
Proof.
  induction acc as [|[p0 v0] rest IH]; simpl; intros H p v.
  - split; [intros [] | discriminate].
  - inversion H as [|? ? Hnotin Hrest]; subst.
    destruct (String.eqb p p0) eqn:Hp.
    + apply String.eqb_eq in Hp. subst p0. split.
      * intros [[= <-]|Hin]; [reflexivity|].
        exfalso. apply Hnotin. apply in_map_iff. now exists (p, v).
      * intros [= <-]. now left.
    + rewrite <- (IH Hrest). split.
      * intros [[= <- <-]|Hin]; [|exact Hin].
        rewrite String.eqb_refl in Hp. discriminate.
      * intro Hin. now right.
Qed.

Lemma first_counted_occurs p reflows e :
  first_counted p reflows = Some e -> (1 <= occurrences p reflows)%nat.
Proof.
  unfold first_counted, occurrences.
  induction reflows as [|reflow reflows IH]; simpl; [discriminate|].
  destruct (counted p reflow); simpl; [lia | exact IH].
Qed.

Lemma occurs_first_counted p reflows :
  (1 <= occurrences p reflows)%nat -> exists e, first_counted p reflows = Some e.
Proof.
  unfold first_counted, occurrences.
  induction reflows as [|reflow reflows IH]; simpl; [lia|].
  destruct (counted p reflow) eqn:Hc; simpl; [|exact IH].
  intros _. unfold counted in Hc.
  destruct (Render.element reflow) as [e|]; [now exists e | discriminate].
Qed.

(** X17: [getFrequentReflowElements(threshold)] reports a path exactly
    when stored reflow records carry it (with an element, and the path
    not empty) and their number is at least the threshold.  The reported
    count is that number, the reported element is the one of the first
    such record, no path is reported twice, and the counts never go up
    along the result. *)
Theorem frequent_elements_are_the_counted_ones
        (threshold : JS.number) (m : Render.t) :
  let result := RenderQueries.getFrequentReflowElements threshold m in
  (forall fe,
      In fe result <->
      first_counted (RenderQueries.fe_path fe) (Render.reflows m)
      = Some (RenderQueries.fe_element fe)
      /\ RenderQueries.fe_count fe
         = occurrences (RenderQueries.fe_path fe) (Render.reflows m)
      /\ threshold <= RenderQueries.count_number (RenderQueries.fe_count fe))
  /\ NoDup (map RenderQueries.fe_path result)
  /\ StronglySorted
       (fun a b => (RenderQueries.fe_count b <= RenderQueries.fe_count a)%nat)
       result.
Proof.
  intro result. subst result. unfold RenderQueries.getFrequentReflowElements.
  cbv zeta. rewrite elementCounts_is_fold.
  set (counts := fold_left count_reflow (Render.reflows m) []).
  assert (Hnd : NoDup (map fst counts)) by (apply NoDup_fold; constructor).
  assert (Hlk : forall p, lookup_path p counts
                          = match first_counted p (Render.reflows m) with
                            | Some e => Some (e, occurrences p (Render.reflows m))
                            | None => None
                            end).
  { intro p. unfold counts. now rewrite lookup_fold. }
  set (kept := List.filter _ counts).
  set (to_fe := fun entry : string * (Element * nat) =>
                  {| RenderQueries.fe_element := fst (snd entry);
                     RenderQueries.fe_path := fst entry;
                     RenderQueries.fe_count := snd (snd entry) |}).
  set (keyed := fun fe => (fe, RenderQueries.count_number (RenderQueries.fe_count fe))).
  assert (Hperm : Permutation
                    (map fst (JS.sort_desc (map keyed (map to_fe kept))))
                    (map to_fe kept)).
  { rewrite sort_desc_perm, map_map. simpl. now rewrite map_id. }
  split; [|split].
  - intro fe. rewrite (Permutation_in' (eq_refl fe) Hperm).
    rewrite in_map_iff. split.
    + intros [[p [e n]] [<- Hin]]. simpl.
      apply filter_In in Hin. destruct Hin as [Hin Hge]. simpl in Hge.
      apply (lookup_In counts Hnd) in Hin. rewrite Hlk in Hin.
      destruct (first_counted p (Render.reflows m)) as [e'|]; [|discriminate].
      injection Hin as -> <-.
      split; [reflexivity | split; [reflexivity|]].
      apply Qle_bool_iff. exact Hge.
    + destruct fe as [e p n]. simpl. intros [Hfirst [Hn Hth]].
      exists (p, (e, n)). split; [reflexivity|].
      apply filter_In. split.
      * apply (lookup_In counts Hnd). rewrite Hlk, Hfirst, Hn. reflexivity.
      * simpl. apply Qle_bool_iff. exact Hth.
  - rewrite (Permutation_map RenderQueries.fe_path Hperm).
    rewrite map_map. simpl.
    assert (Hk : NoDup (map fst kept)).
    { unfold kept. clear - Hnd. induction counts as [|[p v] rest IH]; simpl; [constructor|].
      inversion Hnd as [|? ? Hnotin Hrest]; subst.
      match goal with |- context [if ?c then _ else _] => destruct c end; simpl; auto.
      constructor; auto.
      intro Hin. apply Hnotin. apply in_map_iff in Hin.
      destruct Hin as [x [Hx Hin]]. apply filter_In in Hin.
      apply in_map_iff. exists x. tauto. }
    exact Hk.
  - apply StronglySorted_map.
    eapply StronglySorted_impl; [|apply sort_desc_sorted].
    intros a b Ha Hb. apply (Permutation_in _ (sort_desc_perm _)) in Ha, Hb.
    apply in_map_iff in Ha, Hb.
    destruct Ha as [fa [<- _]], Hb as [fb [<- _]]. simpl.
    apply count_number_le.
Qed.

(** ** The scan for accelerated elements *)

Section Scan.

Variable getElementPath : Element -> option string.
Variable parseFloat : string -> option JS.number.
Context {W : Type}.
Variable getComputedStyle : Element -> W -> W * option Render.CSSStyleDeclaration.

Local Abbreviation pass := (examined getElementPath parseFloat getComputedStyle).
Local Abbreviation scan := (RenderQueries.scan getElementPath parseFloat getComputedStyle).

Lemma with_gpu_nil m :
  Render.with_gpu (Render.gpuAcceleratedElements m ++ []) m = m.
Proof. destruct m. unfold Render.with_gpu. simpl. now rewrite app_nil_r. Qed.

Lemma with_gpu_twice l more m :
  Render.with_gpu
    (Render.gpuAcceleratedElements (Render.with_gpu l m) ++ more)
    (Render.with_gpu l m)
  = Render.with_gpu (l ++ more) m.
Proof. reflexivity. Qed.

(** The loop of a batch is a pass over its slice. *)
Lemma batch_fold (l : list Element) :
  forall m w,
    fold_left
      (fun '(m, w) element =>
         let '(w, computedStyle) := getComputedStyle element w in
         match computedStyle with
         | Some computedStyle =>
             match Render.checkGPUAcceleration getElementPath parseFloat
                     element computedStyle with
             | Some gpuInfo =>
                 if Render.isAccelerated gpuInfo
                 then (Render.with_gpu (Render.gpuAcceleratedElements m ++ [gpuInfo]) m, w)
                 else (m, w)
             | None => (m, w)
             end
         | None => (m, w)
         end)
      l (m, w)
    = (Render.with_gpu (Render.gpuAcceleratedElements m ++ snd (pass l w)) m,
       fst (pass l w)).
Proof.
  induction l as [|element l IH]; intros m w.
  - simpl. now rewrite with_gpu_nil.
  - cbn [fold_left examined]. unfold found.
    destruct (getComputedStyle element w) as [w1 computedStyle].
    destruct computedStyle as [computedStyle|].
    + destruct (Render.checkGPUAcceleration getElementPath parseFloat element
                  computedStyle) as [gpuInfo|].
      * destruct (Render.isAccelerated gpuInfo).
        -- rewrite IH. destruct (pass l w1) as [w2 more]. cbn [fst snd].
           rewrite with_gpu_twice, <- app_assoc. reflexivity.
        -- rewrite IH. destruct (pass l w1) as [w2 more]. reflexivity.
      * rewrite IH. destruct (pass l w1) as [w2 more]. reflexivity.
    + rewrite IH. destruct (pass l w1) as [w2 more]. reflexivity.
Qed.

Lemma batch_is_examined candidates index m w :
  Render.processGPUAccelerationBatch getElementPath parseFloat getComputedStyle
    candidates index m w
  = let slice := firstn (Nat.min (index + 50) (List.length candidates) - index)
                        (skipn index candidates) in
    (Render.with_gpu (Render.gpuAcceleratedElements m ++ snd (pass slice w)) m,
     fst (pass slice w),
     if (Nat.min (index + 50) (List.length candidates) <? List.length candidates)%nat
     then Some (Nat.min (index + 50) (List.length candidates))
     else None).
Proof.
  unfold Render.processGPUAccelerationBatch. cbv zeta.
  rewrite batch_fold. reflexivity.
Qed.

Lemma examined_app l1 l2 w :
  pass (l1 ++ l2) w
  = (fst (pass l2 (fst (pass l1 w))),
     snd (pass l1 w) ++ snd (pass l2 (fst (pass l1 w)))).
Proof.
  revert w. induction l1 as [|element l1 IH]; intro w.
  - simpl. now destruct (pass l2 w).
  - cbn [app examined].
    destruct (getComputedStyle element w) as [w1 computedStyle].
    rewrite IH. destruct (pass l1 w1) as [w2 more]. cbn [fst snd].
    now rewrite app_assoc.
Qed.

Lemma scan_from fuel :
  forall candidates index m w,
    (List.length candidates - index <= 50 * fuel)%nat ->
    scan fuel candidates index m w
    = (Render.with_gpu
         (Render.gpuAcceleratedElements m
          ++ snd (pass (skipn index candidates) w)) m,
       fst (pass (skipn index candidates) w)).
Proof.
  induction fuel as [|fuel IH]; intros candidates index m w Hfuel.
  - simpl. rewrite skipn_all2 by lia. simpl. now rewrite with_gpu_nil.
  - cbn [RenderQueries.scan]. rewrite batch_is_examined. cbv zeta.
    destruct (Nat.ltb_spec (Nat.min (index + 50) (List.length candidates))
                           (List.length candidates)) as [Hlt|Hge].
    + replace (Nat.min (index + 50) (List.length candidates))
        with (index + 50)%nat by lia.
      rewrite IH by lia.
      replace (index + 50 - index)%nat with 50%nat by lia.
      rewrite with_gpu_twice, <- app_assoc.
      assert (E : pass (skipn index candidates) w
                  = (fst (pass (skipn (index + 50) candidates)
                            (fst (pass (firstn 50 (skipn index candidates)) w))),
                     snd (pass (firstn 50 (skipn index candidates)) w)
                     ++ snd (pass (skipn (index + 50) candidates)
                               (fst (pass (firstn 50 (skipn index candidates)) w))))).
      { rewrite <- (firstn_skipn 50 (skipn index candidates)) at 1.
        rewrite examined_app, skipn_skipn.
        replace (50 + index)%nat with (index + 50)%nat by lia.
        reflexivity. }
      rewrite E. reflexivity.
    + rewrite firstn_all2; [reflexivity|].
      rewrite length_skipn. lia.
Qed.

(** The replacement of [getComputedStyle] sees each read of a pass. *)
Lemma examined_through_hook {W0 : Type}
      (clock : nat -> JS.number)
      (original : Element -> W0 -> W0 * option Render.CSSStyleDeclaration)
      (candidates : list Element) :
  forall (h : RenderQueries.Window) (w0 : W0),
    let seen :=
      combine (map clock (seq (RenderQueries.reads h) (List.length candidates)))
              candidates in
    fst (fst (examined getElementPath parseFloat
                (RenderQueries.hooked_getComputedStyle clock original)
                candidates (h, w0)))
    = {| RenderQueries.hook := fst (RenderQueries.style_reads seen (RenderQueries.hook h));
         RenderQueries.marked :=
           RenderQueries.marked h
           ++ snd (RenderQueries.style_reads seen (RenderQueries.hook h));
         RenderQueries.reads := (RenderQueries.reads h + List.length candidates)%nat |}.
Proof.
  induction candidates as [|element l IH]; intros h w0; cbv zeta.
  - simpl. rewrite app_nil_r, Nat.add_0_r. destruct h; reflexivity.
  - cbn [examined List.length seq map combine RenderQueries.style_reads].
    unfold RenderQueries.hooked_getComputedStyle at 1.
    destruct (RenderQueries.style_read (clock (RenderQueries.reads h)) element
                (RenderQueries.hook h)) as [hook1 mark] eqn:Er.
    destruct (original element w0) as [w1 computedStyle].
    match goal with
    | |- context [examined _ _ _ l (?h1, w1)] =>
        specialize (IH h1 w1); cbv zeta in IH;
        destruct (examined getElementPath parseFloat
                    (RenderQueries.hooked_getComputedStyle clock original) l (h1, w1))
          as [[h2 w2] more]
    end.
    cbn [fst snd RenderQueries.reads RenderQueries.hook RenderQueries.marked] in IH.
    cbn [fst snd]. rewrite IH.
    destruct (RenderQueries.style_reads
                (combine (map clock (seq (S (RenderQueries.reads h)) (List.length l))) l)
                hook1) as [hook2 marks].
    cbn [fst snd]. f_equal.
    + destruct mark; [rewrite <- app_assoc|]; reflexivity.
    + lia.
Qed.

(** X18: the scan for accelerated elements works through the candidates
    fifty at a time, one batch per idle callback.  Each batch, whatever
    the monitor holds when it runs, reads the style of each candidate of
    its slice once, in order, through [window.getComputedStyle], appends
    the records of the accelerated ones whose style and path could be
    read, writes nothing else to the monitor, and asks for the next batch
    while candidates remain.  Taken together, once enough callbacks have
    run, the batches are a single pass over the candidates in document
    order.  What they read through is the replacement that [start()]
    installed: it counts each read of the scan like any other read, and
    calls [markRepaint] for the elements its counters single out; these
    marks are recorded later, by their timers. *)
Theorem batched_scan_is_one_pass
        (fuel : nat) (candidates : list Element) (m : Render.t) (w : W)
        (Hfuel : (List.length candidates <= 50 * fuel)%nat) :
  scan fuel candidates 0 m w
  = (Render.with_gpu
       (Render.gpuAcceleratedElements m ++ snd (pass candidates w)) m,
     fst (pass candidates w))
  /\ (forall (index : nat) (m0 : Render.t) (w0 : W),
         let endIndex := Nat.min (index + 50) (List.length candidates) in
         let slice := firstn (endIndex - index) (skipn index candidates) in
         Render.processGPUAccelerationBatch getElementPath parseFloat getComputedStyle
           candidates index m0 w0
         = (Render.with_gpu
              (Render.gpuAcceleratedElements m0 ++ snd (pass slice w0)) m0,
            fst (pass slice w0),
            if (endIndex <? List.length candidates)%nat then Some endIndex else None))
  /\ (forall (clock : nat -> JS.number) (h : RenderQueries.Window) (w0 : W),
         let seen :=
           combine (map clock (seq (RenderQueries.reads h) (List.length candidates)))
                   candidates in
         fst (fst (examined getElementPath parseFloat
                     (RenderQueries.hooked_getComputedStyle clock getComputedStyle)
                     candidates (h, w0)))
         = {| RenderQueries.hook :=
                fst (RenderQueries.style_reads seen (RenderQueries.hook h));
              RenderQueries.marked :=
                RenderQueries.marked h
                ++ snd (RenderQueries.style_reads seen (RenderQueries.hook h));
              RenderQueries.reads :=
                (RenderQueries.reads h + List.length candidates)%nat |}).
Proof.
  split; [|split].
  - rewrite scan_from by lia. reflexivity.
  - intros index m0 w0. apply batch_is_examined.
  - intros clock h w0. apply examined_through_hook.
Qed.

End Scan.

Lemma batched_scan_is_one_pass_witness :
  let clock (n : nat) := inject_Z (Z.of_nat n) in
  let lifted := RenderQueries.native_getComputedStyle
                  (fun _ => Some (with_transform "translateZ(0)")) in
  let getComputedStyle := RenderQueries.hooked_getComputedStyle clock lifted in
  let page := fold_left (fun w element => fst (getComputedStyle element w))
                        [box 9; box 9; box 9; box 9]
                        (RenderQueries.fresh_window, tt) in
  let after := RenderQueries.scan tag_path Render.parseFloat_decimal getComputedStyle
                 3 (map box (seq 0 120)) 0 Render.create page in
  List.length (Render.gpuAcceleratedElements (fst after)) = 120%nat
  /\ Render.repaints (fst after) = []
  /\ RenderQueries.marked (fst page) = []
  /\ hd_error (RenderQueries.marked (fst (snd after))) = Some (box 9)
  /\ RenderQueries.reads (fst (snd after)) = 124%nat.
Proof.
  cbv zeta.
  rewrite (proj1 (batched_scan_is_one_pass tag_path Render.parseFloat_decimal
                    (RenderQueries.hooked_getComputedStyle
                       (fun n => inject_Z (Z.of_nat n))
                       (RenderQueries.native_getComputedStyle
                          (fun _ => Some (with_transform "translateZ(0)"))))
                    3 (map box (seq 0 120)) Render.create _ 
                    ltac:(vm_compute; lia))).
  vm_compute. repeat split; reflexivity.
Defined.

(** ** The elements that should be accelerated *)

Section Recommendations.

Variable getElementPath : Element -> option string.
Variable parseFloat : string -> option JS.number.
Variable isHTMLElement : Element -> bool.
Variable getComputedStyle : Element -> option RenderQueries.AnimatedStyle.

Local Abbreviation recommended :=
  (RenderQueries.getElementsNeedingGPUAcceleration
     getElementPath parseFloat isHTMLElement getComputedStyle).
Local Abbreviation animated :=
  (animated_candidate getElementPath parseFloat isHTMLElement getComputedStyle).
Lemma animated_candidates_flat allElements :
  RenderQueries.animated_candidates
    getElementPath parseFloat isHTMLElement getComputedStyle allElements
  = flat_map animated allElements.
Proof.
  unfold RenderQueries.animated_candidates.
  match goal with |- fold_left ?F _ _ = _ => set (f := F) end.
  assert (H : forall l acc, fold_left f l acc = acc ++ flat_map animated l).
  { induction l as [|element l IH]; intro acc; cbn [fold_left flat_map].
    - now rewrite app_nil_r.
    - rewrite IH, app_assoc. f_equal.
      unfold f, animated_candidate.
      destruct (isHTMLElement element); [|now rewrite app_nil_r].
      destruct (RenderQueries.excluded element); [now rewrite app_nil_r|].
      destruct (getComputedStyle element) as [cs|]; [|now rewrite app_nil_r].
      destruct (RenderQueries.hasRealAnimation parseFloat cs); [|now rewrite app_nil_r].
      destruct (Render.checkGPUAcceleration getElementPath parseFloat element
                  (RenderQueries.computed cs)) as [gpuInfo|];
        [|now rewrite app_nil_r].
      destruct (negb (Render.isAccelerated gpuInfo)); [|now rewrite app_nil_r].
      destruct (getElementPath element) as [path|];
        [reflexivity | now rewrite app_nil_r]. }
  exact (H allElements []).
Qed.

Local Abbreviation sound :=
  (sound_entry getElementPath parseFloat isHTMLElement getComputedStyle).

Lemma animated_sound allElements m c :
  In c (flat_map animated allElements) -> sound allElements m c.
Proof.
  rewrite in_flat_map. intros [element [Hel Hin]].
  unfold animated_candidate in Hin.
  destruct (isHTMLElement element) eqn:Hh; [|destruct Hin].
  destruct (RenderQueries.excluded element) eqn:Hx; [destruct Hin|].
  destruct (getComputedStyle element) as [cs|] eqn:Hcs; [|destruct Hin].
  destruct (RenderQueries.hasRealAnimation parseFloat cs) eqn:Ha; [|destruct Hin].
  destruct (Render.checkGPUAcceleration getElementPath parseFloat element
              (RenderQueries.computed cs)) as [gpuInfo|] eqn:Hg; [|destruct Hin].
  destruct (negb (Render.isAccelerated gpuInfo)) eqn:Hn; [|destruct Hin].
  destruct (getElementPath element) as [path|] eqn:Hp; [|destruct Hin].
  destruct Hin as [<-|[]]. unfold sound_entry. cbn.
  split; [exact Hh | split; [exact Hx|]].
  exists cs, gpuInfo. split; [exact Hcs | split; [exact Hg | split]].
  - now apply negb_true_iff in Hn.
  - left. auto.
Qed.

Lemma recommended_sound allElements m :
  Forall (sound allElements m) (recommended allElements m).
Proof.
  unfold RenderQueries.getElementsNeedingGPUAcceleration. cbv zeta.
  rewrite animated_candidates_flat.
  assert (Hstart : Forall (sound allElements m) (flat_map animated allElements)).
  { apply Forall_forall. intros c Hc. now apply animated_sound. }
  assert (Hfe : Forall (fun fe => In fe (RenderQueries.getFrequentReflowElements 5 m))
                       (RenderQueries.getFrequentReflowElements 5 m)).
  { apply Forall_forall. auto. }
  revert Hstart Hfe.
  generalize (flat_map animated allElements).
  generalize (RenderQueries.getFrequentReflowElements 5 m) at 2 3.
  intro fes. induction fes as [|fe fes IH]; intros acc Hacc Hfes; cbn [fold_left].
  - exact Hacc.
  - inversion Hfes as [|? ? Hfe Hrest]; subst.
    apply IH; [|exact Hrest]. cbv zeta.
    destruct (isHTMLElement (RenderQueries.fe_element fe)) eqn:Hh; [|exact Hacc].
    destruct (RenderQueries.excluded (RenderQueries.fe_element fe)) eqn:Hx; [exact Hacc|].
    destruct (getComputedStyle (RenderQueries.fe_element fe)) as [cs|] eqn:Hcs;
      [|exact Hacc].
    destruct (Render.checkGPUAcceleration getElementPath parseFloat
                (RenderQueries.fe_element fe) (RenderQueries.computed cs))
      as [gpuInfo|] eqn:Hg; [|exact Hacc].
    destruct (negb (Render.isAccelerated gpuInfo)) eqn:Hn; [|exact Hacc].
    destruct (negb (existsb _ acc)); [|exact Hacc].
    apply Forall_app. split; [exact Hacc|].
    constructor; [|constructor].
    unfold sound_entry. cbn.
    split; [exact Hh | split; [exact Hx|]].
    exists cs, gpuInfo. split; [exact Hcs | split; [exact Hg | split]].
    + now apply negb_true_iff in Hn.
    + right. split; [reflexivity|]. now exists fe.
Qed.

(** X19: every entry of [getElementsNeedingGPUAcceleration] is an HTML
    element outside the excluded tags whose computed style could be read
    and shows no GPU acceleration.  It is listed either for a running
    animation or transition (then it is an element of the document, with
    its own path), or for frequent reflows (then it comes, with its
    path, from [getFrequentReflowElements(5)]). *)
Theorem recommended_elements_are_not_accelerated
        (allElements : list Element) (m : Render.t) (c : RenderQueries.Candidate)
        (Hc : In c (recommended allElements m)) :
  let element := RenderQueries.c_element c in
  isHTMLElement element = true
  /\ RenderQueries.excluded element = false
  /\ exists computedStyle gpuInfo,
      getComputedStyle element = Some computedStyle
      /\ Render.checkGPUAcceleration getElementPath parseFloat element
           (RenderQueries.computed computedStyle) = Some gpuInfo
      /\ Render.isAccelerated gpuInfo = false
      /\ ((RenderQueries.c_reason c = "has_animation"
           /\ In element allElements
           /\ getElementPath element = Some (RenderQueries.c_path c)
           /\ RenderQueries.hasRealAnimation parseFloat computedStyle = true)
          \/ (RenderQueries.c_reason c = "frequent_reflow"
              /\ exists fe,
                  In fe (RenderQueries.getFrequentReflowElements 5 m)
                  /\ RenderQueries.fe_element fe = element
                  /\ RenderQueries.fe_path fe = RenderQueries.c_path c)).
Proof.
  pose proof (recommended_sound allElements m) as H.
  rewrite Forall_forall in H. exact (H c Hc).
Qed.

Lemma NoDup_animated allElements :
  NoDup (map eid allElements) ->
  NoDup (map (fun c => eid (RenderQueries.c_element c))
             (flat_map animated allElements)).
Proof.
  induction allElements as [|element l IH]; simpl; intro H; [constructor|].
  inversion H as [|? ? Hnotin Hrest]; subst.
  rewrite map_app.
  assert (Hsub : forall n,
             In n (map (fun c => eid (RenderQueries.c_element c)) (flat_map animated l)) ->
             In n (map eid l)).
  { intros n Hn. apply in_map_iff in Hn. destruct Hn as [c [<- Hc]].
    apply in_flat_map in Hc. destruct Hc as [el [Hel Hc]].
    assert (RenderQueries.c_element c = el) as ->.
    { unfold animated_candidate in Hc.
      repeat match type of Hc with
             | In _ (if ?b then _ else _) => destruct b
             | In _ (match ?b with _ => _ end) => destruct b
             | In _ [] => destruct Hc
             | In _ [_] => destruct Hc as [<-|[]]
             end; reflexivity. }
    now apply in_map. }
  unfold animated_candidate at 1.
  repeat match goal with
         | |- context [if ?b then _ else _] => destruct b
         | |- context [match getComputedStyle ?e with _ => _ end] =>
             destruct (getComputedStyle e)
         | |- context [match Render.checkGPUAcceleration ?a ?b ?c ?d with _ => _ end] =>
             destruct (Render.checkGPUAcceleration a b c d)
         | |- context [match getElementPath ?e with _ => _ end] =>
             destruct (getElementPath e)
         end; simpl; auto.
  constructor; auto.
Qed.

(** X20: when the document lists each element once, no element appears
    twice in the result of [getElementsNeedingGPUAcceleration], also not
    once for its animation and once for its reflows. *)
Theorem no_element_is_recommended_twice
        (allElements : list Element) (m : Render.t)
        (Hdistinct : NoDup (map eid allElements)) :
  NoDup (map (fun c => eid (RenderQueries.c_element c)) (recommended allElements m)).
Proof.
  unfold RenderQueries.getElementsNeedingGPUAcceleration. cbv zeta.
  rewrite animated_candidates_flat.
  pose proof (NoDup_animated allElements Hdistinct) as Hstart.
  revert Hstart. generalize (flat_map animated allElements).
  generalize (RenderQueries.getFrequentReflowElements 5 m).
  intro fes. induction fes as [|fe fes IH]; intros acc Hacc; cbn [fold_left].
  - exact Hacc.
  - apply IH. cbv zeta.
    destruct (isHTMLElement (RenderQueries.fe_element fe)); [|exact Hacc].
    destruct (RenderQueries.excluded (RenderQueries.fe_element fe)); [exact Hacc|].
    destruct (getComputedStyle (RenderQueries.fe_element fe)) as [cs|]; [|exact Hacc].
    destruct (Render.checkGPUAcceleration getElementPath parseFloat
                (RenderQueries.fe_element fe) (RenderQueries.computed cs))
      as [gpuInfo|]; [|exact Hacc].
    destruct (negb (Render.isAccelerated gpuInfo)); [|exact Hacc].
    destruct (existsb _ acc) eqn:Hex; [exact Hacc|]. simpl.
    rewrite map_app. simpl.
    apply NoDup_app.
    + exact Hacc.
    + constructor; [intros [] | constructor].
    + intros n Hn [<-|[]].
      apply in_map_iff in Hn. destruct Hn as [c [Heq Hc]].
      assert (existsb (fun c => same_element (RenderQueries.c_element c)
                                             (RenderQueries.fe_element fe)) acc = true);
        [|congruence].
      apply existsb_exists. exists c. split; [exact Hc|].
      unfold same_element. now apply Nat.eqb_eq.
Qed.

End Recommendations.

Lemma recommended_elements_are_not_accelerated_witness :
  RenderQueries.hasRealAnimation Render.parseFloat_decimal
    {| RenderQueries.computed := initial_style;
       RenderQueries.animationName := "spin";
       RenderQueries.animationDuration := "1s" |} = true
  /\ option_map Render.isAccelerated
       (Render.checkGPUAcceleration tag_path Render.parseFloat_decimal (box 0)
          initial_style) = Some false.
Proof.
  destruct (recommended_elements_are_not_accelerated
              tag_path Render.parseFloat_decimal (fun _ => true) spinning
              [box 0] Render.create
              {| RenderQueries.c_element := box 0;
                 RenderQueries.c_path := "div";
                 RenderQueries.c_reason := "has_animation" |})
    as [_ [_ [cs [gpuInfo [Hcs [Hg [Hacc [[_ [_ [_ Hanim]]]|[Hreason _]]]]]]]]].
  - vm_compute. left. reflexivity.
  - injection Hcs as <-. split; [exact Hanim|].
    cbn [RenderQueries.computed RenderQueries.c_element] in Hg.
    rewrite Hg. simpl. now rewrite Hacc.
  - discriminate Hreason.
Defined.

Lemma no_element_is_recommended_twice_witness :
  NoDup (map (fun c => eid (RenderQueries.c_element c))
             (RenderQueries.getElementsNeedingGPUAcceleration
                tag_path Render.parseFloat_decimal (fun _ => true) spinning
                [box 0; box 1] (after_slow_frames 2))).
Proof.
  apply (no_element_is_recommended_twice
           tag_path Render.parseFloat_decimal (fun _ => true) spinning
           [box 0; box 1] (after_slow_frames 2)).
  repeat constructor; simpl; intuition discriminate.
Defined.

(** ** The path of an element *)

Lemma selector_fails current hasParent :
  Dom.selector current hasParent = None
  <-> Dom.n_id current = "" /\ Dom.n_className current = None.
Proof.
  unfold Dom.selector, Render.nonempty. cbv zeta.
  destruct (String.eqb_spec (Dom.n_id current) "") as [Hid|Hid]; simpl.
  - destruct (Dom.n_className current) as [className|].
    + split; [|intros [_ H]; discriminate].
      destruct (_ || _)%bool; [destruct hasParent|]; discriminate.
    + tauto.
  - split; [discriminate | tauto].
Qed.

Lemma walk_below_html html above nodes :
  is_html html = true ->
  nodes <> [] ->
  forallb (fun n => negb (is_html n)) (tl nodes) = true ->
  forall path,
    Dom.walk (nodes ++ html :: above) path
    = match all_defined (map (fun n => Dom.selector n true) nodes) with
      | Some selectors => Some (rev selectors ++ path)
      | None => None
      end.
Proof.
  intro Hhtml. induction nodes as [|n nodes IH]; intros Hne Htl path; [congruence|].
  destruct nodes as [|n' rest].
  - simpl. destruct (Dom.selector n true) as [s|]; [|reflexivity].
    unfold is_html in Hhtml. rewrite Hhtml. reflexivity.
  - cbn [tl forallb] in Htl. apply andb_true_iff in Htl. destruct Htl as [Hn' Hrest].
    change ((n :: n' :: rest) ++ html :: above)
      with (n :: (n' :: rest) ++ html :: above).
    cbn [Dom.walk map all_defined].
    change ((n' :: rest) ++ html :: above) with (n' :: (rest ++ html :: above)) at 1.
    cbv iota.
    destruct (Dom.selector n true) as [s|]; [|reflexivity].
    cbv zeta.
    change (n' :: (rest ++ html :: above)) with ((n' :: rest) ++ html :: above).
    cbn [app]. unfold is_html in Hn'. apply negb_true_iff in Hn'. rewrite Hn'.
    change (n' :: rest ++ html :: above) with ((n' :: rest) ++ html :: above).
    rewrite IH; [|discriminate|].
    + cbn [map all_defined].
      destruct (Dom.selector n' true) as [s'|]; [|reflexivity].
      destruct (all_defined (map _ rest)) as [l|]; [|reflexivity].
      cbn [rev]. now rewrite <- !app_assoc.
    + destruct rest; [reflexivity|]. exact Hrest.
Qed.

(** X21: walking up from an element, [getElementPath] stops below the
    [html] element: the path lists the element and its ancestors under
    [html], outermost first, and neither [html] nor anything above it.
    The call fails (it throws) exactly when one of those elements has no
    id and a [className] that is not a string. *)
Theorem element_path_stops_below_html
        (nodes : list Dom.Node) (html : Dom.Node) (above : list Dom.Node)
        (Hhtml : is_html html = true)
        (Hnodes : nodes <> [])
        (Hbelow : forallb (fun n => negb (is_html n)) (tl nodes) = true) :
  Dom.getElementPath (Some (nodes ++ html :: above))
  = option_map (fun selectors => String.concat " > " (rev selectors))
               (all_defined (map (fun n => Dom.selector n true) nodes))
  /\ (Dom.getElementPath (Some (nodes ++ html :: above)) = None
      <-> exists n, In n nodes /\ Dom.n_id n = "" /\ Dom.n_className n = None).
Proof.
  assert (Heq : Dom.getElementPath (Some (nodes ++ html :: above))
                = option_map (fun selectors => String.concat " > " (rev selectors))
                    (all_defined (map (fun n => Dom.selector n true) nodes))).
  { unfold Dom.getElementPath.
    rewrite (walk_below_html html above nodes Hhtml Hnodes Hbelow).
    destruct (all_defined _) as [l|]; [|reflexivity].
    simpl. now rewrite app_nil_r. }
  split; [exact Heq|]. rewrite Heq. clear.
  induction nodes as [|n nodes IH]; simpl.
  - split; [discriminate | intros [n [[] _]]].
  - destruct (Dom.selector n true) as [s|] eqn:Hs.
    + destruct (all_defined (map _ nodes)) as [l|]; simpl in *.
      * split; [discriminate|]. intros [x [[Hn|Hx] Hf]].
        -- subst x. apply (selector_fails n true) in Hf. congruence.
        -- assert (Habs : Some (String.concat " > " (rev l)) = None)
             by (apply IH; now exists x).
           discriminate Habs.
      * split; [|reflexivity]. intros _.
        destruct IH as [IH _]. destruct (IH eq_refl) as [x [Hx Hf]].
        exists x. split; [now right | exact Hf].
    + simpl. split; [|reflexivity]. intros _. exists n. split; [now left|].
      now apply (selector_fails n true).
Qed.

Lemma element_path_stops_below_html_witness :
  Dom.getElementPath
    (Some ([node "IMG" "" "hero  wide" 0; node "DIV" "app" "" 2; node "BODY" "" "" 1]
           ++ node "HTML" "" "" 0 :: []))
  = Some "body:nth-child(2) > div#app > img.hero.wide".
Proof.
  rewrite (proj1 (element_path_stops_below_html
                    [node "IMG" "" "hero  wide" 0; node "DIV" "app" "" 2;
                     node "BODY" "" "" 1]
                    (node "HTML" "" "" 0) []
                    eq_refl ltac:(discriminate) eq_refl)).
  reflexivity.
Defined.

(** ** Resources *)

Lemma callback_resources entries m :
  Resource.resources (Resource.callback entries m)
  = Resource.resources m
    ++ map Resource.resourceInfo (List.filter is_resource entries)
  /\ Resource.observers (Resource.callback entries m) = Resource.observers m.
Proof.
  unfold Resource.callback. revert m.
  induction entries as [|entry entries IH]; intro m; simpl.
  - now rewrite app_nil_r.
  - destruct (IH (if String.eqb (Resource.e_entryType entry) "resource"
                  then Resource.addResource entry m else m)) as [Hr Ho].
    rewrite Hr, Ho. unfold is_resource.
    destruct (String.eqb (Resource.e_entryType entry) "resource"); simpl.
    + now rewrite <- app_assoc.
    + auto.
Qed.

Lemma iter_callback entries n :
  forall m,
    Resource.resources (Nat.iter n (Resource.callback entries) m)
    = Resource.resources m
      ++ List.concat (repeat (map Resource.resourceInfo
                                  (List.filter is_resource entries)) n)
    /\ Resource.observers (Nat.iter n (Resource.callback entries) m)
       = Resource.observers m.
Proof.
  induction n as [|n IH]; intro m; simpl.
  - now rewrite app_nil_r.
  - destruct (callback_resources entries (Nat.iter n (Resource.callback entries) m))
      as [Hr Ho].
    destruct (IH m) as [Hr' Ho'].
    rewrite Hr, Ho, Hr', Ho'. split; [|reflexivity].
    rewrite <- app_assoc. f_equal.
    clear. induction n as [|n IHn]; simpl.
    + now rewrite app_nil_r.
    + now rewrite <- app_assoc, IHn.
Qed.

Lemma collectExisting_observers host m :
  Resource.observers (Resource.collectExistingResources host m) = Resource.observers m.
Proof.
  unfold Resource.collectExistingResources.
  destruct (Resource.getEntriesThrows host); [reflexivity|].
  revert m. induction (Resource.timeline host) as [|e l IH]; intro m; simpl; [reflexivity|].
  now rewrite IH.
Qed.

Lemma step_observers m ev :
  Resource.observers (Resource.step m ev)
  = (Resource.observers m + if observing_start ev then 1 else 0)%nat.
Proof.
  destruct ev as [host|entries]; simpl.
  - unfold Resource.start, Resource.observeNewResources.
    destruct (Resource.hasPerformance host); simpl; [|lia].
    destruct (Resource.hasPerformanceObserver host); simpl.
    + destruct (Resource.observeThrows host); simpl.
      * rewrite collectExisting_observers. lia.
      * destruct (callback_resources (Resource.timeline host)
                    {| Resource.resources := Resource.resources m;
                       Resource.observers := S (Resource.observers m) |}) as [_ Ho].
        rewrite Ho. simpl. lia.
    + rewrite collectExisting_observers. lia.
  - destruct (iter_callback entries (Resource.observers m) m) as [_ Ho].
    rewrite Ho. lia.
Qed.

Lemma run_observers evs :
  forall m,
    Resource.observers (Resource.run evs m)
    = (Resource.observers m + List.length (List.filter observing_start evs))%nat.
Proof.
  unfold Resource.run.
  induction evs as [|ev evs IH]; intro m; simpl; [lia|].
  rewrite IH, step_observers.
  destruct (observing_start ev); simpl; lia.
Qed.

(** X22: [start] sets up one more observer each time it gets that far,
    and none is ever disconnected: a batch of entries the browser
    delivers is recorded once per such [start], so twice after two of
    them and not at all before the first. *)
Theorem resources_are_recorded_once_per_start
        (evs : list Resource.event)
        (entries : list Resource.PerformanceResourceTiming) :
  let before := Resource.run evs Resource.create in
  Resource.resources (Resource.step before (Resource.Delivered entries))
  = Resource.resources before
    ++ List.concat
         (repeat (map Resource.resourceInfo (List.filter is_resource entries))
                 (List.length (List.filter observing_start evs))).
Proof.
  cbv zeta. simpl Resource.step.
  destruct (iter_callback entries
              (Resource.observers (Resource.run evs Resource.create))
              (Resource.run evs Resource.create)) as [Hr _].
  rewrite Hr, run_observers. reflexivity.
Qed.

Lemma info_integers entry :
  is_integer (Resource.duration (Resource.resourceInfo entry))
  /\ is_integer (Resource.startTime (Resource.resourceInfo entry)).
Proof.
  split; simpl; unfold JS.Math_round, is_integer; eexists; reflexivity.
Qed.

Lemma addResource_sound entry m :
  Forall sound_resource (Resource.resources m) ->
  Forall sound_resource (Resource.resources (Resource.addResource entry m)).
Proof.
  intro H. simpl. apply Forall_app. split; [exact H|].
  constructor; [|constructor].
  unfold sound_resource. simpl.
  repeat split; apply Math_round_integer.
Qed.

Lemma callback_sound entries :
  forall m,
    Forall sound_resource (Resource.resources m) ->
    Forall sound_resource (Resource.resources (Resource.callback entries m)).
Proof.
  unfold Resource.callback.
  induction entries as [|entry entries IH]; intros m H; simpl; [exact H|].
  apply IH. destruct (String.eqb _ _); [now apply addResource_sound | exact H].
Qed.

Lemma collectExisting_sound host m :
  Forall sound_resource (Resource.resources m) ->
  Forall sound_resource
         (Resource.resources (Resource.collectExistingResources host m)).
Proof.
  unfold Resource.collectExistingResources.
  destruct (Resource.getEntriesThrows host); [auto|].
  revert m. induction (Resource.timeline host) as [|e l IH]; intros m H; simpl; [exact H|].
  apply IH. now apply addResource_sound.
Qed.

Lemma step_sound m ev :
  Forall sound_resource (Resource.resources m) ->
  Forall sound_resource (Resource.resources (Resource.step m ev)).
Proof.
  intro H. destruct ev as [host|entries]; simpl.
  - unfold Resource.start, Resource.observeNewResources.
    destruct (Resource.hasPerformance host); simpl; [|exact H].
    destruct (Resource.hasPerformanceObserver host); simpl;
      [|now apply collectExisting_sound].
    destruct (Resource.observeThrows host); [now apply collectExisting_sound|].
    now apply callback_sound.
  - induction (Resource.observers m) as [|n IH]; simpl; [exact H|].
    now apply callback_sound.
Qed.

Lemma run_sound evs :
  forall m,
    Forall sound_resource (Resource.resources m) ->
    Forall sound_resource (Resource.resources (Resource.run evs m)).
Proof.
  unfold Resource.run.
  induction evs as [|ev evs IH]; intros m H; simpl; [exact H|].
  apply IH. now apply step_sound.
Qed.

(** X23: every record the monitor stores has whole-number [duration]
    and [startTime] and its [url] equal to its [name].  So at a
    whole-number threshold [n], [getSlowResources(n)] returns exactly the
    stored records whose duration is at least [n + 1]. *)
Theorem slow_resources_exceed_the_threshold_by_one
        (evs : list Resource.event) (n : Z) (r : Resource.ResourceInfo) :
  let m := Resource.run evs Resource.create in
  (In r (Resource.getResources m) ->
   is_integer (Resource.duration r) /\ is_integer (Resource.startTime r)
   /\ Resource.url r = Resource.name r)
  /\ (In r (Resource.getSlowResources (inject_Z n) m)
      <-> In r (Resource.getResources m)
          /\ inject_Z n + 1 <= Resource.duration r).
Proof.
  cbv zeta.
  pose proof (run_sound evs Resource.create (Forall_nil _)) as Hall.
  rewrite Forall_forall in Hall.
  unfold Resource.getResources, Resource.getSlowResources.
  split; [apply Hall|].
  rewrite filter_In, gt_true. split.
  - intros [Hin Hlt]. split; [exact Hin|].
    destruct (Hall r Hin) as [[z Hz] _]. rewrite Hz in *.
    rewrite <- Zlt_Qlt in Hlt.
    change 1 with (inject_Z 1). rewrite <- inject_Z_plus, <- Zle_Qle. lia.
  - intros [Hin Hle]. split; [exact Hin|]. lra.
Qed.

(** ** The type of a resource *)

Lemma split_no_dot ext :
  no_dot ext = true -> RenderQueries.split "." ext = [ext].
Proof.
  unfold no_dot. induction ext as [|c ext IH]; simpl; [reflexivity|].
  intro H. apply andb_true_iff in H. destruct H as [Hc Hext].
  apply negb_true_iff in Hc. rewrite Hc, (IH Hext). reflexivity.
Qed.

Lemma split_last_piece ext :
  no_dot ext = true ->
  forall prefix,
    exists head init,
      RenderQueries.split "." (prefix ++ String "." ext)%string
      = (head :: init) ++ [ext].
Proof.
  intro Hext. induction prefix as [|c prefix IH]; simpl.
  - exists EmptyString, []. now rewrite split_no_dot.
  - destruct IH as [head [init IH]]. rewrite IH.
    destruct (Ascii.eqb c "."); simpl.
    + now exists EmptyString, (head :: init).
    + now exists (String c head), init.
Qed.

Lemma type_of_extension_range extension :
  (exists name, Resource.type_of_extension extension = Resource.Named name
                /\ In name type_names)
  \/ (Resource.type_of_extension extension = Resource.Inherited extension
      /\ In extension Resource.inherited).
Proof.
  unfold Resource.type_of_extension.
  destruct (find _ Resource.typeMap) as [entry|] eqn:Hfind.
  - left. exists (snd entry). split; [reflexivity|].
    apply find_some in Hfind. destruct Hfind as [Hin _].
    unfold Resource.typeMap in Hin. simpl in Hin.
    repeat (destruct Hin as [<-|Hin]; [simpl; tauto|]). destruct Hin.
  - destruct (existsb _ Resource.inherited) eqn:Hex.
    + right. split; [reflexivity|].
      apply existsb_exists in Hex. destruct Hex as [k [Hk He]].
      apply String.eqb_eq in He. now subst k.
    + left. exists "other". split; [reflexivity | simpl; tauto].
Qed.

(** X24: [getResourceType] reads only what follows the last dot of the
    URL, whatever its case, and a URL without a dot is its own
    extension.  The answer is one of six names, except for the two
    lower-case keys that every object inherits ([constructor] and
    [__proto__]), for which the table lookup yields the inherited member
    instead of a name. *)
Theorem resource_type_is_read_after_the_last_dot
        (prefix ext : string) (Hext : no_dot ext = true) :
  Resource.getResourceType (prefix ++ String "." ext)%string
  = Resource.type_of_extension (JS.toLowerCase ext)
  /\ Resource.getResourceType ext = Resource.type_of_extension (JS.toLowerCase ext)
  /\ ((exists name,
          Resource.type_of_extension (JS.toLowerCase ext) = Resource.Named name
          /\ In name type_names)
      \/ (Resource.type_of_extension (JS.toLowerCase ext)
          = Resource.Inherited (JS.toLowerCase ext)
          /\ In (JS.toLowerCase ext) Resource.inherited)).
Proof.
  split; [|split].
  - unfold Resource.getResourceType.
    destruct (split_last_piece ext Hext prefix) as [head [init H]].
    now rewrite H, last_entry_app.
  - unfold Resource.getResourceType. now rewrite (split_no_dot ext Hext).
  - apply type_of_extension_range.
Qed.

Lemma resource_type_is_read_after_the_last_dot_witness :
  Resource.getResourceType "https://cdn.example.com/app.min.JS"
  = Resource.Named "script"
  /\ Resource.getResourceType "https://cdn.example.com/app.js?v=2"
     = Resource.Named "other".
Proof.
  split.
  - exact (proj1 (resource_type_is_read_after_the_last_dot
                    "https://cdn.example.com/app.min" "JS" eq_refl)).
  - exact (proj1 (resource_type_is_read_after_the_last_dot
                    "https://cdn.example.com/app" "js?v=2" eq_refl)).
Defined.

(** ** The helper *)

Section HelperFacts.

Variable getElementPath : Element -> option string.

Local Abbreviation init := (Helper.init getElementPath).
Local Abbreviation step := (Helper.step getElementPath).
Local Abbreviation run := (Helper.run getElementPath).
Local Abbreviation reportPerformance := (Helper.reportPerformance getElementPath).

Lemma reportPerformance_parts env h :
  Helper.performanceCollector (fst (reportPerformance env h))
  = fst (Collector.collect getElementPath (Helper.host env)
           (Helper.performanceCollector h))
  /\ Helper.resourceMonitor (fst (reportPerformance env h)) = Helper.resourceMonitor h
  /\ Helper.options (fst (reportPerformance env h)) = Helper.options h
  /\ Helper.initialized (fst (reportPerformance env h)) = Helper.initialized h
  /\ Helper.loadListeners (fst (reportPerformance env h)) = Helper.loadListeners h.
Proof.
  unfold Helper.reportPerformance.
  destruct (Collector.collect _ _ _) as [c metrics].
  destruct (Reporter.report _ _ _) as [r out]. simpl. auto.
Qed.

Lemma init_initialized env h :
  Helper.initialized h = false ->
  Helper.sampled_out env h = false ->
  Helper.initialized (fst (init env h)) = true.
Proof.
  intros Hfresh Hout. unfold Helper.init. rewrite Hfresh, Hout. cbv zeta.
  match goal with |- context [let '(a, b) := ?x in _] => destruct x end.
  reflexivity.
Qed.

(** X25: [init()] leaves the helper untouched for sampling reasons
    exactly when the merged sample rate is a number other than zero and
    [Math.random()] lies above it.  A rate of zero therefore samples
    every page, as a missing rate does. *)
Theorem sampling_skips_only_above_a_nonzero_rate
        (env : Helper.Env) (h : Helper.t)
        (Hfresh : Helper.initialized h = false)
        (Hrandom : Helper.random env < 1) :
  init env h = (h, [])
  <-> exists rate,
      Helper.sampleRate (Helper.options h) = Some rate
      /\ ~ rate == 0 /\ rate < Helper.random env.
Proof.
  destruct (Helper.sampled_out env h) eqn:Hout.
  - split; [intros _ | unfold Helper.init; rewrite Hfresh, Hout; reflexivity].
    unfold Helper.sampled_out in Hout. apply gt_true in Hout.
    destruct (Helper.sampleRate (Helper.options h)) as [rate|]; [|lra].
    exists rate. split; [reflexivity|].
    unfold JS.or_num in Hout.
    destruct (JS.truthy rate) eqn:Ht.
    + apply truthy_true in Ht. auto.
    + lra.
  - split.
    + intro H. exfalso.
      pose proof (init_initialized env h Hfresh Hout) as Hi.
      rewrite H in Hi. simpl in Hi. congruence.
    + intros [rate [Hrate [Hnz Hlt]]]. exfalso.
      unfold Helper.sampled_out in Hout. rewrite Hrate in Hout.
      apply gt_false in Hout. unfold JS.or_num in Hout.
      destruct (JS.truthy rate) eqn:Ht; [lra|].
      apply truthy_false in Ht. auto.
Qed.

(** *** After [destroy()] *)

Lemma observers_legacy h c :
  observers_of (Collector.collectNavigationTimingLegacy h c) = observers_of c.
Proof.
  unfold Collector.collectNavigationTimingLegacy.
  destruct (Collector.performance h) as [perf|]; auto.
  destruct (Collector.timing perf); reflexivity.
Qed.

Lemma observers_navigation h c :
  observers_of (Collector.collectNavigationTiming h c) = observers_of c.
Proof.
  unfold Collector.collectNavigationTiming.
  destruct (Collector.performance h) as [perf|] eqn:E; auto.
  destruct (Collector.has_getEntriesByType perf); simpl; auto.
  destruct (Collector.navigationEntries perf) as [[|nav l]|]; try reflexivity.
  apply observers_legacy.
Qed.

Lemma observers_collectFinalLCP h c :
  observers_of (Collector.collectFinalLCP getElementPath h c) = observers_of c.
Proof.
  unfold Collector.collectFinalLCP.
  destruct (Collector.performance h) as [perf|]; auto.
  destruct (negb (Collector.has_getEntriesByType perf)); auto.
  destruct (Collector.lcpEntries perf) as [es|]; auto.
  destruct (0 <? List.length es)%nat; auto.
  destruct (JS.last_entry es) as [e|]; auto.
  match goal with |- context [JS.gt ?v 0] => destruct (JS.gt v 0) end; auto.
  destruct (Collector.lcp_element e) as [el|]; try reflexivity.
  destruct (getElementPath el) as [path|]; try reflexivity.
  destruct (negb _); reflexivity.
Qed.

Lemma observers_collect h c :
  observers_of (fst (Collector.collect getElementPath h c)) = observers_of c.
Proof.
  unfold Collector.collect. cbn [fst].
  now rewrite observers_collectFinalLCP, observers_navigation.
Qed.

Lemma detached_of_observers c c' :
  observers_of c' = observers_of c -> detached c -> detached c'.
Proof.
  unfold observers_of, detached. intros [= -> -> -> -> ->]. auto.
Qed.

Lemma detached_destroy c : detached (Collector.destroy c).
Proof.
  unfold detached, Collector.destroy. simpl.
  repeat split; apply observing_disconnect.
Qed.

Lemma detached_ignores c batch :
  detached c -> is_observation batch = true ->
  Collector.step getElementPath c batch = c.
Proof.
  intros [H1 [H2 [H3 [H4 H5]]]] Hb.
  destruct batch; try discriminate; simpl;
    rewrite ?H1, ?H2, ?H3, ?H4, ?H5; reflexivity.
Qed.

Lemma detached_reportPerformance env h :
  detached (Helper.performanceCollector h) ->
  detached (Helper.performanceCollector (fst (reportPerformance env h))).
Proof.
  intro H. destruct (reportPerformance_parts env h) as [-> _].
  eapply detached_of_observers; [apply observers_collect | exact H].
Qed.

Lemma detached_step h ev :
  detached (Helper.performanceCollector h) ->
  detached (Helper.performanceCollector (fst (step h ev))).
Proof.
  intro H. destruct ev; cbn [Helper.step].
  - unfold Helper.init.
    destruct (Helper.initialized h); [exact H|].
    destruct (Helper.sampled_out env h); [exact H|].
    cbv zeta.
    set (h1 := if Helper.enabled (Helper.monitorResources (Helper.options h))
               then _ else h).
    assert (H1 : detached (Helper.performanceCollector h1))
      by (subst h1; destruct (Helper.enabled _); exact H).
    clearbody h1.
    set (h2 := if Helper.enabled (Helper.monitorErrors (Helper.options h1))
               then _ else h1).
    assert (H2 : detached (Helper.performanceCollector h2))
      by (subst h2; destruct (Helper.enabled _); exact H1).
    clearbody h2. clear h1 H1.
    destruct (Helper.enabled (Helper.monitorPerformance (Helper.options h2))).
    + destruct (Helper.readyComplete env).
      * pose proof (detached_reportPerformance env h2 H2) as H3.
        unfold Helper.collectAndReportPerformance.
        destruct (reportPerformance env h2) as [h3 out]. exact H3.
      * exact H2.
    + exact H2.
  - now apply detached_reportPerformance.
  - unfold Helper.getPerformanceMetrics.
    destruct (Collector.collect getElementPath (Helper.host env)
                (Helper.performanceCollector h)) as [c metrics] eqn:E.
    simpl. eapply detached_of_observers; [|exact H].
    change c with (fst (c, metrics)). rewrite <- E. apply observers_collect.
  - unfold Helper.reportCustom.
    destruct (Reporter.report _ _ _) as [r out]. exact H.
  - unfold Helper.destroy.
    destruct (Reporter.destroy _ _) as [r out]. simpl. apply detached_destroy.
  - destruct (0 <? Helper.loadListeners h)%nat; [|exact H].
    now apply detached_reportPerformance.
  - destruct batch; try exact H;
      cbn [fst Helper.performanceCollector Helper.with_collector];
      match goal with
      | |- context [Collector.step _ ?c ?b] => rewrite (detached_ignores c b H eq_refl)
      end; exact H.
  - destruct ev; try exact H;
      match goal with
      | |- context [Reporter.step ?r ?e] => destruct (Reporter.step r e) as [r' out]
      end; exact H.
  - exact H.
Qed.

Lemma detached_run evs :
  forall h, detached (Helper.performanceCollector h) ->
            detached (Helper.performanceCollector (fst (run evs h))).
Proof.
  induction evs as [|ev evs IH]; intros h H; [exact H|].
  cbn [Helper.run].
  pose proof (detached_step h ev H) as H1.
  destruct (step h ev) as [h1 out1].
  specialize (IH h1 H1).
  destruct (run evs h1) as [h2 out2]. exact IH.
Qed.

(** X26: [destroy()] disconnects the collector's observers and nothing
    in the helper creates them again, not even a later [init()].  So
    after [destroy()], whatever else happens to the helper, a batch of
    observations the browser delivers leaves the collector as it is. *)
Theorem destroyed_helper_never_observes_again
        (env : Helper.Env) (h : Helper.t) (evs : list Helper.event)
        (batch : Collector.event) :
  let later := fst (run evs (fst (Helper.destroy env h))) in
  detached (Helper.performanceCollector later)
  /\ Helper.performanceCollector (fst (step later (Helper.Observed batch)))
     = Helper.performanceCollector later.
Proof.
  cbv zeta.
  assert (H : detached (Helper.performanceCollector
                          (fst (run evs (fst (Helper.destroy env h)))))).
  { apply detached_run. unfold Helper.destroy.
    destruct (Reporter.destroy _ _) as [r out]. simpl. apply detached_destroy. }
  split; [exact H|].
  destruct batch; try reflexivity;
    cbn [Helper.step fst Helper.performanceCollector Helper.with_collector];
    match goal with
    | |- context [Collector.step _ ?c ?b] => now rewrite (detached_ignores c b H eq_refl)
    end.
Qed.

(** X27: an [init()] that gets past the sampling check starts the
    resource monitor, which sets up a new observer; [destroy()] neither
    stops it nor changes the options, and makes the helper ready for
    another [init()].  Each round of [init()] and [destroy()] thus
    leaves one more resource observer behind. *)
Theorem each_initialisation_adds_a_resource_observer
        (env env' : Helper.Env) (h : Helper.t)
        (Hfresh : Helper.initialized h = false)
        (Hsampled : Helper.sampled_out env h = false)
        (Hresources : Helper.enabled (Helper.monitorResources (Helper.options h)) = true)
        (Hhost : observes_resources (Helper.resourceHost env) = true) :
  let started := fst (init env h) in
  let stopped := fst (Helper.destroy env' started) in
  Resource.observers (Helper.resourceMonitor started)
  = S (Resource.observers (Helper.resourceMonitor h))
  /\ Helper.initialized started = true
  /\ Helper.initialized stopped = false
  /\ Helper.resourceMonitor stopped = Helper.resourceMonitor started
  /\ Helper.options stopped = Helper.options h.
Proof.
  cbv zeta.
  assert (Hd : forall x,
             Helper.initialized (fst (Helper.destroy env' x)) = false
             /\ Helper.resourceMonitor (fst (Helper.destroy env' x))
                = Helper.resourceMonitor x
             /\ Helper.options (fst (Helper.destroy env' x)) = Helper.options x).
  { intro x. unfold Helper.destroy.
    destruct (Reporter.destroy _ _) as [r out]. simpl. auto. }
  assert (Hi : Resource.observers (Helper.resourceMonitor (fst (init env h)))
               = S (Resource.observers (Helper.resourceMonitor h))
               /\ Helper.initialized (fst (init env h)) = true
               /\ Helper.options (fst (init env h)) = Helper.options h).
  { unfold Helper.init. rewrite Hfresh, Hsampled, Hresources. cbv zeta.
    set (h1 := Helper.with_resourceMonitor _ h).
    assert (H1 : Resource.observers (Helper.resourceMonitor h1)
                 = S (Resource.observers (Helper.resourceMonitor h))
                 /\ Helper.options h1 = Helper.options h).
    { subst h1. simpl. split; [|reflexivity].
      unfold observes_resources in Hhost.
      apply andb_true_iff in Hhost. destruct Hhost as [Hhost Hthrows].
      apply andb_true_iff in Hhost. destruct Hhost as [Hperf Hpo].
      apply negb_true_iff in Hthrows.
      unfold Resource.start, Resource.observeNewResources.
      rewrite Hperf, Hpo, Hthrows. simpl.
      destruct (callback_resources (Resource.timeline (Helper.resourceHost env))
                  {| Resource.resources := Resource.resources (Helper.resourceMonitor h);
                     Resource.observers := S (Resource.observers (Helper.resourceMonitor h)) |})
        as [_ Ho].
      exact Ho. }
    clearbody h1.
    set (h2 := if Helper.enabled (Helper.monitorErrors (Helper.options h1))
               then _ else h1).
    assert (H2 : Resource.observers (Helper.resourceMonitor h2)
                 = S (Resource.observers (Helper.resourceMonitor h))
                 /\ Helper.options h2 = Helper.options h)
      by (subst h2; destruct (Helper.enabled (Helper.monitorErrors _)); exact H1).
    clearbody h2. clear h1 H1. destruct H2 as [H2 H2'].
    destruct (Helper.enabled (Helper.monitorPerformance (Helper.options h2))).
    - destruct (Helper.readyComplete env).
      + unfold Helper.collectAndReportPerformance.
        destruct (reportPerformance_parts env h2) as [_ [Hr [Ho _]]].
        destruct (reportPerformance env h2) as [h3 out]. simpl in *.
        rewrite Hr, Ho. auto.
      + simpl. auto.
    - simpl. auto. }
  destruct Hi as [Hi1 [Hi2 Hi3]].
  destruct (Hd (fst (init env h))) as [Hd1 [Hd2 Hd3]].
  repeat split; auto. now rewrite Hd3.
Qed.

End HelperFacts.

Lemma sampling_skips_only_above_a_nonzero_rate_witness :
  Helper.init tag_path (helper_env (3 # 4)) (constructed (Some (1 # 2)))
  = (constructed (Some (1 # 2)), [])
  /\ Helper.constructor (helper_env (3 # 4)) (helper_options (Some (1 # 2)))
     = Some (constructed (Some (1 # 2))).
Proof.
  split; [|reflexivity].
  apply (proj2 (sampling_skips_only_above_a_nonzero_rate
                  tag_path (helper_env (3 # 4)) (constructed (Some (1 # 2)))
                  eq_refl eq_refl)).
  exists (1 # 2). split; [reflexivity|]. split; [discriminate | reflexivity].
Defined.

Lemma each_initialisation_adds_a_resource_observer_witness :
  Resource.observers
    (Helper.resourceMonitor
       (fst (Helper.init tag_path (helper_env (3 # 4)) (constructed (Some 0))))) = 1%nat.
Proof.
  exact (proj1 (each_initialisation_adds_a_resource_observer
                  tag_path (helper_env (3 # 4)) (helper_env (1 # 4))
                  (constructed (Some 0)) eq_refl eq_refl eq_refl eq_refl)).
Defined.
